(** * Trucker fleet manager: the data layer and its derived views

    A shallow embedding of [data_manager.py] (class [DataManager]) and of the
    pieces of the Streamlit modules that compute values from it: the
    dashboard's compliance table, low-stock count and alert section, the
    inventory page's low-stock list, purchase order, remove-stock form and
    quick restock, the add-load and add-vehicle forms, the permit page's
    expiration lists and the maintenance page's alert list.

    Records are Python dicts read from JSON: finite maps from field names to
    values.  The six JSON files are one [store] value; [load_data] reads a
    component and [save_data] replaces it.  An uncaught Python exception is
    the [Raise] result; nothing is saved on that path. *)

From Stdlib Require Import ZArith String Ascii List Lia PrimFloat FloatOps SpecFloat.
From stdpp Require Import gmap strings list fin_maps.

Open Scope Z_scope.

(** ** Python values and exceptions *)

Module Py.

(** The JSON-representable values the records hold.  [route_permits] is the
    only list-valued field, a list of permit numbers. *)
Inductive value :=
| VNone
| VBool (b : bool)
| VInt (n : Z)
| VFloat (f : float)
| VStr (s : string)
| VList (l : list string).

Inductive exn :=
| KeyError (k : string)
| ValueError
| TypeError.

Inductive res (A : Type) :=
| Ok (a : A)
| Raise (e : exn).
Arguments Ok {A} a.
Arguments Raise {A} e.

#[export] Instance res_ret : MRet res := λ A a, Ok a.
#[export] Instance res_bind : MBind res := λ A B f m,
  match m with Ok a => f a | Raise e => Raise e end.

Definition of_option {A} (e : exn) (o : option A) : res A :=
  match o with Some a => Ok a | None => Raise e end.

(** [d[k]] *)
Definition getitem (d : gmap string value) (k : string) : res value :=
  of_option (KeyError k) (d !! k).

(** [d.get(k, dflt)] *)
Definition get (d : gmap string value) (k : string) (dflt : value) : value :=
  default dflt (d !! k).

(** [str] required: [datetime.fromisoformat] raises [TypeError] on anything
    else. *)
Definition as_str (v : value) : res string :=
  match v with VStr s => Ok s | _ => Raise TypeError end.

(** The integer a value stands for in arithmetic ([bool] is a subclass of
    [int]). *)
Definition int_of (v : value) : option Z :=
  match v with
  | VBool b => Some (Z.b2z b)
  | VInt n => Some n
  | _ => None
  end.

(** Quantities are integers in this program (InventoryState maps item keys to
    integer counts and the forms read them with integer steps); a value of
    another type in a quantity position is reported as [TypeError]. *)
Definition as_int (v : value) : res Z := of_option TypeError (int_of v).

(** [int == float] compares exact values. *)
Definition Z_eq_float (z : Z) (f : float) : bool :=
  match Prim2SF f with
  | S754_zero _ => z =? 0
  | S754_finite s m e =>
      let mz := if s then Z.neg m else Z.pos m in
      if 0 <=? e then z =? mz * 2 ^ e else z * 2 ^ (- e) =? mz
  | _ => false
  end.

(** [a == b] *)
Definition py_eq (a b : value) : bool :=
  match a, b with
  | VNone, VNone => true
  | VStr s, VStr t => String.eqb s t
  | VList l, VList k => bool_decide (l = k)
  | VFloat f, VFloat g => PrimFloat.eqb f g
  | VFloat f, _ => match int_of b with Some n => Z_eq_float n f | None => false end
  | _, VFloat g => match int_of a with Some n => Z_eq_float n g | None => false end
  | _, _ =>
      match int_of a, int_of b with
      | Some m, Some n => m =? n
      | _, _ => false
      end
  end.

(** Truth value of an object, as [if v:] tests it. *)
Definition truthy (v : value) : bool :=
  match v with
  | VNone => false
  | VBool b => b
  | VInt n => negb (n =? 0)
  | VFloat f => negb (PrimFloat.eqb f 0)
  | VStr s => negb (String.eqb s "")
  | VList l => match l with [] => false | _ => true end
  end.

(** A [str] is held as its UTF-8 bytes: [==], [<], [split] and [replace]
    with ASCII arguments give the same answers on the bytes as on the code
    points.  [str.upper], [str.lower] and [str.title] follow the Unicode
    tables, which are not modelled: the operations that call them take them
    as arguments.  On ASCII text they are [upper_ascii] below and
    [Text.lower_ascii], [Text.title_ascii]; the scenarios, which are ASCII,
    run with these. *)
Fixpoint is_ascii (s : string) : bool :=
  match s with
  | EmptyString => true
  | String c s' => (nat_of_ascii c <? 128)%nat && is_ascii s'
  end.

Definition upper_char (c : ascii) : ascii :=
  let n := nat_of_ascii c in
  if ((97 <=? n) && (n <=? 122))%nat then ascii_of_nat (n - 32) else c.

(** [s.upper()] for an ASCII [s] *)
Fixpoint upper_ascii (s : string) : string :=
  match s with
  | EmptyString => EmptyString
  | String c s' => String (upper_char c) (upper_ascii s')
  end.

(** [str(n)] for an [int]: the decimal digits, most significant first.  The
    fuel bounds the number of digits. *)
Definition digit_char (d : Z) : ascii := ascii_of_nat (48 + Z.to_nat d).

Fixpoint digits_of (fuel : nat) (n : Z) (acc : string) : string :=
  match fuel with
  | O => acc
  | S fuel' =>
      let acc' := String (digit_char (n mod 10)) acc in
      if n <? 10 then acc' else digits_of fuel' (n / 10) acc'
  end.

Definition str_nat (n : Z) : string := digits_of (S (Z.to_nat (Z.log2 n))) n "".

Definition str_int (n : Z) : string :=
  if n <? 0 then "-" +:+ str_nat (- n) else str_nat n.

Fixpoint zeros (n : nat) : string :=
  match n with O => "" | S n' => String "0" (zeros n') end.

(** [s.rjust(width, '0')] *)
Definition zfill (width : nat) (s : string) : string :=
  zeros (width - String.length s) +:+ s.

(** The format specification [{n:06d}]: at least six characters, the sign
    first. *)
Definition format_06d (n : Z) : string :=
  if n <? 0 then "-" +:+ zfill 5 (str_nat (- n)) else zfill 6 (str_nat n).

(** [{n:02d}] and [{n:04d}], used by [isoformat]. *)
Definition format_0d (width : nat) (n : Z) : string := zfill width (str_int n).

End Py.
Import Py.

(** ** Dates and times

    [datetime.now()] is an argument of every operation that reads the clock.
    A naive [datetime] is its seven fields; [date()] keeps the first three. *)

Module Clock.

Record datetime := mk_datetime {
  year : Z; month : Z; day : Z;
  hour : Z; minute : Z; second : Z; microsecond : Z
}.

Definition is_leap (y : Z) : bool :=
  (y mod 4 =? 0) && (negb (y mod 100 =? 0) || (y mod 400 =? 0)).

Definition days_in_month (y m : Z) : Z :=
  if m =? 2 then (if is_leap y then 29 else 28)
  else if (m =? 4) || (m =? 6) || (m =? 9) || (m =? 11) then 30
  else 31.

Definition days_before_year (y : Z) : Z :=
  let y1 := y - 1 in y1 * 365 + y1 / 4 - y1 / 100 + y1 / 400.

Definition days_before_month (y m : Z) : Z :=
  fold_right Z.add 0 (map (days_in_month y) (map Z.of_nat (seq 1 (Z.to_nat (m - 1))))).

(** [d.toordinal()] of the calendar date of [d]: day 1 is 0001-01-01. *)
Definition toordinal (d : datetime) : Z :=
  days_before_year (year d) + days_before_month (year d) (month d) + day d.

(** [(a.date() - b.date()).days] *)
Definition date_diff_days (a b : datetime) : Z := toordinal a - toordinal b.

(** [a.date() > b.date()] *)
Definition date_gt (a b : datetime) : bool := toordinal b <? toordinal a.

Definition microseconds (d : datetime) : Z :=
  (((toordinal d * 24 + hour d) * 60 + minute d) * 60 + second d) * 1000000
  + microsecond d.

(** [(a - b).days]: a [timedelta] is normalised with [0 <= seconds], so its
    day count is the floor. *)
Definition days_since (a b : datetime) : Z :=
  (microseconds a - microseconds b) / 86400000000.

(** [d.isoformat()] *)
Definition isoformat (d : datetime) : string :=
  format_0d 4 (year d) +:+ "-" +:+ format_0d 2 (month d) +:+ "-"
  +:+ format_0d 2 (day d) +:+ "T" +:+ format_0d 2 (hour d) +:+ ":"
  +:+ format_0d 2 (minute d) +:+ ":" +:+ format_0d 2 (second d)
  +:+ (if microsecond d =? 0 then "" else "." +:+ format_0d 6 (microsecond d)).

(** A reader for the two layouts this program writes: [YYYY-MM-DD] (form
    dates) and [YYYY-MM-DDTHH:MM:SS[.ffffff]] (time stamps).  It is used to
    run the scenarios; the operations below take the reader as an argument. *)
Definition digit (c : ascii) : option Z :=
  let n := nat_of_ascii c in
  if ((48 <=? n) && (n <=? 57))%nat then Some (Z.of_nat (n - 48)) else None.

Fixpoint digits (acc : Z) (s : string) : option Z :=
  match s with
  | EmptyString => Some acc
  | String c s' => d ← digit c; digits (acc * 10 + d) s'
  end.

Definition number (width : nat) (s : string) : option Z :=
  if (String.length s =? width)%nat then digits 0 s else None.

Definition read_date (s : string) : option (Z * Z * Z) :=
  y ← number 4 (substring 0 4 s);
  m ← number 2 (substring 5 2 s);
  d ← number 2 (substring 8 2 s);
  if String.eqb (substring 4 1 s) "-" && String.eqb (substring 7 1 s) "-"
     && (1 <=? y) && (1 <=? m) && (m <=? 12) && (1 <=? d) && (d <=? days_in_month y m)
  then Some (y, m, d) else None.

Definition read_time (s : string) : option (Z * Z * Z * Z) :=
  h ← number 2 (substring 0 2 s);
  mi ← number 2 (substring 3 2 s);
  se ← number 2 (substring 6 2 s);
  us ← (if (String.length s =? 8)%nat then Some 0
        else if String.eqb (substring 8 1 s) "." && (String.length s =? 15)%nat
             then number 6 (substring 9 6 s) else None);
  if String.eqb (substring 2 1 s) ":" && String.eqb (substring 5 1 s) ":"
     && (h <? 24) && (mi <? 60) && (se <? 60)
  then Some (h, mi, se, us) else None.

Definition read_isoformat (s : string) : option datetime :=
  '(y, m, d) ← read_date (substring 0 10 s);
  if (String.length s =? 10)%nat then Some (mk_datetime y m d 0 0 0 0)
  else
    '(h, mi, se, us) ← read_time (substring 11 (String.length s - 11) s);
    Some (mk_datetime y m d h mi se us).

End Clock.
Import Clock.

(** ** data_manager.py *)

Module DataManager.

(** The persisted documents, one per entity type.  [load_data] of a missing
    or unreadable file yields the component of [default_data]. *)
Record store := mk_store {
  vehicles : list (gmap string value);
  maintenance : list (gmap string value);
  inventory : gmap string Z;
  permits : list (gmap string value);
  token_tax : list (gmap string value);
  loads : list (gmap string value)
}.

Definition default_data : store :=
  mk_store [] [] {[ "oil" := 0; "air_filter" := 0; "tires" := 0 ]} [] [] [].

(** [save_data(key, data)] for the keys the operations write. *)
Definition save_vehicles (data : list (gmap string value)) (st : store) : store :=
  mk_store data (maintenance st) (inventory st) (permits st) (token_tax st) (loads st).

Definition save_maintenance (data : list (gmap string value)) (st : store) : store :=
  mk_store (vehicles st) data (inventory st) (permits st) (token_tax st) (loads st).

Definition save_inventory (data : gmap string Z) (st : store) : store :=
  mk_store (vehicles st) (maintenance st) data (permits st) (token_tax st) (loads st).

Definition save_loads (data : list (gmap string value)) (st : store) : store :=
  mk_store (vehicles st) (maintenance st) (inventory st) (permits st) (token_tax st) data.

(** What a mutating operation hands back: the [(success, message)] pair and
    the documents as they are on disk afterwards. *)
Definition outcome : Type := bool * string * store.

(** A comprehension [[x for x in l if f x]] whose test may raise. *)
Fixpoint filter_res {A} (f : A → res bool) (l : list A) : res (list A) :=
  match l with
  | [] => Ok []
  | x :: l' =>
      b ← f x;
      r ← filter_res f l';
      Ok (if b : bool then x :: r else r)
  end.

(** A loop that appends to one result list. *)
Fixpoint flat_map_res {A B} (f : A → res (list B)) (l : list A) : res (list B) :=
  match l with
  | [] => Ok []
  | x :: l' =>
      a ← f x;
      r ← flat_map_res f l';
      Ok (a ++ r)
  end.

(** [record['plate_number'] == plate_number] *)
Definition has_plate (plate_number : value) (record : gmap string value) : res bool :=
  p ← getitem record "plate_number";
  Ok (py_eq p plate_number).

(** The duplicate check of [add_vehicle]: the loop returns at the first
    vehicle with the new record's plate number. *)
Fixpoint plate_number_exists (vehicles : list (gmap string value))
    (vehicle_data : gmap string value) : res bool :=
  match vehicles with
  | [] => Ok false
  | vehicle :: rest =>
      p ← getitem vehicle "plate_number";
      q ← getitem vehicle_data "plate_number";
      if py_eq p q then Ok true else plate_number_exists rest vehicle_data
  end.

Definition add_vehicle (now : datetime) (vehicle_data : gmap string value)
    (st : store) : res outcome :=
  let vehicles := vehicles st in
  dup ← plate_number_exists vehicles vehicle_data;
  if dup : bool then Ok (false, "Vehicle with this plate number already exists", st)
  else
    let vehicle_data := <["created_at" := VStr (isoformat now)]> vehicle_data in
    let vehicle_data := <["id" := VInt (Z.of_nat (length vehicles) + 1)]> vehicle_data in
    Ok (true, "Vehicle added successfully", save_vehicles (vehicles ++ [vehicle_data]) st).

(** [for i, record in enumerate(records): if record[key] == k: ...]: the
    index of the first match. *)
Fixpoint find_index (key : string) (k : value) (records : list (gmap string value))
    : res (option nat) :=
  match records with
  | [] => Ok None
  | record :: rest =>
      v ← getitem record key;
      if py_eq v k then Ok (Some O)
      else i ← find_index key k rest; Ok (option_map S i)
  end.

(** [record.update(updated_data); record['updated_at'] = now.isoformat()] *)
Definition merge_update (now : datetime) (updated_data record : gmap string value)
    : gmap string value :=
  <["updated_at" := VStr (isoformat now)]> (updated_data ∪ record).

Definition update_vehicle (now : datetime) (plate_number : value)
    (updated_data : gmap string value) (st : store) : res outcome :=
  let vehicles := vehicles st in
  i ← find_index "plate_number" plate_number vehicles;
  match i with
  | Some i =>
      Ok (true, "Vehicle updated successfully",
          save_vehicles (alter (merge_update now updated_data) i vehicles) st)
  | None => Ok (false, "Vehicle not found", st)
  end.

(** The three deductions of [add_maintenance_record] on the inventory held
    in memory: [inl] is the early [return False, message]. *)
Definition deduct_oil (maintenance_data : gmap string value) (inventory : gmap string Z)
    : string + gmap string Z :=
  if truthy (get maintenance_data "oil_changed" (VBool false)) then
    if 0 <? default 0 (inventory !! "oil")
    then inr (<["oil" := default 0 (inventory !! "oil") - 1]> inventory)
    else inl "Insufficient oil in inventory"
  else inr inventory.

Definition deduct_air_filter (maintenance_data : gmap string value)
    (inventory : gmap string Z) : string + gmap string Z :=
  if truthy (get maintenance_data "air_filter_changed" (VBool false)) then
    if 0 <? default 0 (inventory !! "air_filter")
    then inr (<["air_filter" := default 0 (inventory !! "air_filter") - 1]> inventory)
    else inl "Insufficient air filters in inventory"
  else inr inventory.

Definition deduct_tires (maintenance_data : gmap string value)
    (inventory : gmap string Z) : res (string + gmap string Z) :=
  tires_changed ← as_int (get maintenance_data "tires_changed" (VInt 0));
  if 0 <? tires_changed then
    if tires_changed <=? default 0 (inventory !! "tires")
    then Ok (inr (<["tires" := default 0 (inventory !! "tires") - tires_changed]> inventory))
    else Ok (inl "Insufficient tires in inventory")
  else Ok (inr inventory).

Definition add_maintenance_record (now : datetime)
    (maintenance_data : gmap string value) (st : store) : res outcome :=
  let maintenance_records := maintenance st in
  let inventory := inventory st in
  match deduct_oil maintenance_data inventory with
  | inl message => Ok (false, message, st)
  | inr inventory =>
      match deduct_air_filter maintenance_data inventory with
      | inl message => Ok (false, message, st)
      | inr inventory =>
          r ← deduct_tires maintenance_data inventory;
          match r with
          | inl message => Ok (false, message, st)
          | inr inventory =>
              let st := save_inventory inventory st in
              let maintenance_data :=
                <["created_at" := VStr (isoformat now)]> maintenance_data in
              let maintenance_data :=
                <["id" := VInt (Z.of_nat (length maintenance_records) + 1)]>
                  maintenance_data in
              Ok (true, "Maintenance record added successfully",
                  save_maintenance (maintenance_records ++ [maintenance_data]) st)
          end
      end
  end.

(** The in-memory effect of [update_inventory] on the mapping. *)
Definition updated_inventory (item_type : string) (quantity : Z) (operation : string)
    (inventory : gmap string Z) : gmap string Z :=
  let inventory :=
    match inventory !! item_type with
    | None => <[item_type := 0]> inventory
    | Some _ => inventory
    end in
  let current := default 0 (inventory !! item_type) in
  if String.eqb operation "add" then <[item_type := current + quantity]> inventory
  else if String.eqb operation "subtract"
       then <[item_type := Z.max 0 (current - quantity)]> inventory
  else if String.eqb operation "set" then <[item_type := quantity]> inventory
  else inventory.

Definition update_inventory (item_type : string) (quantity : Z) (operation : string)
    (st : store) : outcome :=
  let inventory := updated_inventory item_type quantity operation (inventory st) in
  (true,
   "Inventory updated: " +:+ item_type +:+ " = "
     +:+ str_int (default 0 (inventory !! item_type)),
   save_inventory inventory st).

Definition add_load (now : datetime) (load_data : gmap string value) (st : store)
    : outcome :=
  let loads := loads st in
  let load_number := "LD" +:+ format_06d (Z.of_nat (length loads) + 1) in
  let load_data := <["load_number" := VStr load_number]> load_data in
  let load_data := <["created_at" := VStr (isoformat now)]> load_data in
  let load_data := <["id" := VInt (Z.of_nat (length loads) + 1)]> load_data in
  (true, "Load " +:+ load_number +:+ " added successfully",
   save_loads (loads ++ [load_data]) st).

(** [loads[i]['status'] = new_status; loads[i]['updated_at'] = ...] is the
    merge of the one-field update [{'status': new_status}]. *)
Definition update_load_status (now : datetime) (load_number new_status : value)
    (st : store) : res outcome :=
  let loads := loads st in
  i ← find_index "load_number" load_number loads;
  match i with
  | Some i =>
      Ok (true, "Load status updated successfully",
          save_loads (alter (merge_update now {[ "status" := new_status ]}) i loads) st)
  | None => Ok (false, "Load not found", st)
  end.

Definition save_permits (data : list (gmap string value)) (st : store) : store :=
  mk_store (vehicles st) (maintenance st) (inventory st) data (token_tax st) (loads st).

Definition save_token_tax (data : list (gmap string value)) (st : store) : store :=
  mk_store (vehicles st) (maintenance st) (inventory st) (permits st) data (loads st).

Definition get_vehicles (st : store) : list (gmap string value) := vehicles st.

Definition get_inventory (st : store) : gmap string Z := inventory st.

(** The loop of [get_vehicle_by_plate]: the first vehicle with the plate,
    [None] when the loop ends. *)
Fixpoint first_with_plate (plate_number : value) (vehicles : list (gmap string value))
    : res (option (gmap string value)) :=
  match vehicles with
  | [] => Ok None
  | vehicle :: rest =>
      p ← getitem vehicle "plate_number";
      if py_eq p plate_number then Ok (Some vehicle)
      else first_with_plate plate_number rest
  end.

Definition get_vehicle_by_plate (plate_number : value) (st : store)
    : res (option (gmap string value)) :=
  first_with_plate plate_number (vehicles st).

(** The body shared by [get_maintenance_records], [get_permits],
    [get_token_tax] and [get_loads]: [if plate_number:] filters, anything
    false (the default [None], an empty string) returns the collection. *)
Definition by_plate (plate_number : value) (records : list (gmap string value))
    : res (list (gmap string value)) :=
  if truthy plate_number then filter_res (has_plate plate_number) records
  else Ok records.

Definition get_maintenance_records (plate_number : value) (st : store)
    : res (list (gmap string value)) :=
  by_plate plate_number (maintenance st).

Definition get_permits (plate_number : value) (st : store)
    : res (list (gmap string value)) :=
  by_plate plate_number (permits st).

Definition get_token_tax (plate_number : value) (st : store)
    : res (list (gmap string value)) :=
  by_plate plate_number (token_tax st).

Definition get_loads (plate_number : value) (st : store)
    : res (list (gmap string value)) :=
  by_plate plate_number (loads st).

Definition add_permit (now : datetime) (permit_data : gmap string value) (st : store)
    : outcome :=
  let permits := permits st in
  let permit_data := <["created_at" := VStr (isoformat now)]> permit_data in
  let permit_data := <["id" := VInt (Z.of_nat (length permits) + 1)]> permit_data in
  (true, "Permit added successfully", save_permits (permits ++ [permit_data]) st).

Definition add_token_tax (now : datetime) (tax_data : gmap string value) (st : store)
    : outcome :=
  let tax_records := token_tax st in
  let tax_data := <["created_at" := VStr (isoformat now)]> tax_data in
  let tax_data := <["id" := VInt (Z.of_nat (length tax_records) + 1)]> tax_data in
  (true, "Token tax record added successfully",
   save_token_tax (tax_records ++ [tax_data]) st).

Section Derived.

(** [datetime.fromisoformat]: [None] is the [ValueError] of an unreadable
    string. *)
Variable fromisoformat : string → option datetime.

Definition parse_field (record : gmap string value) (field : string) : res datetime :=
  v ← getitem record field;
  s ← as_str v;
  of_option ValueError (fromisoformat s).

(** The test of the loop body shared by [get_expiring_permits] and
    [get_expiring_taxes]. *)
Definition expires_within (now : datetime) (days_ahead : Z)
    (record : gmap string value) : res bool :=
  expire_date ← parse_field record "expire_date";
  let days_to_expire := date_diff_days expire_date now in
  Ok (days_to_expire <=? days_ahead).

Definition get_expiring_permits (now : datetime) (days_ahead : Z) (st : store)
    : res (list (gmap string value)) :=
  filter_res (expires_within now days_ahead) (permits st).

Definition get_expiring_taxes (now : datetime) (days_ahead : Z) (st : store)
    : res (list (gmap string value)) :=
  filter_res (expires_within now days_ahead) (token_tax st).

(** The key [x.get('created_at', '')] of [max]; the stamps are strings, and
    any other type fails in [max] or in [fromisoformat] with [TypeError]. *)
Definition created_at_key (m : gmap string value) : res string :=
  as_str (get m "created_at" (VStr "")).

(** [max(l, key=...)] on a non-empty list: the first element whose key no
    later key exceeds. *)
Fixpoint max_from {A} (key : A → string) (best : A) (l : list A) : A :=
  match l with
  | [] => best
  | x :: l' =>
      if String.ltb (key best) (key x) then max_from key x l'
      else max_from key best l'
  end.

Definition with_key (m : gmap string value) : res (string * gmap string value) :=
  k ← created_at_key m; Ok (k, m).

Definition maintenance_alert (plate_number : value) (text priority : string)
    : gmap string value :=
  {[ "plate_number" := plate_number; "alert" := VStr text; "priority" := VStr priority ]}.

(** The body of the loop over vehicles in [get_maintenance_alerts]. *)
Definition vehicle_alerts (now : datetime) (maintenance_records : list (gmap string value))
    (vehicle : gmap string value) : res (list (gmap string value)) :=
  plate_number ← getitem vehicle "plate_number";
  vehicle_maintenance ← filter_res (has_plate plate_number) maintenance_records;
  match vehicle_maintenance with
  | first :: others =>
      k ← with_key first;
      ks ← mapM with_key others;
      let last_maintenance := snd (max_from fst k ks) in
      s ← as_str (get last_maintenance "created_at" (VStr (isoformat now)));
      last_date ← of_option ValueError (fromisoformat s);
      let days_since := days_since now last_date in
      if 90 <? days_since then
        Ok [maintenance_alert plate_number
              ("Last maintenance " +:+ str_int days_since +:+ " days ago")
              (if 180 <? days_since then "high" else "medium")]
      else Ok []
  | [] =>
      Ok [maintenance_alert plate_number "No maintenance records found" "high"]
  end.

Definition get_maintenance_alerts (now : datetime) (st : store)
    : res (list (gmap string value)) :=
  flat_map_res (vehicle_alerts now (maintenance st)) (vehicles st).

End Derived.

End DataManager.
Import DataManager.

(** ** Text helpers of the forms *)

Module Text.

(** [s.split(" - ")[0]] *)
Fixpoint split_head (s : string) : string :=
  match s with
  | EmptyString => EmptyString
  | String c s' => if String.prefix " - " s then EmptyString else String c (split_head s')
  end.

Definition is_lower (c : ascii) : bool :=
  let n := nat_of_ascii c in ((97 <=? n) && (n <=? 122))%nat.

Definition is_upper (c : ascii) : bool :=
  let n := nat_of_ascii c in ((65 <=? n) && (n <=? 90))%nat.

Definition lower_char (c : ascii) : ascii :=
  if is_upper c then ascii_of_nat (nat_of_ascii c + 32) else c.

(** [s.replace('_', ' ')] *)
Fixpoint underscores_to_spaces (s : string) : string :=
  match s with
  | EmptyString => EmptyString
  | String c s' =>
      String (if Ascii.eqb c "_" then " "%char else c) (underscores_to_spaces s')
  end.

(** [s.title()] for an ASCII [s]: a letter after a non-letter is
    uppercased, a letter after a letter is lowercased. *)
Fixpoint title_ascii_from (after_letter : bool) (s : string) : string :=
  match s with
  | EmptyString => EmptyString
  | String c s' =>
      let letter := is_lower c || is_upper c in
      let c' := if letter then (if after_letter then lower_char c else upper_char c)
                else c in
      String c' (title_ascii_from letter s')
  end.

Definition title_ascii (s : string) : string := title_ascii_from false s.

(** [s.lower()] for an ASCII [s] *)
Fixpoint lower_ascii (s : string) : string :=
  match s with
  | EmptyString => EmptyString
  | String c s' => String (lower_char c) (lower_ascii s')
  end.

(** [s.replace(' ', '_')] *)
Fixpoint spaces_to_underscores (s : string) : string :=
  match s with
  | EmptyString => EmptyString
  | String c s' =>
      String (if Ascii.eqb c " " then "_"%char else c) (spaces_to_underscores s')
  end.

(** The select-box label [f"{v['plate_number']} - {v['driver_name']}"] of the
    load, permit and edit forms, for a plate and a driver name that are
    strings. *)
Definition vehicle_option (plate_number driver_name : string) : string :=
  plate_number +:+ " - " +:+ driver_name.

End Text.

(** ** dashboard_module.py *)

Module Dashboard.

(** One entry of [compliance_data]: the dict literal
    [{'vehicle', 'status', 'color', 'permits', 'taxes'}]. *)
Record compliance := mk_compliance {
  vehicle : value;
  status : string;
  color : string;
  valid_permit_count : nat;
  valid_tax_count : nat
}.

Section Compliance.

Variable fromisoformat : string → option datetime.

(** [datetime.fromisoformat(r['expire_date']).date() > current_date] *)
Definition unexpired (now : datetime) (record : gmap string value) : res bool :=
  expire_date ← parse_field fromisoformat record "expire_date";
  Ok (date_gt expire_date now).

(** The body of the loop over vehicles in [show_document_compliance]. *)
Definition vehicle_compliance (now : datetime)
    (permits tax_records : list (gmap string value)) (vehicle : gmap string value)
    : res compliance :=
  plate ← getitem vehicle "plate_number";
  vehicle_permits ← filter_res (has_plate plate) permits;
  valid_permits ← filter_res (unexpired now) vehicle_permits;
  vehicle_taxes ← filter_res (has_plate plate) tax_records;
  valid_taxes ← filter_res (unexpired now) vehicle_taxes;
  let has_permit := (0 <? length valid_permits)%nat in
  let has_tax := (0 <? length valid_taxes)%nat in
  let '(status, color) :=
    if has_permit && has_tax then ("Compliant", "#00cc96")
    else if has_permit || has_tax then ("Partial", "#ffa15a")
    else ("Non-Compliant", "#ef553b") in
  Ok (mk_compliance plate status color (length valid_permits) (length valid_taxes)).

Definition show_document_compliance (now : datetime)
    (vehicles permits tax_records : list (gmap string value)) : res (list compliance) :=
  mapM (vehicle_compliance now permits tax_records) vehicles.

End Compliance.

(** [sum([1 for item, qty in inventory.items() if qty < 5])] of
    [show_kpi_metrics]; [show_inventory_status] counts the same items. *)
Definition low_stock_count (inventory : gmap string Z) : nat :=
  length (List.filter (λ '(_, qty), qty <? 5) (map_to_list inventory)).

(** A line of [critical_alerts] or [warning_alerts]: the f-string it is
    built from and the values interpolated. *)
Inductive alert_line :=
| MaintenanceLine (plate_number alert_type : value)
| PermitLine (plate_number : value) (days : Z)
| TaxLine (plate_number : value) (days : Z)
| OutOfStockLine (item : string)
| LowStockLine (item : string) (quantity : Z).

Section Alerts.

Variable fromisoformat : string → option datetime.

(** [str.title] *)
Variable title : string → string.

(** The statement after the loop over [maintenance_alerts]: it reads the
    loop variables [alert] and [alert_type] as the last iteration left
    them.  [None] is the case of no iteration, where [alert] is unbound. *)
Definition maintenance_lines (maintenance_alerts : list (gmap string value))
    : res (option (list alert_line * list alert_line)) :=
  match last maintenance_alerts with
  | None => Ok None
  | Some alert =>
      let alert_type :=
        match alert !! "alert_type" with
        | Some v => v
        | None => get alert "alert" (VStr "No details")
        end in
      priority ← getitem alert "priority";
      plate_number ← getitem alert "plate_number";
      if py_eq priority (VStr "high")
      then Ok (Some ([MaintenanceLine plate_number alert_type], []))
      else Ok (Some ([], [MaintenanceLine plate_number alert_type]))
  end.

(** The loops over [expiring_permits] and [expiring_taxes]. *)
Fixpoint document_lines (line : value → Z → alert_line) (now : datetime)
    (documents : list (gmap string value)) : res (list alert_line * list alert_line) :=
  match documents with
  | [] => Ok ([], [])
  | document :: rest =>
      expire_date ← parse_field fromisoformat document "expire_date";
      let days := date_diff_days expire_date now in
      plate_number ← getitem document "plate_number";
      '(critical, warning) ← document_lines line now rest;
      if days <=? 7 then Ok (line plate_number days :: critical, warning)
      else Ok (critical, line plate_number days :: warning)
  end.

(** The loop over [inventory.items()]. *)
Fixpoint inventory_lines (items : list (string * Z)) : list alert_line * list alert_line :=
  match items with
  | [] => ([], [])
  | (item, quantity) :: rest =>
      let '(critical, warning) := inventory_lines rest in
      let name := title (Text.underscores_to_spaces item) in
      if quantity =? 0 then (OutOfStockLine name :: critical, warning)
      else if quantity <? 5 then (critical, LowStockLine name quantity :: warning)
      else (critical, warning)
  end.

(** [show_alerts_section] up to the two lists it displays.  [inl] is the
    [UnboundLocalError] for the name given. *)
Definition show_alerts_section (now : datetime) (st : store)
    : res (string + (list alert_line * list alert_line)) :=
  maintenance_alerts ← get_maintenance_alerts fromisoformat now st;
  expiring_permits ← get_expiring_permits fromisoformat now 30 st;
  expiring_taxes ← get_expiring_taxes fromisoformat now 30 st;
  let inventory := get_inventory st in
  m ← maintenance_lines maintenance_alerts;
  match m with
  | None => Ok (inl "alert")
  | Some (critical_m, warning_m) =>
      '(critical_p, warning_p) ← document_lines PermitLine now expiring_permits;
      '(critical_t, warning_t) ← document_lines TaxLine now expiring_taxes;
      let '(critical_i, warning_i) := inventory_lines (map_to_list inventory) in
      Ok (inr (critical_m ++ critical_p ++ critical_t ++ critical_i,
               warning_m ++ warning_p ++ warning_t ++ warning_i))
  end.

End Alerts.

End Dashboard.

(** ** inventory_module.py *)

Module InventoryModule.

Definition reorder_levels : gmap string Z :=
  {[ "oil" := 5; "air_filter" := 10; "tires" := 8 ]}.

Definition get_reorder_level (item_type : string) : Z :=
  default 5 (reorder_levels !! item_type).

Section Views.

(** [str.title] and [str.lower] *)
Variable title : string → string.
Variable lower : string → string.

(** One entry of [low_stock_items]. *)
Record low_stock := mk_low_stock {
  item : string;
  current_stock : Z;
  reorder_level : Z;
  priority : string;
  recommended_order : Z
}.

(** The conditional expression for [priority].  [reorder_level * 0.5] is the
    float of exact value level/2, and Python compares an [int] with a
    [float] by exact value: [quantity <= reorder_level * 0.5] is
    [2 * quantity <= reorder_level]. *)
Definition priority_of (quantity reorder_level : Z) : string :=
  if quantity =? 0 then "Critical"
  else if 2 * quantity <=? reorder_level then "High"
  else "Medium".

(** The body of the loop over [inventory.items()]: [None] when the item is
    not appended. *)
Definition low_stock_entry (item_key : string) (quantity : Z) : option low_stock :=
  let reorder_level := get_reorder_level item_key in
  if quantity <=? reorder_level then
    Some (mk_low_stock (title (Text.underscores_to_spaces item_key)) quantity
            reorder_level (priority_of quantity reorder_level)
            (Z.max (reorder_level * 2 - quantity) reorder_level))
  else None.

(** The list is built in the mapping's iteration order. *)
Definition show_low_stock_alerts (inventory : gmap string Z) : list low_stock :=
  omap (λ '(item_key, quantity), low_stock_entry item_key quantity)
       (map_to_list inventory).

(** [show_current_stock] with the "Remove Stock" form submitted: the three
    metrics read [inventory['oil']], [inventory['air_filter']] and
    [inventory['tires']] before the form is reached.  [inl] is the
    [st.error] text, with nothing saved. *)
Definition remove_stock_form (item_type_remove : string) (quantity_remove : Z)
    (st : store) : res (string + outcome) :=
  let inventory := get_inventory st in
  _ ← of_option (KeyError "oil") (inventory !! "oil");
  _ ← of_option (KeyError "air_filter") (inventory !! "air_filter");
  _ ← of_option (KeyError "tires") (inventory !! "tires");
  current_stock ← of_option (KeyError item_type_remove) (inventory !! item_type_remove);
  if current_stock <? quantity_remove then
    Ok (inl ("Cannot remove " +:+ str_int quantity_remove +:+ " "
             +:+ Text.underscores_to_spaces item_type_remove +:+ ". Only "
             +:+ str_int current_stock +:+ " available."))
  else Ok (inr (update_inventory item_type_remove quantity_remove "subtract" st)).

(** One entry of the purchase order suggestion of [show_current_stock]. *)
Record purchase_line := mk_purchase_line {
  po_item : string;
  po_current_stock : Z;
  po_reorder_level : Z;
  suggested_order : Z
}.

Definition purchase_entry (item_key : string) (quantity : Z) : option purchase_line :=
  if quantity <? get_reorder_level item_key then
    Some (mk_purchase_line (title (Text.underscores_to_spaces item_key)) quantity
            (get_reorder_level item_key) (get_reorder_level item_key * 2 - quantity))
  else None.

Definition purchase_order (inventory : gmap string Z) : list purchase_line :=
  omap (λ '(item_key, quantity), purchase_entry item_key quantity)
       (map_to_list inventory).

(** The "Quick Restock" button of a listed item. *)
Definition quick_restock (entry : low_stock) (st : store) : outcome :=
  update_inventory (Text.spaces_to_underscores (lower (item entry)))
    (recommended_order entry) "add" st.

End Views.

End InventoryModule.

(** ** load_module.py *)

Module LoadModule.

(** The widgets of [add_load_form].  The number inputs have
    [min_value=0.0] and yield floats; the date and time pickers are held
    as the text their [isoformat()] gives. *)
Record load_form := mk_load_form {
  selected_vehicle : string;
  loading_date : string;
  source : string;
  party_name : string;
  contractor : string;
  destination : string;
  gross_weight : float;
  tare_weight : float;
  rate_per_unit : float;
  advance_payment : float;
  product_type : string;
  loading_time : string;
  delivery_date : string;
  delivery_time : string;
  status : string;
  notes : string
}.

Definition net_weight (f : load_form) : float :=
  if PrimFloat.ltb (tare_weight f) (gross_weight f)
  then (gross_weight f - tare_weight f)%float else 0%float.

Definition amount (f : load_form) : float := (net_weight f * rate_per_unit f)%float.

Definition pending_amount (f : load_form) : float := (amount f - advance_payment f)%float.

(** [all([selected_vehicle, loading_date, source, party_name, gross_weight,
    tare_weight, rate_per_unit])]; a date object is always true. *)
Definition required_filled (f : load_form) : bool :=
  truthy (VStr (selected_vehicle f)) && truthy (VStr (source f))
  && truthy (VStr (party_name f)) && truthy (VFloat (gross_weight f))
  && truthy (VFloat (tare_weight f)) && truthy (VFloat (rate_per_unit f)).

Definition load_data_of (now : datetime) (load_number : string) (f : load_form)
    : gmap string value :=
  let plate_number :=
    if truthy (VStr (selected_vehicle f)) then Text.split_head (selected_vehicle f)
    else "" in
  list_to_map
    [ ("load_number", VStr load_number);
      ("plate_number", VStr plate_number);
      ("loading_date", VStr (loading_date f));
      ("source", VStr (source f));
      ("destination", VStr (destination f));
      ("gross_weight", VFloat (gross_weight f));
      ("tare_weight", VFloat (tare_weight f));
      ("net_weight", VFloat (net_weight f));
      ("rate_per_unit", VFloat (rate_per_unit f));
      ("amount", VFloat (amount f));
      ("advance_payment", VFloat (advance_payment f));
      ("pending_amount", VFloat (pending_amount f));
      ("party_name", VStr (party_name f));
      ("contractor", VStr (contractor f));
      ("product_type", VStr (product_type f));
      ("loading_time", VStr (loading_time f));
      ("delivery_date", VStr (delivery_date f));
      ("delivery_time", VStr (delivery_time f));
      ("status", VStr (status f));
      ("notes", VStr (notes f));
      ("created_at", VStr (isoformat now)) ].

(** The submitted form: [inl] is the [st.error] text, with nothing saved;
    [inr] is the outcome of [add_load]. *)
Definition show_add_load_form (now : datetime) (f : load_form) (st : store)
    : string + outcome :=
  let existing_loads := loads st in
  let load_number := "LD" +:+ format_06d (Z.of_nat (length existing_loads) + 1) in
  if negb (required_filled f)
  then inl "Please fill in all required fields (marked with *)!"
  else if PrimFloat.leb (net_weight f) 0
  then inl "Net weight must be positive. Check gross and tare weights."
  else inr (add_load now (load_data_of now load_number f) st).

End LoadModule.

(** ** vehicle_module.py *)

Module VehicleModule.

(** The widgets of [add_vehicle_form] as the user left them;
    [selected_permits] are labels of the multiselect. *)
Record vehicle_form := mk_vehicle_form {
  plate_number : string;
  driver_name : string;
  helper_name : string;
  selected_permits : list string;
  tanker_size : Z;
  vehicle_type : string;
  make_model : string;
  year : Z;
  engine_type : string;
  status : string
}.

Section AddVehicle.

(** [str.upper] *)
Variable upper : string → string.

(** The dict built on submit, from the widgets and the labels picked in
    the multiselect. *)
Definition vehicle_data_of (selected_permits : list string) (f : vehicle_form)
    : gmap string value :=
  let permit_numbers := map Text.split_head selected_permits in
  list_to_map
    [ ("plate_number", VStr (upper (plate_number f)));
      ("driver_name", VStr (driver_name f));
      ("helper_name", VStr (helper_name f));
      ("route_permits", VList permit_numbers);
      ("tanker_size", VInt (tanker_size f));
      ("vehicle_type", VStr (vehicle_type f));
      ("make_model", VStr (make_model f));
      ("year", VInt (year f));
      ("engine_type", VStr (engine_type f));
      ("status", VStr (status f)) ].

(** The two fields the label [f"{p['permit_number']} - {p['location']}"] of
    a permit is made of. *)
Definition permit_option (p : gmap string value) : res (value * value) :=
  permit_number ← getitem p "permit_number";
  location ← getitem p "location";
  Ok (permit_number, location).

(** The submitted form.  Before the submit button is looked at, the form
    lists every stored permit for the multiselect; a permit without a
    number or a location fails there, and with no permit to offer nothing
    is selected.  [inl] is the [st.error] of the required-field check. *)
Definition show_add_vehicle_form (now : datetime) (f : vehicle_form) (st : store)
    : res (string + outcome) :=
  permits ← get_permits VNone st;
  available_permits ← mapM permit_option permits;
  let selected_permits :=
    match available_permits with
    | [] => []
    | _ => selected_permits f
    end in
  if negb (truthy (VStr (plate_number f))) || negb (truthy (VStr (driver_name f)))
  then Ok (inl "Plate Number and Driver Name are required fields!")
  else r ← add_vehicle now (vehicle_data_of selected_permits f) st; Ok (inr r).

End AddVehicle.

(** The widgets of [edit_vehicle_form]; the plate is shown, not edited.
    [updated_data_of] is the dict the submitted form hands to
    [update_vehicle]. *)
Record edit_form := mk_edit_form {
  e_driver_name : string;
  e_helper_name : string;
  e_selected_permits : list string;
  e_tanker_size : Z;
  e_vehicle_type : string;
  e_make_model : string;
  e_year : Z;
  e_engine_type : string;
  e_status : string
}.

Definition updated_data_of (f : edit_form) : gmap string value :=
  let permit_numbers := map Text.split_head (e_selected_permits f) in
  list_to_map
    [ ("driver_name", VStr (e_driver_name f));
      ("helper_name", VStr (e_helper_name f));
      ("route_permits", VList permit_numbers);
      ("tanker_size", VInt (e_tanker_size f));
      ("vehicle_type", VStr (e_vehicle_type f));
      ("make_model", VStr (e_make_model f));
      ("year", VInt (e_year f));
      ("engine_type", VStr (e_engine_type f));
      ("status", VStr (e_status f)) ].

End VehicleModule.

(** ** permit_module.py *)

Module PermitModule.

Section Expiration.

Variable fromisoformat : string → option datetime.

(** [(datetime.fromisoformat(d['expire_date']).date() - datetime.now().date()).days] *)
Definition days_left (now : datetime) (document : gmap string value) : res Z :=
  expire_date ← parse_field fromisoformat document "expire_date";
  Ok (date_diff_days expire_date now).

(** The comprehensions [critical_permits] / [critical_taxes] and
    [warning_permits] / [warning_taxes] of [show_expiration_alerts]. *)
Definition critical_documents (now : datetime) (expiring : list (gmap string value))
    : res (list (gmap string value)) :=
  filter_res (λ d, days ← days_left now d; Ok (days <=? 7)) expiring.

Definition warning_documents (now : datetime) (expiring : list (gmap string value))
    : res (list (gmap string value)) :=
  filter_res (λ d, days ← days_left now d; Ok (7 <? days)) expiring.

End Expiration.

End PermitModule.

(** ** maintenance_module.py *)

Module MaintenanceModule.

(** The loop of [show_maintenance_alerts] over the alerts: each line
    interpolates [alert['plate_number']], [alert['alert_type']] and
    [alert['priority']], in that order. *)
Definition warning_line (alert : gmap string value) : res (value * value * value) :=
  plate_number ← getitem alert "plate_number";
  alert_type ← getitem alert "alert_type";
  priority ← getitem alert "priority";
  Ok (plate_number, alert_type, priority).

Definition show_maintenance_alerts (fromisoformat : string → option datetime)
    (now : datetime) (st : store) : res (list (value * value * value)) :=
  alerts ← get_maintenance_alerts fromisoformat now st;
  mapM warning_line alerts.

End MaintenanceModule.

(** * Statements

    The vocabulary of the properties proved below. *)

Module Spec.

(** Every stored quantity is non-negative. *)
Definition nonneg (inventory : gmap string Z) : Prop :=
  map_Forall (λ _ q, 0 ≤ q) inventory.

(** A run of [update_inventory(item, qty, 'subtract')] calls: the success
    flags in call order, and the documents at the end. *)
Fixpoint subtract_all (calls : list (string * Z)) (st : store) : list bool * store :=
  match calls with
  | [] => ([], st)
  | (item, qty) :: rest =>
      let '(ok, _, st') := update_inventory item qty "subtract" st in
      let '(oks, st'') := subtract_all rest st' in
      (ok :: oks, st'')
  end.

(** The priority [show_low_stock_alerts] gives an item, [None] when the item
    is not listed. *)
Definition flag (title : string → string) (item_key : string) (quantity : Z)
    : option string :=
  InventoryModule.priority <$> InventoryModule.low_stock_entry title item_key quantity.

(** A part is requested and the stock on disk does not cover it. *)
Definition oil_short (maintenance_data : gmap string value) (inv : gmap string Z) : Prop :=
  truthy (get maintenance_data "oil_changed" (VBool false)) = true
  ∧ default 0 (inv !! "oil") ≤ 0.

Definition air_filter_short (maintenance_data : gmap string value)
    (inv : gmap string Z) : Prop :=
  truthy (get maintenance_data "air_filter_changed" (VBool false)) = true
  ∧ default 0 (inv !! "air_filter") ≤ 0.

Definition tires_short (maintenance_data : gmap string value) (inv : gmap string Z) : Prop :=
  ∃ n, int_of (get maintenance_data "tires_changed" (VInt 0)) = Some n
       ∧ 0 < n ∧ default 0 (inv !! "tires") < n.

(** Every stored vehicle has a plate number, a string that [upper] leaves
    as it is (the add-vehicle form is the only writer of the field, and it
    stores [plate_number.upper()]). *)
Definition plates_uppercased (upper : string → string)
    (vehicles : list (gmap string value)) : Prop :=
  ∀ v, v ∈ vehicles → ∃ q, v !! "plate_number" = Some (VStr q) ∧ upper q = q.

(** Some stored vehicle has the plate [p], letter case ignored. *)
Definition plate_taken_ignoring_case (upper : string → string) (p : string)
    (vehicles : list (gmap string value)) : Prop :=
  ∃ v q, v ∈ vehicles ∧ v !! "plate_number" = Some (VStr q) ∧ upper q = upper p.

(** Every record carries the field [key]. *)
Definition has_key (key : string) (records : list (gmap string value)) : Prop :=
  ∀ r, r ∈ records → is_Some (r !! key).

(** [record[key] == k] *)
Definition matches (key : string) (k : value) (record : gmap string value) : Prop :=
  ∃ q, record !! key = Some q ∧ py_eq q k = true.

(** [new] is [old] with the supplied fields written over it and
    [updated_at] stamped; every other field is as in [old]. *)
Definition merged (now : datetime) (updated_data old new : gmap string value) : Prop :=
  new !! "updated_at" = Some (VStr (isoformat now))
  ∧ ∀ field, field ≠ "updated_at" →
      new !! field = match updated_data !! field with
                     | Some x => Some x
                     | None => old !! field
                     end.

(** [records'] is [records] with its first record matching the key merged
    with the update, and every other record untouched. *)
Definition first_match_merged (key : string) (k : value) (now : datetime)
    (updated_data : gmap string value) (records records' : list (gmap string value))
    : Prop :=
  ∃ (i : nat) old new,
    records !! i = Some old
    ∧ matches key k old
    ∧ (∀ (j : nat) r, (j < i)%nat → records !! j = Some r → ¬ matches key k r)
    ∧ length records' = length records
    ∧ records' !! i = Some new
    ∧ (∀ j : nat, j ≠ i → records' !! j = records !! j)
    ∧ merged now updated_data old new.

(** The calendar date a document expires on, when its [expire_date] is a
    string the reader accepts. *)
Definition expiry (fromisoformat : string → option datetime)
    (record : gmap string value) : option datetime :=
  match record !! "expire_date" with
  | Some (VStr s) => fromisoformat s
  | _ => None
  end.

(** The test of the expiry queries, on a document whose date reads:
    (expire date - today) in days is at most [days_ahead]. *)
Definition within (fromisoformat : string → option datetime) (now : datetime)
    (days_ahead : Z) (r : gmap string value) : bool :=
  match expiry fromisoformat r with
  | Some d => toordinal d - toordinal now <=? days_ahead
  | None => false
  end.

(** Every document has an [expire_date] that reads as a date. *)
Definition dated (fromisoformat : string → option datetime)
    (records : list (gmap string value)) : Prop :=
  ∀ r, r ∈ records → is_Some (expiry fromisoformat r).

(** The vehicle with plate [plate] has a document in [records] whose
    [expire_date], as a calendar date, is strictly after today. *)
Definition has_unexpired (fromisoformat : string → option datetime) (now : datetime)
    (plate : value) (records : list (gmap string value)) : Prop :=
  ∃ r d, r ∈ records ∧ matches "plate_number" plate r
         ∧ expiry fromisoformat r = Some d ∧ toordinal now < toordinal d.

(** [matches "plate_number"] and "expires after today", as tests. *)
Definition plate_is (plate : value) (r : gmap string value) : bool :=
  match r !! "plate_number" with
  | Some q => py_eq q plate
  | None => false
  end.

Definition unexpired_on (fromisoformat : string → option datetime) (now : datetime)
    (r : gmap string value) : bool :=
  match expiry fromisoformat r with
  | Some d => toordinal now <? toordinal d
  | None => false
  end.

(** The [created_at] stamp of a record, [""] when there is none. *)
Definition created_at (m : gmap string value) : string :=
  match m !! "created_at" with
  | Some (VStr s) => s
  | _ => ""
  end.

(** Every record has a [created_at] string that reads as a time stamp. *)
Definition stamped (fromisoformat : string → option datetime)
    (records : list (gmap string value)) : Prop :=
  ∀ m, m ∈ records →
    ∃ s d, m !! "created_at" = Some (VStr s) ∧ fromisoformat s = Some d.

(** [m] is a maintenance record of the vehicle with plate [plate] whose
    [created_at] no other record of that vehicle exceeds, strings compared
    lexicographically. *)
Definition latest_for (plate : value) (records : list (gmap string value))
    (m : gmap string value) : Prop :=
  m ∈ records
  ∧ matches "plate_number" plate m
  ∧ ∀ m', m' ∈ records → matches "plate_number" plate m' →
          String.ltb (created_at m) (created_at m') = false.

(** The clock time of [d], in microseconds since midnight. *)
Definition time_of_day (d : datetime) : Z :=
  ((hour d * 60 + minute d) * 60 + second d) * 1000000 + microsecond d.

(** The time from [last] to [now], in microseconds: the calendar days
    between the two dates, and the difference of the clock times. *)
Definition elapsed (now last : datetime) : Z :=
  (toordinal now - toordinal last) * 86400000000 + (time_of_day now - time_of_day last).

(** [d] whole days have elapsed from [last] to [now]: at least [d] days
    and less than [d + 1]. *)
Definition whole_days (now last : datetime) (d : Z) : Prop :=
  d * 86400000000 ≤ elapsed now last < (d + 1) * 86400000000.

(** The alerts [get_maintenance_alerts] owes one vehicle. *)
Definition alerts_of (fromisoformat : string → option datetime) (now : datetime)
    (records : list (gmap string value)) (vehicle : gmap string value)
    (out : list (gmap string value)) : Prop :=
  ∃ plate,
    vehicle !! "plate_number" = Some plate
    ∧ (((∀ m, m ∈ records → ¬ matches "plate_number" plate m)
        ∧ out = [maintenance_alert plate "No maintenance records found" "high"])
       ∨ (∃ m last d,
            latest_for plate records m
            ∧ fromisoformat (created_at m) = Some last
            ∧ whole_days now last d
            ∧ let text := "Last maintenance " +:+ str_int d +:+ " days ago" in
              (d ≤ 90 ∧ out = [])
              ∨ (91 ≤ d ≤ 180 ∧ out = [maintenance_alert plate text "medium"])
              ∨ (180 < d ∧ out = [maintenance_alert plate text "high"]))).

(** *** Vocabulary of the further properties *)

(** What a service asks of one inventory item. *)
Definition requested (maintenance_data : gmap string value) (item : string) : Z :=
  if String.eqb item "oil"
  then (if truthy (get maintenance_data "oil_changed" (VBool false)) then 1 else 0)
  else if String.eqb item "air_filter"
  then (if truthy (get maintenance_data "air_filter_changed" (VBool false)) then 1 else 0)
  else if String.eqb item "tires"
  then Z.max 0 (default 0 (int_of (get maintenance_data "tires_changed" (VInt 0))))
  else 0.

(** The stock of an item, a missing key reading 0. *)
Definition stock (inventory : gmap string Z) (item : string) : Z :=
  default 0 (inventory !! item).

(** The plate numbers of a collection, in order. *)
Definition plates (records : list (gmap string value)) : list (option value) :=
  map (λ r, r !! "plate_number") records.

(** Every vehicle has a string for a plate, and no two share one. *)
Definition unique_plates (vehicles : list (gmap string value)) : Prop :=
  (∀ v, v ∈ vehicles → ∃ q, v !! "plate_number" = Some (VStr q))
  ∧ NoDup (plates vehicles).

(** The record at position [i] has [id] [i + 1]. *)
Definition sequential_ids (records : list (gmap string value)) : Prop :=
  ∀ (i : nat) r, records !! i = Some r → r !! "id" = Some (VInt (Z.of_nat i + 1)).

(** The load at position [i] has the number LD + [{i+1:06d}]. *)
Definition numbered (loads : list (gmap string value)) : Prop :=
  ∀ (i : nat) r, loads !! i = Some r →
    r !! "load_number" = Some (VStr ("LD" +:+ format_06d (Z.of_nat i + 1))).

(** The text has no space. *)
Fixpoint no_space (s : string) : bool :=
  match s with
  | EmptyString => true
  | String c s' => negb (Ascii.eqb c " ") && no_space s'
  end.

(** An item key with no upper-case letter and no space, as the three keys
    of the inventory are. *)
Fixpoint plain_key (s : string) : bool :=
  match s with
  | EmptyString => true
  | String c s' => negb (Text.is_upper c) && negb (Ascii.eqb c " ") && plain_key s'
  end.

(** What identifies the records of a collection: plate, id and creation
    stamp, in order. *)
Definition identity_fields (records : list (gmap string value))
    : list (option value * option value * option value) :=
  map (λ r, (r !! "plate_number", r !! "id", r !! "created_at")) records.

(** The lines the alert section owes a list of expiring documents: one
    for each document, with its plate and the days left to its expire
    date, in the order of the list.  [listed ... true] are those with at
    most 7 days left, [listed ... false] the others. *)
Definition days_to_expiry (fromisoformat : string → option datetime) (now : datetime)
    (r : gmap string value) : option Z :=
  d ← expiry fromisoformat r; Some (toordinal d - toordinal now).

Definition listed (fromisoformat : string → option datetime)
    (line : value → Z → Dashboard.alert_line) (now : datetime) (urgent : bool)
    (documents : list (gmap string value)) : list Dashboard.alert_line :=
  omap (λ r, days ← days_to_expiry fromisoformat now r;
             plate ← r !! "plate_number";
             if Bool.eqb (days <=? 7) urgent then Some (line plate days) else None)
       documents.

(** The lines owed to one inventory item: out of stock at quantity 0, low
    stock at any other quantity below 5. *)
Definition out_of_stock_line (title : string → string) (l : Dashboard.alert_line)
    (inventory : gmap string Z) : Prop :=
  ∃ item, inventory !! item = Some 0
          ∧ l = Dashboard.OutOfStockLine (title (Text.underscores_to_spaces item)).

Definition low_stock_line (title : string → string) (l : Dashboard.alert_line)
    (inventory : gmap string Z) : Prop :=
  ∃ item quantity,
    inventory !! item = Some quantity ∧ quantity ≠ 0 ∧ quantity < 5
    ∧ l = Dashboard.LowStockLine (title (Text.underscores_to_spaces item)) quantity.

End Spec.
Import Spec.

(** ** Sample documents *)

Module Sample.

Definition now : datetime := mk_datetime 2024 3 1 10 0 0 0.

Definition truck : gmap string value :=
  {[ "plate_number" := VStr "ABC-123"; "driver_name" := VStr "Asif";
     "status" := VStr "Active" ]}.

Definition van : gmap string value :=
  {[ "plate_number" := VStr "XYZ-9"; "driver_name" := VStr "Bilal";
     "status" := VStr "Active" ]}.

(** A service that asks for oil, an air filter and two tires. *)
Definition service : gmap string value :=
  {[ "plate_number" := VStr "ABC-123"; "oil_changed" := VBool true;
     "air_filter_changed" := VBool true; "tires_changed" := VInt 2 ]}.

(** Oil is in stock, air filters are not. *)
Definition load : gmap string value :=
  {[ "load_number" := VStr "LD000001"; "plate_number" := VStr "ABC-123";
     "status" := VStr "Loading" ]}.

Definition depot : store :=
  mk_store [truck; van] [] {[ "oil" := 1; "air_filter" := 0; "tires" := 5 ]} [] []
    [load].

(** The add-vehicle form filled in with a plate already in the fleet, typed
    in lower case. *)
Definition duplicate_form : VehicleModule.vehicle_form :=
  VehicleModule.mk_vehicle_form "abc-123" "Asif" "" [] 0 "Tanker" "" 2020 "Diesel" "Active".

(** A permit expiring in 5 days, one that expired a month ago, and a tax
    record expiring in 40 days. *)
Definition permit : gmap string value :=
  {[ "plate_number" := VStr "ABC-123"; "permit_number" := VStr "P-1";
     "expire_date" := VStr "2024-03-06" ]}.

Definition old_permit : gmap string value :=
  {[ "plate_number" := VStr "XYZ-9"; "permit_number" := VStr "P-0";
     "expire_date" := VStr "2024-02-01" ]}.

Definition tax : gmap string value :=
  {[ "plate_number" := VStr "ABC-123"; "tax_amount" := VInt 1200;
     "expire_date" := VStr "2024-04-10" ]}.

Definition office : store :=
  mk_store [truck; van] [] {[ "oil" := 0; "air_filter" := 12; "tires" := 3 ]}
    [permit; old_permit] [tax] [].

(** Two services of the truck, the later one 102 days before [now]; the
    van was never serviced. *)
Definition first_service : gmap string value :=
  {[ "plate_number" := VStr "ABC-123"; "created_at" := VStr "2023-06-01T09:00:00";
     "id" := VInt 1 ]}.

Definition second_service : gmap string value :=
  {[ "plate_number" := VStr "ABC-123"; "created_at" := VStr "2023-11-20T09:00:00";
     "id" := VInt 2 ]}.

Definition garage : store :=
  mk_store [truck; van] [first_service; second_service]
    {[ "oil" := 4; "air_filter" := 2; "tires" := 8 ]} [] [] [].

(** The add-vehicle form with a plate not yet in the fleet, typed in lower
    case. *)
Definition new_form : VehicleModule.vehicle_form :=
  VehicleModule.mk_vehicle_form "new-7" "Bilal" "" [] 0 "Tanker" "" 2021 "Diesel" "Active".

(** The depot with one route permit on file, number and location filled
    in as the permit form stores them. *)
Definition route_permit : gmap string value :=
  {[ "plate_number" := VStr "ABC-123"; "permit_number" := VStr "P-7";
     "location" := VStr "Karachi"; "expire_date" := VStr "2024-09-01" ]}.

Definition yard : store := save_permits [route_permit] depot.

(** A month after [now]. *)
Definition later : datetime := mk_datetime 2024 4 1 10 0 0 0.

(** The truck alone, serviced ten days before [now]. *)
Definition recent_service : gmap string value :=
  {[ "plate_number" := VStr "ABC-123"; "created_at" := VStr "2024-02-20T09:00:00";
     "id" := VInt 1 ]}.

Definition workshop : store :=
  mk_store [truck] [recent_service] {[ "oil" := 9; "air_filter" := 12; "tires" := 8 ]}
    [] [] [].


End Sample.

(** * Properties *)

(** ** Inventory *)

Lemma updated_inventory_subtract item qty (inv : gmap string Z) :
  updated_inventory item qty "subtract" inv
  = <[item := Z.max 0 (default 0 (inv !! item) - qty)]> inv.
Proof.
  unfold updated_inventory. simpl.
  destruct (inv !! item) as [q|] eqn:E; simpl.
  - by rewrite E.
  - rewrite lookup_insert_eq. simpl. by rewrite insert_insert_eq.
Qed.

Lemma nonneg_subtract item qty (inv : gmap string Z) :
  nonneg inv → nonneg (updated_inventory item qty "subtract" inv).
Proof.
  intros H k q. rewrite updated_inventory_subtract.
  destruct (decide (item = k)) as [->|Hne].
  - rewrite lookup_insert_eq. intros [= <-]. lia.
  - rewrite lookup_insert_ne by done. apply H.
Qed.

Lemma subtract_all_ok calls : ∀ st,
  nonneg (inventory st) →
  Forall (λ ok, ok = true) (subtract_all calls st).1
  ∧ nonneg (inventory (subtract_all calls st).2).
Proof.
  induction calls as [|[item qty] rest IH]; intros st Hst; simpl.
  - split; [constructor | done].
  - destruct (subtract_all rest _) as [oks st''] eqn:E.
    specialize (IH (save_inventory (updated_inventory item qty "subtract" (inventory st)) st)).
    rewrite E in IH. simpl in *.
    destruct IH as [IH1 IH2]; [by apply nonneg_subtract|].
    split; [by constructor | done].
Qed.

(** C3. From an inventory with non-negative quantities, every run of
    [update_inventory(item, qty, 'subtract')] calls succeeds call by call
    and ends with non-negative quantities; each call stores
    [max(0, previous - qty)] for its item, a missing item counting as 0,
    and leaves the other items alone. *)
Theorem update_inventory_subtract_clamps (calls : list (string * Z)) (st : store) :
  nonneg (inventory st) →
  (∀ item qty (s : store),
     let '(ok, _, s') := update_inventory item qty "subtract" s in
     ok = true
     ∧ inventory s' !! item = Some (Z.max 0 (default 0 (inventory s !! item) - qty))
     ∧ 0 ≤ Z.max 0 (default 0 (inventory s !! item) - qty)
     ∧ ∀ k, k ≠ item → inventory s' !! k = inventory s !! k)
  ∧ Forall (λ ok, ok = true) (subtract_all calls st).1
  ∧ nonneg (inventory (subtract_all calls st).2).
Proof.
  intros Hst. split; [|by apply subtract_all_ok].
  intros item qty s. unfold update_inventory. simpl.
  rewrite updated_inventory_subtract.
  repeat split.
  - apply lookup_insert_eq.
  - lia.
  - intros k Hk. by apply lookup_insert_ne.
Qed.

Lemma update_inventory_subtract_clamps_witness :
  nonneg (inventory default_data)
  ∧ Forall (λ ok, ok = true) (subtract_all [("oil", 3); ("bolts", 2)] default_data).1
  ∧ nonneg (inventory (subtract_all [("oil", 3); ("bolts", 2)] default_data).2).
Proof.
  assert (H : nonneg (inventory default_data)).
  { unfold nonneg. apply (bool_decide_unpack _). vm_compute. exact I. }
  split; [exact H|].
  apply (update_inventory_subtract_clamps [("oil", 3); ("bolts", 2)] default_data H).
Defined.

(** ** Low stock *)

Lemma reorder_level_values :
  InventoryModule.get_reorder_level "oil" = 5
  ∧ InventoryModule.get_reorder_level "air_filter" = 10
  ∧ InventoryModule.get_reorder_level "tires" = 8.
Proof. by vm_compute. Qed.

Lemma reorder_level_cases item_key :
  InventoryModule.get_reorder_level item_key = 5
  ∨ InventoryModule.get_reorder_level item_key = 10
  ∨ InventoryModule.get_reorder_level item_key = 8.
Proof.
  unfold InventoryModule.get_reorder_level, InventoryModule.reorder_levels.
  destruct (decide (item_key = "oil")) as [->|H1]; [by left|].
  rewrite lookup_insert_ne by done.
  destruct (decide (item_key = "air_filter")) as [->|H2]; [by right; left|].
  rewrite lookup_insert_ne by done.
  destruct (decide (item_key = "tires")) as [->|H3]; [by right; right|].
  rewrite lookup_singleton_ne by done. by left.
Qed.

Section LowStock.

Variable title : string → string.

Lemma flag_unfold item_key quantity :
  flag title item_key quantity =
    let level := InventoryModule.get_reorder_level item_key in
    if quantity <=? level then
      Some (if quantity =? 0 then "Critical"
            else if 2 * quantity <=? level then "High" else "Medium")
    else None.
Proof.
  unfold flag, InventoryModule.low_stock_entry, InventoryModule.priority_of. simpl.
  by destruct (quantity <=? _).
Qed.

Lemma flag_cases item_key quantity :
  let level := InventoryModule.get_reorder_level item_key in
  (flag title item_key quantity = Some "Critical" ↔ quantity = 0)
  ∧ (flag title item_key quantity = Some "High"
     ↔ quantity ≠ 0 ∧ 2 * quantity ≤ level)
  ∧ (flag title item_key quantity = Some "Medium"
     ↔ level < 2 * quantity ∧ quantity ≤ level)
  ∧ (flag title item_key quantity = None ↔ level < quantity).
Proof.
  intros level. rewrite flag_unfold. fold level.
  assert (Hl : level = 5 ∨ level = 10 ∨ level = 8) by apply reorder_level_cases.
  cbv zeta.
  destruct (Z.leb_spec quantity level), (Z.eqb_spec quantity 0),
    (Z.leb_spec (2 * quantity) level);
    (repeat split; intros; try discriminate; try lia;
     try (by f_equal); try (destruct_and?; lia)).
Qed.

Lemma show_low_stock_alerts_elem (inventory : gmap string Z) e :
  e ∈ InventoryModule.show_low_stock_alerts title inventory ↔
  ∃ item_key quantity,
    inventory !! item_key = Some quantity
    ∧ InventoryModule.low_stock_entry title item_key quantity = Some e.
Proof.
  unfold InventoryModule.show_low_stock_alerts. rewrite list_elem_of_omap. split.
  - intros ([k q] & Hkq & He). exists k, q. by rewrite <- elem_of_map_to_list.
  - intros (k & q & Hkq & He). exists (k, q). by rewrite elem_of_map_to_list.
Qed.

(** C7. On an inventory whose quantities are not negative, with the
    reorder levels oil=5, air_filter=10, tires=8 (5 for any other key),
    the priority [show_low_stock_alerts] lists an item with is Critical
    exactly when its quantity is 0, High exactly when
    0 < quantity <= 0.5 x level, Medium exactly when
    0.5 x level < quantity <= level, and the item is not listed exactly
    when its quantity is above the level ([quantity <= level * 0.5]
    compares an int with a float by value: it is [2 * quantity <= level]).
    The list holds the entry of each item that is listed, and nothing
    else.  The inventory oil:0, air_filter:12, tires:3 gives Critical,
    nothing, High. *)
Theorem low_stock_priority (inventory : gmap string Z) :
  nonneg inventory →
  (∀ item_key quantity,
     inventory !! item_key = Some quantity →
     let level := InventoryModule.get_reorder_level item_key in
     (flag title item_key quantity = Some "Critical" ↔ quantity = 0)
     ∧ (flag title item_key quantity = Some "High"
        ↔ 0 < quantity ∧ 2 * quantity ≤ level)
     ∧ (flag title item_key quantity = Some "Medium"
        ↔ level < 2 * quantity ∧ quantity ≤ level)
     ∧ (flag title item_key quantity = None ↔ level < quantity))
  ∧ (∀ entry,
       entry ∈ InventoryModule.show_low_stock_alerts title inventory ↔
       ∃ item_key quantity,
         inventory !! item_key = Some quantity
         ∧ InventoryModule.low_stock_entry title item_key quantity = Some entry)
  ∧ (InventoryModule.get_reorder_level "oil" = 5
     ∧ InventoryModule.get_reorder_level "air_filter" = 10
     ∧ InventoryModule.get_reorder_level "tires" = 8)
  ∧ (flag title "oil" 0 = Some "Critical" ∧ flag title "air_filter" 12 = None
     ∧ flag title "tires" 3 = Some "High").
Proof.
  intros Hnn. split; [|split; [apply show_low_stock_alerts_elem|]].
  - intros item_key quantity Hq level.
    assert (H0 : 0 ≤ quantity) by (by apply (Hnn item_key)).
    destruct (flag_cases item_key quantity) as (Hc & Hh & Hm & Hn). fold level in Hh, Hm, Hn.
    split; [done|]. split; [|done].
    rewrite Hh. lia.
  - split; [apply reorder_level_values|].
    rewrite !flag_unfold. by vm_compute.
Qed.

(** The cascade tests [quantity == 0] and then [quantity <= level * 0.5]:
    a negative count, which no operation writes, would be listed High. *)
Example low_stock_high_negative : flag title "oil" (-1) = Some "High".
Proof. rewrite flag_unfold. by vm_compute. Qed.

End LowStock.

Lemma sample_office_nonneg : nonneg (inventory Sample.office).
Proof.
  intros k q Hq. cbn [inventory Sample.office] in Hq.
  destruct (decide (k = "oil")) as [->|H1];
    [rewrite lookup_insert_eq in Hq; injection Hq as <-; lia|].
  rewrite lookup_insert_ne in Hq by done.
  destruct (decide (k = "air_filter")) as [->|H2];
    [rewrite lookup_insert_eq in Hq; injection Hq as <-; lia|].
  rewrite lookup_insert_ne in Hq by done.
  destruct (decide (k = "tires")) as [->|H3];
    [rewrite lookup_singleton_eq in Hq; injection Hq as <-; lia|].
  by rewrite lookup_singleton_ne in Hq.
Qed.

Lemma low_stock_priority_witness :
  nonneg (inventory Sample.office)
  ∧ (flag Text.title_ascii "tires" 3 = Some "High"
     ↔ 0 < 3 ∧ 2 * 3 ≤ InventoryModule.get_reorder_level "tires")
  ∧ (flag Text.title_ascii "oil" 0 = Some "Critical" ↔ 0 = 0)
  ∧ (flag Text.title_ascii "air_filter" 12 = None
     ↔ InventoryModule.get_reorder_level "air_filter" < 12).
Proof.
  split; [exact sample_office_nonneg|].
  destruct (low_stock_priority Text.title_ascii (inventory Sample.office)
              sample_office_nonneg) as [H _].
  split; [exact (proj1 (proj2 (H "tires" 3 eq_refl)))|].
  split; [exact (proj1 (H "oil" 0 eq_refl))|].
  exact (proj2 (proj2 (proj2 (H "air_filter" 12 eq_refl)))).
Defined.

(** ** Maintenance records and the inventory *)

Lemma deduct_oil_inl md inv message :
  deduct_oil md inv = inl message ↔
  message = "Insufficient oil in inventory" ∧ oil_short md inv.
Proof.
  unfold deduct_oil, oil_short.
  destruct (truthy _); [destruct (Z.ltb_spec 0 (default 0 (inv !! "oil")))|];
    split; try discriminate; try (intros [_ [? ?]]; (discriminate || lia)).
  - intros [= <-]. split; [done|]. split; [done|lia].
  - by intros [-> _].
Qed.

Lemma deduct_oil_inr md inv inv' :
  deduct_oil md inv = inr inv' →
  ¬ oil_short md inv ∧ ∀ k, k ≠ "oil" → inv' !! k = inv !! k.
Proof.
  unfold deduct_oil, oil_short.
  destruct (truthy _); [destruct (Z.ltb_spec 0 (default 0 (inv !! "oil")))|];
    intros [= <-]; (split; [intros [? ?]; (discriminate || lia)|]).
  - intros k Hk. by rewrite lookup_insert_ne.
  - done.
Qed.

Lemma deduct_air_filter_inl md inv message :
  deduct_air_filter md inv = inl message ↔
  message = "Insufficient air filters in inventory" ∧ air_filter_short md inv.
Proof.
  unfold deduct_air_filter, air_filter_short.
  destruct (truthy _); [destruct (Z.ltb_spec 0 (default 0 (inv !! "air_filter")))|];
    split; try discriminate; try (intros [_ [? ?]]; (discriminate || lia)).
  - intros [= <-]. split; [done|]. split; [done|lia].
  - by intros [-> _].
Qed.

Lemma deduct_air_filter_inr md inv inv' :
  deduct_air_filter md inv = inr inv' →
  ¬ air_filter_short md inv ∧ ∀ k, k ≠ "air_filter" → inv' !! k = inv !! k.
Proof.
  unfold deduct_air_filter, air_filter_short.
  destruct (truthy _); [destruct (Z.ltb_spec 0 (default 0 (inv !! "air_filter")))|];
    intros [= <-]; (split; [intros [? ?]; (discriminate || lia)|]).
  - intros k Hk. by rewrite lookup_insert_ne.
  - done.
Qed.

Lemma deduct_tires_short md inv :
  tires_short md inv → deduct_tires md inv = Ok (inl "Insufficient tires in inventory").
Proof.
  intros (n & Hn & Hpos & Hlt). unfold deduct_tires, as_int. rewrite Hn. simpl.
  destruct (Z.ltb_spec 0 n); [|lia].
  destruct (Z.leb_spec n (default 0 (inv !! "tires"))); [lia|done].
Qed.

Lemma deduct_tires_enough md inv r :
  deduct_tires md inv = Ok r → ¬ tires_short md inv → ∃ inv', r = inr inv'.
Proof.
  unfold deduct_tires, as_int, tires_short.
  destruct (int_of _) as [n|]; simpl; [|discriminate].
  destruct (Z.ltb_spec 0 n); [destruct (Z.leb_spec n (default 0 (inv !! "tires")))|];
    intros [= <-] Hns; eauto.
  exfalso. apply Hns. exists n. repeat split; (done || lia).
Qed.

(** C1. When a requested part (oil changed, air filter changed, or a
    positive number of tires) is not covered by the stock on disk,
    [add_maintenance_record] returns failure, the message names the first
    such part in the order oil, air filter, tires, and the documents are
    the ones it started from: neither the inventory nor the maintenance
    collection is saved, whatever was decremented in memory before. *)
Theorem add_maintenance_record_insufficient_stock
    (now : datetime) (maintenance_data : gmap string value) (st : store) :
  let inv := inventory st in
  oil_short maintenance_data inv ∨ air_filter_short maintenance_data inv
    ∨ tires_short maintenance_data inv →
  ∃ message,
    add_maintenance_record now maintenance_data st = Ok (false, message, st)
    ∧ ((message = "Insufficient oil in inventory" ∧ oil_short maintenance_data inv)
       ∨ (message = "Insufficient air filters in inventory"
          ∧ air_filter_short maintenance_data inv ∧ ¬ oil_short maintenance_data inv)
       ∨ (message = "Insufficient tires in inventory"
          ∧ tires_short maintenance_data inv ∧ ¬ oil_short maintenance_data inv
          ∧ ¬ air_filter_short maintenance_data inv)).
Proof.
  intros inv Hshort. unfold add_maintenance_record. fold inv.
  destruct (deduct_oil maintenance_data inv) as [m1|inv1] eqn:E1.
  { apply deduct_oil_inl in E1 as [-> Ho]. eexists. split; [done|]. by left. }
  apply deduct_oil_inr in E1 as [Hno Hk1].
  assert (Ha : air_filter_short maintenance_data inv1 ↔ air_filter_short maintenance_data inv).
  { unfold air_filter_short. by rewrite Hk1. }
  destruct (deduct_air_filter maintenance_data inv1) as [m2|inv2] eqn:E2.
  { apply deduct_air_filter_inl in E2 as [-> Hs]. eexists. split; [done|].
    right; left. by rewrite <- Ha. }
  apply deduct_air_filter_inr in E2 as [Hna Hk2].
  assert (Ht : tires_short maintenance_data inv2 ↔ tires_short maintenance_data inv).
  { unfold tires_short. by rewrite Hk2, Hk1. }
  destruct Hshort as [?|[?|Hs]]; [done|by apply Ha in H|].
  rewrite (deduct_tires_short maintenance_data inv2) by (by apply Ht). simpl.
  eexists. split; [done|]. right; right. by rewrite <- Ha.
Qed.

Lemma add_maintenance_record_insufficient_stock_witness :
  air_filter_short Sample.service (inventory Sample.depot)
  ∧ ∃ message,
      add_maintenance_record Sample.now Sample.service Sample.depot
        = Ok (false, message, Sample.depot)
      ∧ ((message = "Insufficient oil in inventory"
          ∧ oil_short Sample.service (inventory Sample.depot))
         ∨ (message = "Insufficient air filters in inventory"
            ∧ air_filter_short Sample.service (inventory Sample.depot)
            ∧ ¬ oil_short Sample.service (inventory Sample.depot))
         ∨ (message = "Insufficient tires in inventory"
            ∧ tires_short Sample.service (inventory Sample.depot)
            ∧ ¬ oil_short Sample.service (inventory Sample.depot)
            ∧ ¬ air_filter_short Sample.service (inventory Sample.depot))).
Proof.
  assert (H : air_filter_short Sample.service (inventory Sample.depot)).
  { split; [reflexivity | vm_compute; discriminate]. }
  split; [exact H|].
  apply (add_maintenance_record_insufficient_stock Sample.now Sample.service Sample.depot).
  right; left; exact H.
Defined.

Example add_maintenance_record_air_filter_short :
  add_maintenance_record Sample.now Sample.service Sample.depot
  = Ok (false, "Insufficient air filters in inventory", Sample.depot).
Proof. reflexivity. Qed.

(** ** Vehicles *)

Lemma py_eq_str s t : py_eq (VStr s) (VStr t) = true ↔ s = t.
Proof. simpl. apply String.eqb_eq. Qed.

Lemma py_eq_str_false s t : py_eq (VStr s) (VStr t) = false ↔ s ≠ t.
Proof. simpl. apply String.eqb_neq. Qed.

Lemma upper_char_idemp c : upper_char (upper_char c) = upper_char c.
Proof. by destruct c as [[] [] [] [] [] [] [] []]. Qed.

Lemma upper_ascii_idemp s : upper_ascii (upper_ascii s) = upper_ascii s.
Proof. induction s as [|c s IH]; simpl; [done|]. by rewrite upper_char_idemp, IH. Qed.


Lemma plate_number_exists_true vs vd p :
  (∀ v, v ∈ vs → ∃ q, v !! "plate_number" = Some (VStr q)) →
  vd !! "plate_number" = Some (VStr p) →
  (∃ v, v ∈ vs ∧ v !! "plate_number" = Some (VStr p)) →
  plate_number_exists vs vd = Ok true.
Proof.
  intros Hwf Hp. induction vs as [|v vs IH]; intros (w & Hin & Hw).
  - by apply elem_of_nil in Hin.
  - simpl. unfold getitem. rewrite Hp.
    destruct (Hwf v) as [q Hq]; [by left|]. rewrite Hq. simpl.
    destruct (String.eqb_spec q p) as [->|Hne]; [done|].
    apply IH.
    + intros u Hu. apply Hwf. by right.
    + apply elem_of_cons in Hin as [->|Hin]; [congruence|]. eauto.
Qed.

Lemma plate_number_exists_false vs vd p :
  (∀ v, v ∈ vs → ∃ q, v !! "plate_number" = Some (VStr q)) →
  vd !! "plate_number" = Some (VStr p) →
  (∀ v, v ∈ vs → v !! "plate_number" ≠ Some (VStr p)) →
  plate_number_exists vs vd = Ok false.
Proof.
  intros Hwf Hp. induction vs as [|v vs IH]; intros Hno; [done|].
  simpl. unfold getitem. rewrite Hp.
  destruct (Hwf v) as [q Hq]; [by left|]. rewrite Hq. simpl.
  destruct (String.eqb_spec q p) as [->|Hne].
  - exfalso. by apply (Hno v); [left|].
  - apply IH.
    + intros u Hu. apply Hwf. by right.
    + intros u Hu. apply Hno. by right.
Qed.




(** Facts about a literal list, element by element. *)
Ltac each_element :=
  let r := fresh "r" in
  let Hr := fresh "Hr" in
  intros r Hr; simpl in Hr;
  repeat (apply elem_of_cons in Hr as [->|Hr]; [by vm_compute; eauto|]);
  by apply elem_of_nil in Hr.

Lemma sample_vehicles_keyed : has_key "plate_number" (vehicles Sample.depot).
Proof. each_element. Qed.

Lemma sample_plates_uppercased : plates_uppercased upper_ascii (vehicles Sample.depot).
Proof.
  intros v Hv. simpl in Hv.
  apply elem_of_cons in Hv as [->|Hv]; [by exists "ABC-123"|].
  apply elem_of_cons in Hv as [->|Hv]; [by exists "XYZ-9"|].
  by apply elem_of_nil in Hv.
Qed.


Lemma sample_plate_free v :
  v ∈ vehicles Sample.depot → ¬ matches "plate_number" (VStr "NEW-7") v.
Proof.
  intros Hv (q & Hq & E). simpl in Hv.
  apply elem_of_cons in Hv as [->|Hv]; [by vm_compute in Hq; injection Hq as <-|].
  apply elem_of_cons in Hv as [->|Hv]; [by vm_compute in Hq; injection Hq as <-|].
  by apply elem_of_nil in Hv.
Qed.



(** *** The add-vehicle form *)

Section AddVehicleForm.

(** [str.upper], whatever it does to the text. *)
Variable upper : string → string.

Lemma vehicle_data_of_plate selected f :
  VehicleModule.vehicle_data_of upper selected f !! "plate_number"
  = Some (VStr (upper (VehicleModule.plate_number f))).
Proof. unfold VehicleModule.vehicle_data_of. simpl. apply lookup_insert_eq. Qed.

Lemma mapM_permit_option_ok (permits : list (gmap string value)) :
  has_key "permit_number" permits → has_key "location" permits →
  ∃ options, mapM VehicleModule.permit_option permits = Ok options.
Proof.
  induction permits as [|p ps IH]; intros Hn Hl; [by eexists|].
  destruct (Hn p) as [n Hpn]; [by left|]. destruct (Hl p) as [l Hpl]; [by left|].
  destruct IH as [options E];
    [intros r Hr; apply Hn; by right|intros r Hr; apply Hl; by right|].
  assert (Hp : VehicleModule.permit_option p = Ok (n, l)).
  { unfold VehicleModule.permit_option, getitem. by rewrite Hpn, Hpl. }
  cbn [mapM]. rewrite Hp. cbn [mbind res_bind]. rewrite E. by eexists.
Qed.

(** What a submitted form with both required fields does, once the
    permits have been listed. *)
Lemma show_add_vehicle_form_submitted now f st :
  has_key "permit_number" (permits st) → has_key "location" (permits st) →
  VehicleModule.plate_number f ≠ "" →
  VehicleModule.driver_name f ≠ "" →
  ∃ selected,
    VehicleModule.show_add_vehicle_form upper now f st
    = r ← add_vehicle now (VehicleModule.vehicle_data_of upper selected f) st;
      Ok (inr r).
Proof.
  intros Hn Hl Hp Hd. unfold VehicleModule.show_add_vehicle_form, get_permits, by_plate.
  cbn [truthy mbind res_bind].
  destruct (mapM_permit_option_ok _ Hn Hl) as [options ->]. cbn [mbind res_bind].
  apply String.eqb_neq in Hp, Hd. rewrite Hp, Hd. by eexists.
Qed.

Lemma show_add_vehicle_form_accepted now f st msg st' :
  VehicleModule.show_add_vehicle_form upper now f st = Ok (inr (true, msg, st')) →
  ∃ selected,
    add_vehicle now (VehicleModule.vehicle_data_of upper selected f) st
    = Ok (true, msg, st').
Proof.
  unfold VehicleModule.show_add_vehicle_form.
  destruct (get_permits _ _) as [ps|]; [|discriminate]. cbn [mbind res_bind].
  destruct (mapM _ _) as [options|]; [|discriminate]. cbn [mbind res_bind].
  destruct (_ || _); [discriminate|].
  set (selected := match options with [] => [] | _ => _ end).
  intros H. exists selected.
  destruct (add_vehicle now _ st) as [r|]; [|discriminate]. cbn [mbind res_bind] in H.
  f_equal.
  exact (f_equal (λ x, match x with Ok (inr r') => r' | _ => r end) H).
Qed.

(** X19. Through the add-vehicle form the duplicate check ignores the
    letter case of what was typed: with stored plates that [upper] leaves
    as they are, and stored permits that carry a number and a location, a
    submitted form with a plate and a driver whose plate matches a stored
    one once both are upper-cased is refused, and the documents stay as
    they were.  This holds whatever [upper] does to the text. *)
Theorem show_add_vehicle_form_rejects_duplicate now f st :
  has_key "permit_number" (permits st) → has_key "location" (permits st) →
  plates_uppercased upper (vehicles st) →
  VehicleModule.plate_number f ≠ "" →
  VehicleModule.driver_name f ≠ "" →
  plate_taken_ignoring_case upper (VehicleModule.plate_number f) (vehicles st) →
  VehicleModule.show_add_vehicle_form upper now f st
  = Ok (inr (false, "Vehicle with this plate number already exists", st)).
Proof.
  intros Hn Hl Hup Hp Hd (v & q & Hv & Hq & Hqp).
  destruct (show_add_vehicle_form_submitted now f st Hn Hl Hp Hd) as [selected ->].
  unfold add_vehicle.
  rewrite (plate_number_exists_true _ _ (upper (VehicleModule.plate_number f))).
  - done.
  - intros u Hu. destruct (Hup u Hu) as (q' & Hq' & _). eauto.
  - apply vehicle_data_of_plate.
  - exists v. split; [done|].
    destruct (Hup v Hv) as (q' & Hq' & Hu). congruence.
Qed.

(** X20. The add-vehicle form keeps the stored plates upper-cased: when
    [upper] applied twice is [upper] applied once, and every stored plate
    is a string that [upper] leaves as it is, an accepted form appends
    one record, whose plate is the typed plate upper-cased, and every
    plate of the saved collection is again a string that [upper] leaves
    as it is. *)
Theorem show_add_vehicle_form_keeps_uppercase now f st msg st' :
  (∀ s, upper (upper s) = upper s) →
  plates_uppercased upper (vehicles st) →
  VehicleModule.show_add_vehicle_form upper now f st = Ok (inr (true, msg, st')) →
  plates_uppercased upper (vehicles st')
  ∧ ∃ record,
      vehicles st' = vehicles st ++ [record]
      ∧ record !! "plate_number" = Some (VStr (upper (VehicleModule.plate_number f))).
Proof.
  intros Hidem Hup H. apply show_add_vehicle_form_accepted in H as [selected H].
  revert H.
  unfold add_vehicle. destruct (plate_number_exists _ _) as [[]|]; try discriminate.
  cbn [mbind res_bind]. intros H.
  assert (Hst : st' = save_vehicles
                        (vehicles st ++
                         [<["id" := VInt (Z.of_nat (length (vehicles st)) + 1)]>
                            (<["created_at" := VStr (isoformat now)]>
                               (VehicleModule.vehicle_data_of upper selected f))]) st).
  { symmetry. exact (f_equal (λ x, match x with Ok (_, s) => s | _ => st end) H). }
  subst st'. cbn [vehicles save_vehicles].
  assert (Hplate : (<["id" := VInt (Z.of_nat (length (vehicles st)) + 1)]>
                      (<["created_at" := VStr (isoformat now)]>
                         (VehicleModule.vehicle_data_of upper selected f)))
                   !! "plate_number"
                   = Some (VStr (upper (VehicleModule.plate_number f)))).
  { rewrite !lookup_insert_ne by done. apply vehicle_data_of_plate. }
  split; [|eexists; split; [reflexivity|exact Hplate]].
  intros v Hv. apply elem_of_app in Hv as [Hv|Hv]; [by apply Hup|].
  apply list_elem_of_singleton in Hv as ->.
  exists (upper (VehicleModule.plate_number f)). split; [exact Hplate|apply Hidem].
Qed.

End AddVehicleForm.

(** ** Updates by natural key *)

Lemma find_index_spec key k records :
  has_key key records →
  match find_index key k records with
  | Ok None => ∀ r, r ∈ records → ¬ matches key k r
  | Ok (Some i) =>
      ∃ old, records !! i = Some old ∧ matches key k old
             ∧ ∀ (j : nat) r, (j < i)%nat → records !! j = Some r → ¬ matches key k r
  | Raise _ => False
  end.
Proof.
  induction records as [|r rs IH]; intros Hk; simpl.
  - intros r Hr. by apply elem_of_nil in Hr.
  - destruct (Hk r) as [q Hq]; [by left|].
    unfold getitem. rewrite Hq. simpl.
    destruct (py_eq q k) eqn:E.
    + exists r. split; [done|]. split; [by exists q|]. intros j r' Hj. lia.
    + assert (Hr : ¬ matches key k r).
      { intros (q' & Hq' & E'). congruence. }
      assert (Hrs : has_key key rs) by (intros u Hu; apply Hk; by right).
      specialize (IH Hrs).
      destruct (find_index key k rs) as [[i|]|]; simpl; [| |done].
      * destruct IH as (old & Ho & Hm & Hbefore). exists old.
        split; [done|]. split; [done|].
        intros [|j] r'; simpl; [by intros _ [= <-]|].
        intros Hj. apply Hbefore. lia.
      * intros u Hu. apply elem_of_cons in Hu as [->|Hu]; [done|by apply IH].
Qed.

Lemma merge_update_merged now updated_data old :
  merged now updated_data old (merge_update now updated_data old).
Proof.
  unfold merged, merge_update. split; [apply lookup_insert_eq|].
  intros field Hf. rewrite lookup_insert_ne by done. rewrite lookup_union.
  by destruct (updated_data !! field), (old !! field).
Qed.

Lemma alter_first_match key k now updated_data records i :
  has_key key records →
  find_index key k records = Ok (Some i) →
  first_match_merged key k now updated_data records
    (alter (merge_update now updated_data) i records).
Proof.
  intros Hk E. pose proof (find_index_spec key k records Hk) as H.
  rewrite E in H. destruct H as (old & Ho & Hm & Hbefore).
  exists i, old, (merge_update now updated_data old).
  split; [done|]. split; [done|]. split; [done|].
  split; [apply length_alter|].
  split; [by rewrite list_lookup_alter_eq, Ho|].
  split; [intros j Hj; by apply list_lookup_alter_ne|].
  apply merge_update_merged.
Qed.

(** The two halves of the case analysis on [find_index]: a found index
    contradicts "no record matches", and no index contradicts "some record
    matches". *)
Ltac absurd_not_found H :=
  let Hno := fresh in
  intros Hno; destruct H as (?old & ?Ho & ?Hm & _);
  exfalso; eapply Hno; [by eapply list_elem_of_lookup_2|done].

Ltac split_not_found H :=
  split; [done|]; intros (?r & ?Hr & ?Hm); by destruct (H _ Hr).

(** C8. On collections whose records carry their natural key:
    [update_vehicle] (by [plate_number]) and [update_load_status] (by
    [load_number]) return failure and leave the documents as they were
    when no record has the key; otherwise they return success, and the
    saved collection differs from the old one in the first matching record
    only, which has the supplied fields written over it, [updated_at]
    stamped, and every other field kept; the other collections stay as
    they were. *)
Theorem update_by_natural_key (now : datetime) (st : store) :
  has_key "plate_number" (vehicles st) →
  has_key "load_number" (loads st) →
  (∀ plate_number updated_data,
     ((∀ r, r ∈ vehicles st → ¬ matches "plate_number" plate_number r) →
      update_vehicle now plate_number updated_data st
      = Ok (false, "Vehicle not found", st))
     ∧ ((∃ r, r ∈ vehicles st ∧ matches "plate_number" plate_number r) →
        ∃ st',
          update_vehicle now plate_number updated_data st
          = Ok (true, "Vehicle updated successfully", st')
          ∧ first_match_merged "plate_number" plate_number now updated_data
              (vehicles st) (vehicles st')
          ∧ maintenance st' = maintenance st ∧ inventory st' = inventory st
          ∧ permits st' = permits st ∧ token_tax st' = token_tax st
          ∧ loads st' = loads st))
  ∧ (∀ load_number new_status,
       ((∀ r, r ∈ loads st → ¬ matches "load_number" load_number r) →
        update_load_status now load_number new_status st
        = Ok (false, "Load not found", st))
       ∧ ((∃ r, r ∈ loads st ∧ matches "load_number" load_number r) →
          ∃ st',
            update_load_status now load_number new_status st
            = Ok (true, "Load status updated successfully", st')
            ∧ first_match_merged "load_number" load_number now
                {[ "status" := new_status ]} (loads st) (loads st')
            ∧ vehicles st' = vehicles st ∧ maintenance st' = maintenance st
            ∧ inventory st' = inventory st ∧ permits st' = permits st
            ∧ token_tax st' = token_tax st)).
Proof.
  intros Hv Hl. split.
  - intros plate_number updated_data. unfold update_vehicle.
    pose proof (find_index_spec "plate_number" plate_number _ Hv) as H.
    destruct (find_index _ _ _) as [[i|]|] eqn:E; simpl; [|by split_not_found H|done].
    split; [by absurd_not_found H|].
    intros _. eexists. split; [reflexivity|].
    cbn [vehicles maintenance inventory permits token_tax loads save_vehicles].
    split; [by apply alter_first_match|done].
  - intros load_number new_status. unfold update_load_status.
    pose proof (find_index_spec "load_number" load_number _ Hl) as H.
    destruct (find_index _ _ _) as [[i|]|] eqn:E; simpl; [|by split_not_found H|done].
    split; [by absurd_not_found H|].
    intros _. eexists. split; [reflexivity|].
    cbn [vehicles maintenance inventory permits token_tax loads save_loads].
    split; [by apply alter_first_match|done].
Qed.

Lemma sample_loads_keyed : has_key "load_number" (loads Sample.depot).
Proof. each_element. Qed.

Lemma sample_van_stored :
  ∃ r, r ∈ vehicles Sample.depot ∧ matches "plate_number" (VStr "XYZ-9") r.
Proof. exists Sample.van. split; [by right; left|]. by exists (VStr "XYZ-9"). Qed.

Lemma sample_load_stored :
  ∃ r, r ∈ loads Sample.depot ∧ matches "load_number" (VStr "LD000001") r.
Proof. exists Sample.load. split; [by left|]. by exists (VStr "LD000001"). Qed.

Lemma sample_load_unknown r :
  r ∈ loads Sample.depot → ¬ matches "load_number" (VStr "LD000009") r.
Proof.
  intros Hr (q & Hq & E). simpl in Hr.
  apply elem_of_cons in Hr as [->|Hr]; [by vm_compute in Hq; injection Hq as <-|].
  by apply elem_of_nil in Hr.
Qed.

Lemma update_by_natural_key_witness :
  has_key "plate_number" (vehicles Sample.depot)
  ∧ has_key "load_number" (loads Sample.depot)
  ∧ update_vehicle Sample.now (VStr "NEW-7") {[ "status" := VStr "Maintenance" ]}
      Sample.depot
    = Ok (false, "Vehicle not found", Sample.depot)
  ∧ (∃ st',
       update_vehicle Sample.now (VStr "XYZ-9") {[ "status" := VStr "Maintenance" ]}
         Sample.depot
       = Ok (true, "Vehicle updated successfully", st')
       ∧ first_match_merged "plate_number" (VStr "XYZ-9") Sample.now
           {[ "status" := VStr "Maintenance" ]} (vehicles Sample.depot) (vehicles st')
       ∧ maintenance st' = maintenance Sample.depot
       ∧ inventory st' = inventory Sample.depot
       ∧ permits st' = permits Sample.depot ∧ token_tax st' = token_tax Sample.depot
       ∧ loads st' = loads Sample.depot)
  ∧ update_load_status Sample.now (VStr "LD000009") (VStr "Delivered") Sample.depot
    = Ok (false, "Load not found", Sample.depot)
  ∧ (∃ st',
       update_load_status Sample.now (VStr "LD000001") (VStr "Delivered") Sample.depot
       = Ok (true, "Load status updated successfully", st')
       ∧ first_match_merged "load_number" (VStr "LD000001") Sample.now
           {[ "status" := VStr "Delivered" ]} (loads Sample.depot) (loads st')
       ∧ vehicles st' = vehicles Sample.depot
       ∧ maintenance st' = maintenance Sample.depot
       ∧ inventory st' = inventory Sample.depot
       ∧ permits st' = permits Sample.depot
       ∧ token_tax st' = token_tax Sample.depot).
Proof.
  pose proof (update_by_natural_key Sample.now Sample.depot
                sample_vehicles_keyed sample_loads_keyed) as [Hv Hl].
  split; [exact sample_vehicles_keyed|].
  split; [exact sample_loads_keyed|].
  split; [exact (proj1 (Hv (VStr "NEW-7") _) sample_plate_free)|].
  split; [exact (proj2 (Hv (VStr "XYZ-9") _) sample_van_stored)|].
  split; [exact (proj1 (Hl (VStr "LD000009") _) sample_load_unknown)|].
  exact (proj2 (Hl (VStr "LD000001") _) sample_load_stored).
Defined.

Example update_vehicle_status :
  update_vehicle Sample.now (VStr "XYZ-9") {[ "status" := VStr "Maintenance" ]}
    Sample.depot
  = Ok (true, "Vehicle updated successfully",
        save_vehicles
          [Sample.truck;
           <["updated_at" := VStr "2024-03-01T10:00:00"]>
             (<["status" := VStr "Maintenance"]> Sample.van)]
          Sample.depot).
Proof. reflexivity. Qed.

(** ** Expiring documents *)

Lemma filter_res_ok {A} (f : A → res bool) (g : A → bool) (l : list A) :
  (∀ x, x ∈ l → f x = Ok (g x)) → filter_res f l = Ok (List.filter g l).
Proof.
  induction l as [|x l IH]; intros H; simpl; [done|].
  rewrite (H x) by (by left). simpl.
  rewrite IH by (intros y Hy; apply H; by right). done.
Qed.

Section Expiry.

Variable fromisoformat : string → option datetime.

Lemma expires_within_ok now days_ahead r :
  is_Some (expiry fromisoformat r) →
  expires_within fromisoformat now days_ahead r = Ok (within fromisoformat now days_ahead r).
Proof.
  intros [d Hd]. unfold within. rewrite Hd.
  unfold expiry in Hd. unfold expires_within, parse_field, getitem.
  destruct (r !! "expire_date") as [[]|]; try discriminate. simpl.
  by rewrite Hd.
Qed.

Lemma expiring_query now days_ahead (records : list (gmap string value)) :
  dated fromisoformat records →
  filter_res (expires_within fromisoformat now days_ahead) records
  = Ok (List.filter (within fromisoformat now days_ahead) records).
Proof.
  intros H. apply filter_res_ok. intros r Hr. by apply expires_within_ok, H.
Qed.

Lemma within_iff now days_ahead (records : list (gmap string value)) r :
  r ∈ List.filter (within fromisoformat now days_ahead) records ↔
  r ∈ records ∧ ∃ d, expiry fromisoformat r = Some d
                     ∧ toordinal d - toordinal now ≤ days_ahead.
Proof.
  rewrite list_elem_of_In, filter_In, <- list_elem_of_In. unfold within.
  split; intros [Hr H]; (split; [done|]).
  - destruct (expiry fromisoformat r) as [d|]; [|done].
    exists d. split; [done|]. by apply Z.leb_le.
  - destruct H as (d & -> & H). by apply Z.leb_le.
Qed.

(** C5. On permit and tax collections whose [expire_date]s read as dates,
    [get_expiring_permits] and [get_expiring_taxes] return, in collection
    order, exactly the records with
    (expire date - today) in days <= [days_ahead], the time of day
    dropped on both sides; a record that expired before today is returned
    for every [days_ahead >= 0]. *)
Theorem get_expiring_exact (now : datetime) (days_ahead : Z) (st : store) :
  dated fromisoformat (permits st) →
  dated fromisoformat (token_tax st) →
  ∃ expiring_permits expiring_taxes,
    get_expiring_permits fromisoformat now days_ahead st = Ok expiring_permits
    ∧ get_expiring_taxes fromisoformat now days_ahead st = Ok expiring_taxes
    ∧ expiring_permits = List.filter (within fromisoformat now days_ahead) (permits st)
    ∧ expiring_taxes = List.filter (within fromisoformat now days_ahead) (token_tax st)
    ∧ (∀ r, r ∈ expiring_permits ↔
            r ∈ permits st
            ∧ ∃ d, expiry fromisoformat r = Some d
                   ∧ date_diff_days d now ≤ days_ahead)
    ∧ (∀ r, r ∈ expiring_taxes ↔
            r ∈ token_tax st
            ∧ ∃ d, expiry fromisoformat r = Some d
                   ∧ date_diff_days d now ≤ days_ahead)
    ∧ (∀ r d, r ∈ permits st ++ token_tax st → expiry fromisoformat r = Some d →
              date_diff_days d now < 0 → 0 ≤ days_ahead →
              r ∈ expiring_permits ++ expiring_taxes).
Proof.
  intros Hp Ht. eexists _, _.
  split; [by apply expiring_query|]. split; [by apply expiring_query|].
  split; [done|]. split; [done|].
  split; [intros r; apply within_iff|]. split; [intros r; apply within_iff|].
  intros r d Hr Hd Hneg Hdays. unfold date_diff_days in Hneg.
  apply elem_of_app in Hr as [Hr|Hr]; apply elem_of_app; [left|right];
    apply within_iff; (split; [done|]); exists d; (split; [done|lia]).
Qed.

End Expiry.

Lemma sample_permits_dated : dated read_isoformat (permits Sample.office).
Proof. each_element. Qed.

Lemma sample_taxes_dated : dated read_isoformat (token_tax Sample.office).
Proof. each_element. Qed.

Lemma get_expiring_exact_witness :
  dated read_isoformat (permits Sample.office)
  ∧ dated read_isoformat (token_tax Sample.office)
  ∧ get_expiring_permits read_isoformat Sample.now 30 Sample.office
    = Ok [Sample.permit; Sample.old_permit]
  ∧ get_expiring_taxes read_isoformat Sample.now 30 Sample.office = Ok [].
Proof.
  split; [exact sample_permits_dated|].
  split; [exact sample_taxes_dated|].
  destruct (get_expiring_exact read_isoformat Sample.now 30 Sample.office
              sample_permits_dated sample_taxes_dated)
    as (ps & ts & -> & -> & -> & -> & _).
  split; reflexivity.
Defined.

(** ** Document compliance *)

Section ComplianceFacts.

Variable fromisoformat : string → option datetime.

Lemma has_plate_ok plate r :
  is_Some (r !! "plate_number") → has_plate plate r = Ok (plate_is plate r).
Proof.
  intros [q Hq]. unfold has_plate, plate_is, getitem. by rewrite Hq.
Qed.

Lemma unexpired_ok now r :
  is_Some (expiry fromisoformat r) →
  Dashboard.unexpired fromisoformat now r = Ok (unexpired_on fromisoformat now r).
Proof.
  intros [d Hd]. unfold unexpired_on. rewrite Hd.
  unfold expiry in Hd. unfold Dashboard.unexpired, parse_field, getitem.
  destruct (r !! "expire_date") as [[]|]; try discriminate. simpl.
  by rewrite Hd.
Qed.

Lemma valid_documents now plate (records : list (gmap string value)) :
  has_key "plate_number" records →
  dated fromisoformat records →
  (vehicle_docs ← filter_res (has_plate plate) records;
   filter_res (Dashboard.unexpired fromisoformat now) vehicle_docs)
  = Ok (List.filter (unexpired_on fromisoformat now)
          (List.filter (plate_is plate) records)).
Proof.
  intros Hk Hd.
  rewrite (filter_res_ok _ (plate_is plate))
    by (intros r Hr; by apply has_plate_ok, Hk).
  simpl. apply filter_res_ok. intros r Hr.
  apply unexpired_ok, Hd.
  apply list_elem_of_In, filter_In in Hr as [Hr _]. by apply list_elem_of_In.
Qed.

Lemma has_unexpired_count now plate (records : list (gmap string value)) :
  (0 <? length (List.filter (unexpired_on fromisoformat now)
                  (List.filter (plate_is plate) records)))%nat = true
  ↔ has_unexpired fromisoformat now plate records.
Proof.
  rewrite Nat.ltb_lt. split.
  - intros Hlen.
    destruct (List.filter _ _) as [|r l] eqn:E; [simpl in Hlen; lia|].
    assert (Hr : In r (List.filter (unexpired_on fromisoformat now)
                         (List.filter (plate_is plate) records)))
      by (rewrite E; by left).
    apply filter_In in Hr as [Hr Hu]. apply filter_In in Hr as [Hr Hp].
    unfold unexpired_on in Hu. unfold plate_is in Hp.
    destruct (expiry fromisoformat r) as [d|] eqn:Ed; [|done].
    destruct (r !! "plate_number") as [q|] eqn:Eq; [|done].
    exists r, d. split; [by apply list_elem_of_In|].
    split; [by exists q|]. split; [done|]. by apply Z.ltb_lt.
  - intros (r & d & Hr & (q & Hq & Hp) & Hd & Hlt).
    assert (Hin : In r (List.filter (unexpired_on fromisoformat now)
                          (List.filter (plate_is plate) records))).
    { apply filter_In. split.
      - apply filter_In. split; [by apply list_elem_of_In|].
        unfold plate_is. by rewrite Hq.
      - unfold unexpired_on. rewrite Hd. by apply Z.ltb_lt. }
    destruct (List.filter _ _); [done|]. simpl. lia.
Qed.

(** C4. For a vehicle with a plate number and permit and tax collections
    whose records carry a plate number and a readable [expire_date],
    [show_document_compliance] derives a status, and the status is
    Compliant exactly when the vehicle has a permit and a tax record each
    expiring strictly after today (as calendar dates), Partial exactly when
    it has one of the two and not the other, and Non-Compliant exactly when
    it has neither. *)
Theorem compliance_status_cases (now : datetime) (vehicle : gmap string value)
    (plate : value) (permits tax_records : list (gmap string value)) :
  vehicle !! "plate_number" = Some plate →
  has_key "plate_number" permits → dated fromisoformat permits →
  has_key "plate_number" tax_records → dated fromisoformat tax_records →
  let has_permit := has_unexpired fromisoformat now plate permits in
  let has_tax := has_unexpired fromisoformat now plate tax_records in
  ∃ c, Dashboard.vehicle_compliance fromisoformat now permits tax_records vehicle = Ok c
       ∧ Dashboard.vehicle c = plate
       ∧ (Dashboard.status c = "Compliant" ↔ has_permit ∧ has_tax)
       ∧ (Dashboard.status c = "Partial"
          ↔ (has_permit ∧ ¬ has_tax) ∨ (¬ has_permit ∧ has_tax))
       ∧ (Dashboard.status c = "Non-Compliant" ↔ ¬ has_permit ∧ ¬ has_tax).
Proof.
  intros Hv Hpk Hpd Htk Htd has_permit has_tax.
  unfold Dashboard.vehicle_compliance, getitem. rewrite Hv. simpl.
  pose proof (valid_documents now plate permits Hpk Hpd) as Ep.
  pose proof (valid_documents now plate tax_records Htk Htd) as Et.
  destruct (filter_res (has_plate plate) permits) as [vp|]; [|done].
  destruct (filter_res (has_plate plate) tax_records) as [vt|]; [|done].
  simpl in Ep, Et. simpl. rewrite Ep. simpl. rewrite Et. simpl.
  pose proof (has_unexpired_count now plate permits) as Hp.
  pose proof (has_unexpired_count now plate tax_records) as Ht.
  fold has_permit in Hp. fold has_tax in Ht.
  destruct (0 <? length (List.filter _ (List.filter _ permits)))%nat;
    destruct (0 <? length (List.filter _ (List.filter _ tax_records)))%nat;
    simpl; eexists; (split; [reflexivity|]); simpl; (split; [done|]);
    assert (Hp' : has_permit ↔ _) by (symmetry; exact Hp);
    assert (Ht' : has_tax ↔ _) by (symmetry; exact Ht);
    rewrite Hp', Ht'; repeat split; try done; intuition discriminate.
Qed.

End ComplianceFacts.

(** ** Lexicographic order on strings *)

Lemma ascii_compare_refl c : Ascii.compare c c = Eq.
Proof. unfold Ascii.compare. apply N.compare_refl. Qed.

Lemma ascii_compare_lt_trans a b c :
  Ascii.compare a b = Lt → Ascii.compare b c = Lt → Ascii.compare a c = Lt.
Proof.
  unfold Ascii.compare. rewrite !N.compare_lt_iff. apply N.lt_trans.
Qed.

Lemma string_compare_refl s : String.compare s s = Eq.
Proof. induction s as [|c s IH]; simpl; [done|]. by rewrite ascii_compare_refl. Qed.

Lemma string_compare_lt_trans a : ∀ b c,
  String.compare a b = Lt → String.compare b c = Lt → String.compare a c = Lt.
Proof.
  induction a as [|x a IH]; intros [|y b] [|z c]; simpl; try done.
  destruct (Ascii.compare x y) eqn:Exy; try done;
    destruct (Ascii.compare y z) eqn:Eyz; try done; intros Hab Hbc.
  - apply Ascii.compare_eq_iff in Exy as ->. rewrite Eyz. eauto.
  - apply Ascii.compare_eq_iff in Exy as ->. by rewrite Eyz.
  - apply Ascii.compare_eq_iff in Eyz as <-. by rewrite Exy.
  - by rewrite (ascii_compare_lt_trans x y z).
Qed.

Lemma string_ltb_irrefl s : String.ltb s s = false.
Proof. unfold String.ltb. by rewrite string_compare_refl. Qed.

Lemma string_ltb_trans a b c :
  String.ltb a b = true → String.ltb b c = true → String.ltb a c = true.
Proof.
  unfold String.ltb.
  destruct (String.compare a b) eqn:Eab; try done.
  destruct (String.compare b c) eqn:Ebc; try done.
  by rewrite (string_compare_lt_trans a b c).
Qed.

(** [max]: the result is an element, and no element has a larger key. *)
Lemma max_from_spec {A} (key : A → string) (l : list A) : ∀ best,
  max_from key best l ∈ best :: l
  ∧ ∀ y, y ∈ best :: l → String.ltb (key (max_from key best l)) (key y) = false.
Proof.
  induction l as [|x l IH]; intros best; simpl.
  - split; [by left|]. intros y Hy. apply list_elem_of_singleton in Hy as ->.
    apply string_ltb_irrefl.
  - destruct (String.ltb (key best) (key x)) eqn:E.
    + destruct (IH x) as [Hin Hmax]. split; [by right|].
      intros y Hy. apply elem_of_cons in Hy as [->|Hy]; [|by apply Hmax].
      destruct (String.ltb (key (max_from key x l)) (key best)) eqn:E2; [|done].
      rewrite <- (Hmax x) by (by left).
      symmetry. by apply (string_ltb_trans _ (key best)).
    + destruct (IH best) as [Hin Hmax]. split.
      * apply elem_of_cons in Hin as [->|Hin]; [by left|by right; right].
      * intros y Hy. apply elem_of_cons in Hy as [->|Hy]; [by apply Hmax; left|].
        apply elem_of_cons in Hy as [->|Hy]; [|by apply Hmax; right].
        destruct (String.ltb (key (max_from key best l)) (key x)) eqn:E2; [|done].
        destruct (String.ltb (key (max_from key best l)) (key best)) eqn:E3.
        -- rewrite <- (Hmax best) by (by left). done.
        -- (* best <= max < x would put best below x *)
           exfalso.
           assert (Hle : String.ltb (key best) (key x) = true); [|congruence].
           unfold String.ltb in *.
           destruct (String.compare (key (max_from key best l)) (key x)) eqn:C1; try done.
           destruct (String.compare (key (max_from key best l)) (key best)) eqn:C2.
           ++ apply String.compare_eq_iff in C2. by rewrite <- C2, C1.
           ++ done.
           ++ rewrite String.compare_antisym in C2.
              destruct (String.compare (key best) (key (max_from key best l))) eqn:C3;
                try done.
              by rewrite (string_compare_lt_trans _ _ _ C3 C1).
Qed.

(** ** Maintenance alerts *)

Lemma flat_map_res_ok {A B} (f : A → res (list B)) (P : A → list B → Prop) (l : list A) :
  (∀ x, x ∈ l → ∃ o, f x = Ok o ∧ P x o) →
  ∃ outs, flat_map_res f l = Ok (concat outs) ∧ Forall2 P l outs.
Proof.
  induction l as [|x l IH]; intros H; simpl.
  - exists []. split; [done|constructor].
  - destruct (H x) as (o & Ho & HP); [by left|].
    destruct IH as (outs & Houts & HF); [intros y Hy; apply H; by right|].
    exists (o :: outs). rewrite Ho. simpl. rewrite Houts. simpl.
    split; [done|by constructor].
Qed.

(** Steps of the error monad only; the alert texts stay folded. *)
Ltac res_simpl := cbn [mbind res_bind mret res_ret of_option as_str from_option id].

(** The floor division of [days_since] gives the whole days elapsed, and
    nothing else does. *)
Lemma elapsed_microseconds now last :
  elapsed now last = microseconds now - microseconds last.
Proof. unfold elapsed, time_of_day, microseconds. lia. Qed.

Lemma whole_days_days_since now last : whole_days now last (days_since now last).
Proof.
  unfold whole_days, days_since. rewrite elapsed_microseconds.
  pose proof (Z.div_mod (microseconds now - microseconds last) 86400000000).
  pose proof (Z.mod_pos_bound (microseconds now - microseconds last) 86400000000).
  lia.
Qed.

Lemma whole_days_unique now last d :
  whole_days now last d → d = days_since now last.
Proof.
  intros H. pose proof (whole_days_days_since now last) as H'.
  unfold whole_days in *. nia.
Qed.

Section AlertFacts.

Variable fromisoformat : string → option datetime.

Lemma with_key_ok m :
  (∃ s, m !! "created_at" = Some (VStr s)) → with_key m = Ok (created_at m, m).
Proof.
  intros [s Hs]. unfold with_key, created_at_key, created_at, get. by rewrite Hs.
Qed.

Lemma mapM_with_key_ok (l : list (gmap string value)) :
  (∀ m, m ∈ l → ∃ s, m !! "created_at" = Some (VStr s)) →
  mapM with_key l = Ok (map (λ m, (created_at m, m)) l).
Proof.
  induction l as [|m l IH]; intros H; [done|].
  cbn [mapM]. rewrite with_key_ok by (apply H; by left).
  cbn. rewrite IH by (intros y Hy; apply H; by right). done.
Qed.

Lemma plate_is_matches plate r :
  plate_is plate r = true ↔ matches "plate_number" plate r.
Proof.
  unfold plate_is, matches. split.
  - destruct (r !! "plate_number") as [q|]; [|done]. intros H. by exists q.
  - by intros (q & -> & H).
Qed.

Lemma max_from_keyed (first : gmap string value) others :
  let last := snd (max_from fst (created_at first, first)
                     (map (λ m, (created_at m, m)) others)) in
  last ∈ first :: others
  ∧ ∀ m, m ∈ first :: others → String.ltb (created_at last) (created_at m) = false.
Proof.
  intros last.
  destruct (max_from_spec fst (map (λ m, (created_at m, m)) others)
              (created_at first, first)) as [Hin Hmax].
  assert (Hshape : ∀ km, km ∈ (created_at first, first)
                                :: map (λ m, (created_at m, m)) others →
                         km.1 = created_at km.2 ∧ km.2 ∈ first :: others).
  { intros km Hkm. apply elem_of_cons in Hkm as [->|Hkm]; [split; [done|by left]|].
    apply list_elem_of_fmap in Hkm as (m & -> & Hm). split; [done|by right]. }
  destruct (Hshape _ Hin) as [Hk Hl]. split; [done|].
  intros m Hm. unfold last. rewrite <- Hk.
  apply (Hmax (created_at m, m)).
  apply elem_of_cons in Hm as [->|Hm]; [by left|].
  right. apply list_elem_of_fmap. by exists m.
Qed.

Lemma vehicle_alerts_ok now (records : list (gmap string value)) vehicle :
  is_Some (vehicle !! "plate_number") →
  has_key "plate_number" records →
  stamped fromisoformat records →
  ∃ out, vehicle_alerts fromisoformat now records vehicle = Ok out
         ∧ alerts_of fromisoformat now records vehicle out.
Proof.
  intros [plate Hplate] Hk Hs.
  unfold vehicle_alerts, getitem. rewrite Hplate. res_simpl.
  rewrite (filter_res_ok _ (plate_is plate))
    by (intros r Hr; by apply has_plate_ok, Hk).
  res_simpl.
  assert (Hsub : ∀ m, m ∈ List.filter (plate_is plate) records →
                      m ∈ records ∧ matches "plate_number" plate m).
  { intros m Hm. apply list_elem_of_In, filter_In in Hm as [Hm Hp].
    split; [by apply list_elem_of_In|by apply plate_is_matches]. }
  assert (Hsup : ∀ m, m ∈ records → matches "plate_number" plate m →
                      m ∈ List.filter (plate_is plate) records).
  { intros m Hm Hp. apply list_elem_of_In, filter_In.
    split; [by apply list_elem_of_In|by apply plate_is_matches]. }
  destruct (List.filter (plate_is plate) records) as [|first others] eqn:E.
  - eexists. split; [reflexivity|]. exists plate. split; [done|]. left.
    split; [|done]. intros m Hm Hp. by apply (elem_of_nil m), Hsup.
  - assert (Hstr : ∀ m, m ∈ first :: others → ∃ s, m !! "created_at" = Some (VStr s)).
    { intros m Hm. destruct (Hsub m Hm) as [Hr _].
      destruct (Hs m Hr) as (s & d & Hc & _). eauto. }
    rewrite with_key_ok by (apply Hstr; by left). res_simpl.
    rewrite mapM_with_key_ok by (intros m Hm; apply Hstr; by right). res_simpl.
    destruct (max_from_keyed first others) as [Hin Hmax].
    set (last := snd (max_from fst _ _)) in *.
    destruct (Hsub last Hin) as [Hlast Hlp].
    destruct (Hs last Hlast) as (s & d & Hc & Hd).
    assert (Hcs : created_at last = s) by (unfold created_at; by rewrite Hc).
    unfold get. rewrite Hc. res_simpl. rewrite Hd. res_simpl.
    assert (Hlatest : latest_for plate records last).
    { split; [done|]. split; [done|]. intros m' Hm' Hp'. by apply Hmax, Hsup. }
    assert (Hread : fromisoformat (created_at last) = Some d) by (by rewrite Hcs).
    destruct (Z.ltb_spec 90 (days_since now d)) as [H90|H90];
      [destruct (Z.ltb_spec 180 (days_since now d)) as [H180|H180]|];
      (eexists; split; [reflexivity|]; exists plate; split; [done|]; right;
       exists last, d, (days_since now d); split; [done|]; split; [done|];
       split; [apply whole_days_days_since|]; cbv zeta).
    + right; right. split; [lia|done].
    + right; left. split; [lia|done].
    + left. split; [lia|done].
Qed.

(** C6. For vehicles with a plate number and maintenance records with a
    plate number and a readable [created_at], [get_maintenance_alerts]
    returns, vehicle by vehicle and in order: for a vehicle with no
    maintenance record one high-priority alert; otherwise, with [d] the
    whole days between now and the [created_at] of a record of the vehicle
    that is maximal in lexicographic order, nothing when [d <= 90], one
    medium alert when [91 <= d <= 180], one high alert when [d > 180]. *)
Theorem get_maintenance_alerts_cases (now : datetime) (st : store) :
  has_key "plate_number" (vehicles st) →
  has_key "plate_number" (maintenance st) →
  stamped fromisoformat (maintenance st) →
  ∃ outs,
    get_maintenance_alerts fromisoformat now st = Ok (concat outs)
    ∧ Forall2 (alerts_of fromisoformat now (maintenance st)) (vehicles st) outs.
Proof.
  intros Hv Hm Hs. unfold get_maintenance_alerts.
  apply flat_map_res_ok. intros v Hin.
  apply vehicle_alerts_ok; [by apply Hv|done|done].
Qed.

End AlertFacts.

Lemma sample_maintenance_keyed : has_key "plate_number" (maintenance Sample.garage).
Proof. each_element. Qed.

Lemma sample_maintenance_stamped : stamped read_isoformat (maintenance Sample.garage).
Proof.
  intros m Hm. simpl in Hm.
  repeat (apply elem_of_cons in Hm as [->|Hm]; [eexists _, _; split; reflexivity|]).
  by apply elem_of_nil in Hm.
Qed.

(** On the sample garage the statement leaves one answer: the truck's
    later service is 102 whole days old, the van has none. *)
Lemma sample_truck_alerts out :
  alerts_of read_isoformat Sample.now (maintenance Sample.garage) Sample.truck out →
  out = [maintenance_alert (VStr "ABC-123") "Last maintenance 102 days ago" "medium"].
Proof.
  intros (plate & Hplate & Hcases).
  assert (plate = VStr "ABC-123") as ->.
  { change (Some (VStr "ABC-123") = Some plate) in Hplate. by injection Hplate. }
  destruct Hcases as [[Hnone _]|(m & last & d & Hlatest & Hlast & Hwhole & Hd)].
  - exfalso. apply (Hnone Sample.first_service); [by left|].
    by exists (VStr "ABC-123").
  - destruct Hlatest as (Hin & _ & Hmax). cbn [maintenance Sample.garage] in Hin, Hmax.
    apply elem_of_cons in Hin as [->|Hin].
    { exfalso.
      assert (H : String.ltb (created_at Sample.first_service)
                    (created_at Sample.second_service) = false).
      { apply Hmax; [by right; left|]. by exists (VStr "ABC-123"). }
      by vm_compute in H. }
    apply elem_of_cons in Hin as [->|Hin]; [|by apply elem_of_nil in Hin].
    assert (last = mk_datetime 2023 11 20 9 0 0 0) as ->.
    { change (Some (mk_datetime 2023 11 20 9 0 0 0) = Some last) in Hlast.
      by injection Hlast. }
    assert (Hd102 : d = 102).
    { unfold whole_days in Hwhole.
      change (elapsed Sample.now (mk_datetime 2023 11 20 9 0 0 0))
        with 8816400000000 in Hwhole. lia. }
    subst d. cbv zeta in Hd.
    destruct Hd as [[? _]|[[_ ->]|[? _]]]; [lia|reflexivity|lia].
Qed.

Lemma sample_van_alerts out :
  alerts_of read_isoformat Sample.now (maintenance Sample.garage) Sample.van out →
  out = [maintenance_alert (VStr "XYZ-9") "No maintenance records found" "high"].
Proof.
  intros (plate & Hplate & Hcases).
  assert (plate = VStr "XYZ-9") as ->.
  { change (Some (VStr "XYZ-9") = Some plate) in Hplate. by injection Hplate. }
  destruct Hcases as [[_ ->]|(m & last & d & Hlatest & _)]; [done|].
  exfalso. destruct Hlatest as (Hin & (q & Hq & E) & _).
  cbn [maintenance Sample.garage] in Hin.
  apply elem_of_cons in Hin as [->|Hin];
    [change (Some (VStr "ABC-123") = Some q) in Hq; by injection Hq as <-|].
  apply elem_of_cons in Hin as [->|Hin];
    [change (Some (VStr "ABC-123") = Some q) in Hq; by injection Hq as <-|].
  by apply elem_of_nil in Hin.
Qed.

Lemma get_maintenance_alerts_cases_witness :
  has_key "plate_number" (vehicles Sample.garage)
  ∧ has_key "plate_number" (maintenance Sample.garage)
  ∧ stamped read_isoformat (maintenance Sample.garage)
  ∧ get_maintenance_alerts read_isoformat Sample.now Sample.garage
    = Ok [maintenance_alert (VStr "ABC-123") "Last maintenance 102 days ago" "medium";
          maintenance_alert (VStr "XYZ-9") "No maintenance records found" "high"].
Proof.
  split; [exact sample_vehicles_keyed|].
  split; [exact sample_maintenance_keyed|].
  split; [exact sample_maintenance_stamped|].
  destruct (get_maintenance_alerts_cases read_isoformat Sample.now Sample.garage
              sample_vehicles_keyed sample_maintenance_keyed sample_maintenance_stamped)
    as (outs & E & HF).
  cbn [vehicles Sample.garage] in HF.
  apply Forall2_cons_inv_l in HF as (truck_out & outs1 & Htruck & HF & ->).
  apply Forall2_cons_inv_l in HF as (van_out & outs2 & Hvan & HF & ->).
  apply Forall2_nil_inv_l in HF as ->.
  apply sample_truck_alerts in Htruck as ->.
  apply sample_van_alerts in Hvan as ->.
  exact E.
Defined.

Example get_maintenance_alerts_garage :
  get_maintenance_alerts read_isoformat Sample.now Sample.garage
  = Ok [maintenance_alert (VStr "ABC-123") "Last maintenance 102 days ago" "medium";
        maintenance_alert (VStr "XYZ-9") "No maintenance records found" "high"].
Proof. reflexivity. Qed.

Lemma sample_permits_keyed : has_key "plate_number" (permits Sample.office).
Proof. each_element. Qed.

Lemma sample_taxes_keyed : has_key "plate_number" (token_tax Sample.office).
Proof. each_element. Qed.

Lemma sample_truck_has_permit :
  has_unexpired read_isoformat Sample.now (VStr "ABC-123") (permits Sample.office).
Proof.
  exists Sample.permit, (mk_datetime 2024 3 6 0 0 0 0).
  split; [by left|]. split; [by exists (VStr "ABC-123")|]. by split.
Qed.

Lemma sample_truck_has_tax :
  has_unexpired read_isoformat Sample.now (VStr "ABC-123") (token_tax Sample.office).
Proof.
  exists Sample.tax, (mk_datetime 2024 4 10 0 0 0 0).
  split; [by left|]. split; [by exists (VStr "ABC-123")|]. by split.
Qed.

Lemma compliance_status_cases_witness :
  Sample.truck !! "plate_number" = Some (VStr "ABC-123")
  ∧ has_key "plate_number" (permits Sample.office)
  ∧ dated read_isoformat (permits Sample.office)
  ∧ has_key "plate_number" (token_tax Sample.office)
  ∧ dated read_isoformat (token_tax Sample.office)
  ∧ ∃ c, Dashboard.vehicle_compliance read_isoformat Sample.now
           (permits Sample.office) (token_tax Sample.office) Sample.truck = Ok c
         ∧ Dashboard.status c = "Compliant".
Proof.
  split; [reflexivity|].
  split; [exact sample_permits_keyed|].
  split; [exact sample_permits_dated|].
  split; [exact sample_taxes_keyed|].
  split; [exact sample_taxes_dated|].
  destruct (compliance_status_cases read_isoformat Sample.now Sample.truck
              (VStr "ABC-123") (permits Sample.office) (token_tax Sample.office)
              eq_refl sample_permits_keyed sample_permits_dated
              sample_taxes_keyed sample_taxes_dated)
    as (c & Hc & _ & Hcompliant & _).
  exists c. split; [exact Hc|].
  apply Hcompliant. split; [exact sample_truck_has_permit|exact sample_truck_has_tax].
Defined.

(** A permit expiring in 5 days and a tax record expiring in 40 days are
    both unexpired today: the vehicle is Compliant. *)
Example compliance_near_expiry :
  Dashboard.status <$>
    (match Dashboard.vehicle_compliance read_isoformat Sample.now
             (permits Sample.office) (token_tax Sample.office) Sample.truck
     with Ok c => Some c | Raise _ => None end)
  = Some "Compliant".
Proof. reflexivity. Qed.

Example compliance_fleet :
  (map Dashboard.status) <$>
    (match Dashboard.show_document_compliance read_isoformat Sample.now
             (vehicles Sample.office) (permits Sample.office) (token_tax Sample.office)
     with Ok l => Some l | Raise _ => None end)
  = Some ["Compliant"; "Non-Compliant"].
Proof. reflexivity. Qed.

(** ** The shape of an alert *)

Lemma flat_map_res_elem {A B} (f : A → res (list B)) (P : B → Prop) (l : list A) :
  (∀ x o, x ∈ l → f x = Ok o → Forall P o) →
  ∀ out, flat_map_res f l = Ok out → Forall P out.
Proof.
  induction l as [|x l IH]; intros H out; simpl.
  - intros [= <-]. constructor.
  - destruct (f x) as [o|] eqn:Ef; [|done]. simpl.
    destruct (flat_map_res f l) as [r|] eqn:Er; [|done]. simpl.
    intros [= <-]. apply Forall_app. split.
    + apply (H x); [by left|done].
    + apply IH; [|done]. intros y o' Hy. apply H. by right.
Qed.

Lemma maintenance_alert_shape plate text priority :
  let a := maintenance_alert plate text priority in
  dom a = {[ "plate_number"; "alert"; "priority" ]}
  ∧ a !! "plate_number" = Some plate
  ∧ a !! "priority" = Some (VStr priority)
  ∧ a !! "alert_type" = None.
Proof.
  unfold maintenance_alert. split; [|done].
  rewrite !dom_insert_L, dom_singleton_L. set_solver.
Qed.

Section AlertShape.

Variable fromisoformat : string → option datetime.

Lemma vehicle_alerts_shape now records vehicle out :
  vehicle_alerts fromisoformat now records vehicle = Ok out →
  Forall (λ a, ∃ plate text priority,
            a = maintenance_alert plate text priority
            ∧ (priority = "high" ∨ priority = "medium")) out.
Proof.
  unfold vehicle_alerts.
  destruct (getitem vehicle "plate_number") as [plate|]; [|done]. res_simpl.
  destruct (filter_res _ _) as [[|first others]|]; res_simpl; [| |done].
  - intros [= <-]. repeat constructor. eexists _, _, _. split; [done|by left].
  - destruct (with_key first) as [k|]; [|done]. res_simpl.
    destruct (mapM with_key others) as [ks|]; [|done]. res_simpl.
    destruct (get _ _ _) as [| | | |s|]; try done. res_simpl.
    destruct (fromisoformat s) as [d|]; [|done]. res_simpl.
    destruct (90 <? _); [|intros [= <-]; constructor].
    intros [= <-]. repeat constructor. eexists _, _, _. split; [done|].
    destruct (180 <? _); [by left|by right].
Qed.

(** C10. Every alert [get_maintenance_alerts] returns has exactly the
    fields [plate_number], [alert] and [priority], with priority [high] or
    [medium], and no [alert_type]; so [show_maintenance_alerts], which
    reads [alert['alert_type']] with no fallback, raises [KeyError] whenever
    the list of alerts is not empty. *)
Theorem maintenance_alert_fields (now : datetime) (st : store)
    (alerts : list (gmap string value)) :
  get_maintenance_alerts fromisoformat now st = Ok alerts →
  (∀ a, a ∈ alerts →
     dom a = {[ "plate_number"; "alert"; "priority" ]}
     ∧ (a !! "priority" = Some (VStr "high") ∨ a !! "priority" = Some (VStr "medium"))
     ∧ a !! "alert_type" = None)
  ∧ (alerts ≠ [] →
     MaintenanceModule.show_maintenance_alerts fromisoformat now st
     = Raise (KeyError "alert_type")).
Proof.
  intros Halerts.
  assert (Hshape : Forall (λ a, ∃ plate text priority,
                             a = maintenance_alert plate text priority
                             ∧ (priority = "high" ∨ priority = "medium")) alerts).
  { revert Halerts. unfold get_maintenance_alerts. apply flat_map_res_elem.
    intros v o _. apply vehicle_alerts_shape. }
  split.
  - intros a Ha. eapply Forall_forall in Hshape; [|exact Ha].
    destruct Hshape as (plate & text & priority & -> & Hp).
    destruct (maintenance_alert_shape plate text priority) as (Hd & _ & Hpr & Hty).
    split; [done|]. split; [|done]. rewrite Hpr. destruct Hp as [->| ->]; eauto.
  - intros Hne. unfold MaintenanceModule.show_maintenance_alerts.
    rewrite Halerts. res_simpl.
    destruct alerts as [|a rest]; [done|].
    apply Forall_cons in Hshape as [(plate & text & priority & -> & _) _].
    reflexivity.
Qed.

End AlertShape.

Lemma maintenance_alert_fields_witness :
  get_maintenance_alerts read_isoformat Sample.now Sample.garage
  = Ok [maintenance_alert (VStr "ABC-123") "Last maintenance 102 days ago" "medium";
        maintenance_alert (VStr "XYZ-9") "No maintenance records found" "high"]
  ∧ MaintenanceModule.show_maintenance_alerts read_isoformat Sample.now Sample.garage
    = Raise (KeyError "alert_type").
Proof.
  split; [reflexivity|].
  by apply (maintenance_alert_fields read_isoformat Sample.now Sample.garage
              [maintenance_alert (VStr "ABC-123") "Last maintenance 102 days ago" "medium";
               maintenance_alert (VStr "XYZ-9") "No maintenance records found" "high"]
              eq_refl).
Defined.

(** ** Load numbers *)

Lemma string_length_app (s t : string) :
  String.length (s +:+ t) = (String.length s + String.length t)%nat.
Proof. induction s as [|c s IH]; simpl; [done|]. by rewrite IH. Qed.

Lemma zeros_length n : String.length (zeros n) = n.
Proof. induction n as [|n IH]; simpl; [done|]. by rewrite IH. Qed.

Lemma digits_of_length fuel : ∀ n acc (k : nat),
  0 ≤ n < 10 ^ Z.of_nat k → (1 ≤ k)%nat →
  (String.length (digits_of fuel n acc) ≤ k + String.length acc)%nat.
Proof.
  induction fuel as [|fuel IH]; intros n acc k Hn Hk; cbn [digits_of]; [lia|].
  destruct (Z.ltb_spec n 10) as [Hlt|Hge]; [cbn [String.length]; lia|].
  destruct k as [|[|k]]; [lia|change (10 ^ Z.of_nat 1) with 10 in Hn; lia|].
  specialize (IH (n / 10) (String (digit_char (n mod 10)) acc) (S k)).
  cbn [String.length] in IH. etrans; [apply IH; [|lia]|lia].
  split; [apply Z.div_pos; lia|].
  apply Z.div_lt_upper_bound; [lia|].
  rewrite (Nat2Z.inj_succ (S k)), Z.pow_succ_r in Hn by lia. lia.
Qed.

Lemma digit_of_digit_char d : 0 ≤ d < 10 → digit (digit_char d) = Some d.
Proof.
  intros H.
  assert (Hd : d = 0 ∨ d = 1 ∨ d = 2 ∨ d = 3 ∨ d = 4 ∨ d = 5 ∨ d = 6 ∨ d = 7
               ∨ d = 8 ∨ d = 9) by lia.
  by repeat destruct Hd as [->|Hd]; [..|subst d].
Qed.

Lemma digits_cons a d s :
  0 ≤ d < 10 → digits a (String (digit_char d) s) = digits (a * 10 + d) s.
Proof.
  intros H. change (digits a (String (digit_char d) s))
    with (x ← digit (digit_char d); digits (a * 10 + x) s).
  by rewrite digit_of_digit_char.
Qed.

(** Read back, the text [digits_of] puts before [acc] is the number
    itself, behind whatever was read before it. *)
Lemma digits_of_read fuel : ∀ n acc,
  0 ≤ n < 2 ^ Z.of_nat fuel →
  ∃ k, 0 ≤ k ∧ ∀ a, digits a (digits_of fuel n acc) = digits (a * 10 ^ k + n) acc.
Proof.
  induction fuel as [|fuel IH]; intros n acc Hn.
  - exists 0. split; [done|]. intros a. cbn [digits_of]. f_equal.
    change (2 ^ Z.of_nat 0) with 1 in Hn. lia.
  - cbn [digits_of]. destruct (Z.ltb_spec n 10) as [Hlt|Hge].
    + exists 1. split; [done|]. intros a.
      rewrite digits_cons by (apply Z.mod_pos_bound; lia).
      rewrite Z.mod_small by lia. f_equal; lia.
    + destruct (IH (n / 10) (String (digit_char (n mod 10)) acc)) as (k & Hk0 & Hk).
      { split; [apply Z.div_pos; lia|].
        apply Z.div_lt_upper_bound; [lia|].
        rewrite Nat2Z.inj_succ, Z.pow_succ_r in Hn by lia. lia. }
      exists (Z.succ k). split; [lia|]. intros a. rewrite Hk.
      rewrite digits_cons by (apply Z.mod_pos_bound; lia).
      f_equal. rewrite Z.pow_succ_r by lia.
      pose proof (Z.div_mod n 10). lia.
Qed.

Lemma digits_zeros k s : digits 0 (zeros k +:+ s) = digits 0 s.
Proof.
  induction k as [|k IH]; [done|].
  change (zeros (S k) +:+ s) with (String (digit_char 0) (zeros k +:+ s)).
  by rewrite digits_cons.
Qed.

(** [{n:06d}] for a count: the text reads back as [n], and has six
    characters while [n] has at most six digits. *)
Lemma format_06d_spec n :
  0 ≤ n →
  digits 0 (format_06d n) = Some n
  ∧ (n < 1000000 → String.length (format_06d n) = 6%nat).
Proof.
  intros Hn. unfold format_06d. destruct (Z.ltb_spec n 0) as [|_]; [lia|].
  unfold zfill, str_nat. split.
  - rewrite digits_zeros.
    destruct (digits_of_read (S (Z.to_nat (Z.log2 n))) n "") as (k & _ & Hk).
    { split; [done|]. rewrite Nat2Z.inj_succ, Z2Nat.id by apply Z.log2_nonneg.
      destruct (Z.eq_dec n 0) as [->|Hne]; [done|].
      apply Z.log2_spec. lia. }
    rewrite Hk. by rewrite Z.mul_0_l.
  - intros Hlt. rewrite string_length_app, zeros_length.
    pose proof (digits_of_length (S (Z.to_nat (Z.log2 n))) n "" 6) as Hlen.
    cbn [String.length] in Hlen. lia.
Qed.

(** ** Loads *)




(** The form refuses a load whose gross weight does not exceed its tare. *)
Example show_add_load_form_no_net_weight :
  LoadModule.show_add_load_form Sample.now
    (LoadModule.mk_load_form "ABC-123 - Asif" "2024-03-01" "Refinery A" "Acme" "" ""
       4000 4000 2.5 0 "LPG" "10:00:00" "2024-03-02" "10:00:00" "Loading" "")
    Sample.depot
  = inl "Net weight must be positive. Check gross and tare weights.".
Proof. reflexivity. Qed.

(** ** Sanity checks of the helpers *)

Example show_low_stock_alerts_office :
  map (λ e, (InventoryModule.item e, InventoryModule.priority e))
    (InventoryModule.show_low_stock_alerts Text.title_ascii (inventory Sample.office))
  = [("Oil", "Critical"); ("Tires", "High")].
Proof. reflexivity. Qed.

Example py_eq_int_float : py_eq (VInt 3) (VFloat 3) = true.
Proof. reflexivity. Qed.

Example py_eq_int_float_half : py_eq (VInt 2) (VFloat 2.5) = false.
Proof. reflexivity. Qed.

Example upper_plate : upper_ascii "abc-123" = "ABC-123".
Proof. reflexivity. Qed.

Example format_06d_7 : format_06d 7 = "000007".
Proof. reflexivity. Qed.

Example format_06d_wide : format_06d 1234567 = "1234567".
Proof. reflexivity. Qed.

Example toordinal_leap_day : toordinal (mk_datetime 2024 3 1 0 0 0 0) = 738946.
Proof. reflexivity. Qed.

Example read_isoformat_stamp :
  read_isoformat (isoformat (mk_datetime 2024 3 1 12 4 56 123))
  = Some (mk_datetime 2024 3 1 12 4 56 123).
Proof. reflexivity. Qed.

Example days_since_floor :
  days_since (mk_datetime 2024 3 1 12 0 0 0) (mk_datetime 2024 3 2 11 0 0 0) = -1.
Proof. reflexivity. Qed.

Example update_inventory_clamps :
  inventory (update_inventory "oil" 3 "subtract" Sample.depot).2 !! "oil" = Some 0.
Proof. reflexivity. Qed.

(** * Further properties of the data layer *)

(** ** A service that the stock covers *)

Lemma deduct_oil_inr_stock md inv inv' :
  deduct_oil md inv = inr inv' →
  ∀ item, stock inv' item
          = stock inv item
            - (if String.eqb item "oil"
               then (if truthy (get md "oil_changed" (VBool false)) then 1 else 0)
               else 0).
Proof.
  unfold deduct_oil, stock. intros H item.
  destruct (String.eqb_spec item "oil") as [->|Hne];
    destruct (truthy _); try destruct (0 <? _); try discriminate;
    injection H as <-;
    rewrite ?lookup_insert_eq, ?lookup_insert_ne by done; simpl; lia.
Qed.

Lemma deduct_air_filter_inr_stock md inv inv' :
  deduct_air_filter md inv = inr inv' →
  ∀ item, stock inv' item
          = stock inv item
            - (if String.eqb item "air_filter"
               then (if truthy (get md "air_filter_changed" (VBool false)) then 1 else 0)
               else 0).
Proof.
  unfold deduct_air_filter, stock. intros H item.
  destruct (String.eqb_spec item "air_filter") as [->|Hne];
    destruct (truthy _); try destruct (0 <? _); try discriminate;
    injection H as <-;
    rewrite ?lookup_insert_eq, ?lookup_insert_ne by done; simpl; lia.
Qed.

Lemma deduct_tires_inr_stock md inv inv' :
  deduct_tires md inv = Ok (inr inv') →
  ∀ item, stock inv' item
          = stock inv item
            - (if String.eqb item "tires"
               then Z.max 0 (default 0 (int_of (get md "tires_changed" (VInt 0))))
               else 0).
Proof.
  unfold deduct_tires, as_int, stock. intros H item.
  destruct (int_of _) as [n|]; [|discriminate]. simpl in *.
  destruct (Z.ltb_spec 0 n); [destruct (Z.leb_spec n (default 0 (inv !! "tires")))|];
    try discriminate; injection H as <-;
    destruct (String.eqb_spec item "tires") as [->|Hne];
    rewrite ?lookup_insert_eq, ?lookup_insert_ne by done; simpl; lia.
Qed.

Lemma requested_split md item :
  requested md item
  = (if String.eqb item "oil"
     then (if truthy (get md "oil_changed" (VBool false)) then 1 else 0) else 0)
    + (if String.eqb item "air_filter"
       then (if truthy (get md "air_filter_changed" (VBool false)) then 1 else 0) else 0)
    + (if String.eqb item "tires"
       then Z.max 0 (default 0 (int_of (get md "tires_changed" (VInt 0)))) else 0).
Proof.
  unfold requested.
  destruct (String.eqb_spec item "oil") as [->|?]; simpl; [lia|].
  destruct (String.eqb_spec item "air_filter") as [->|?]; simpl; [lia|].
  destruct (String.eqb item "tires"); lia.
Qed.

(** X1. When the stock covers every requested part (and [tires_changed],
    if present, is an integer), [add_maintenance_record] succeeds: in the
    documents it leaves, the inventory has each item reduced by exactly
    what was requested (1 oil, 1 air filter, the number of tires) and
    nothing else, the maintenance records are the old ones followed by
    the new record, with [id] = previous length + 1, a [created_at] stamp
    and its other fields as given, and the other collections are as they
    were. *)
Theorem add_maintenance_record_success
    (now : datetime) (maintenance_data : gmap string value) (st : store) :
  is_Some (int_of (get maintenance_data "tires_changed" (VInt 0))) →
  ¬ oil_short maintenance_data (inventory st) →
  ¬ air_filter_short maintenance_data (inventory st) →
  ¬ tires_short maintenance_data (inventory st) →
  ∃ st' record,
    add_maintenance_record now maintenance_data st
    = Ok (true, "Maintenance record added successfully", st')
    ∧ maintenance st' = maintenance st ++ [record]
    ∧ (∀ item, stock (inventory st') item
               = stock (inventory st) item - requested maintenance_data item)
    ∧ vehicles st' = vehicles st ∧ permits st' = permits st
    ∧ token_tax st' = token_tax st ∧ loads st' = loads st
    ∧ record !! "id" = Some (VInt (Z.of_nat (length (maintenance st)) + 1))
    ∧ record !! "created_at" = Some (VStr (isoformat now))
    ∧ ∀ k, k ≠ "id" → k ≠ "created_at" → record !! k = maintenance_data !! k.
Proof.
  intros [n Hn] Hoil Hair Htires. unfold add_maintenance_record.
  destruct (deduct_oil maintenance_data (inventory st)) as [m1|inv1] eqn:E1.
  { apply deduct_oil_inl in E1 as [_ ?]. done. }
  pose proof (deduct_oil_inr_stock _ _ _ E1) as S1.
  apply deduct_oil_inr in E1 as [_ K1].
  destruct (deduct_air_filter maintenance_data inv1) as [m2|inv2] eqn:E2.
  { apply deduct_air_filter_inl in E2 as [_ Hs]. exfalso. apply Hair.
    unfold air_filter_short in *. by rewrite <- K1. }
  pose proof (deduct_air_filter_inr_stock _ _ _ E2) as S2.
  apply deduct_air_filter_inr in E2 as [_ K2].
  destruct (deduct_tires maintenance_data inv2) as [[m3|inv3]|e] eqn:E3.
  - destruct (deduct_tires_enough _ _ _ E3) as [inv' ?]; [|done].
    unfold tires_short in *. by rewrite K2, K1.
  - pose proof (deduct_tires_inr_stock _ _ _ E3) as S3. cbn [mbind res_bind].
    eexists _, _. split; [reflexivity|].
    cbn [vehicles maintenance inventory permits token_tax loads
         save_maintenance save_inventory].
    split; [reflexivity|]. split.
    + intros item. rewrite S3, S2, S1, requested_split. lia.
    + do 4 (split; [reflexivity|]).
      split; [apply lookup_insert_eq|].
      split; [by rewrite lookup_insert_ne, lookup_insert_eq|].
      intros k Hk1 Hk2. by rewrite !lookup_insert_ne.
  - unfold deduct_tires, as_int in E3. rewrite Hn in E3.
    cbn [of_option mbind res_bind] in E3. by repeat case_match.
Qed.

Lemma add_maintenance_record_success_witness :
  is_Some (int_of (get Sample.service "tires_changed" (VInt 0)))
  ∧ ¬ oil_short Sample.service (inventory Sample.garage)
  ∧ ¬ air_filter_short Sample.service (inventory Sample.garage)
  ∧ ¬ tires_short Sample.service (inventory Sample.garage)
  ∧ ∃ st' record,
      add_maintenance_record Sample.now Sample.service Sample.garage
      = Ok (true, "Maintenance record added successfully", st')
      ∧ maintenance st' = maintenance Sample.garage ++ [record]
      ∧ stock (inventory st') "oil" = 3
      ∧ stock (inventory st') "air_filter" = 1
      ∧ stock (inventory st') "tires" = 6
      ∧ record !! "id" = Some (VInt 3).
Proof.
  assert (H1 : is_Some (int_of (get Sample.service "tires_changed" (VInt 0))))
    by (by exists 2).
  assert (H2 : ¬ oil_short Sample.service (inventory Sample.garage))
    by (intros [_ H]; by vm_compute in H).
  assert (H3 : ¬ air_filter_short Sample.service (inventory Sample.garage))
    by (intros [_ H]; by vm_compute in H).
  assert (H4 : ¬ tires_short Sample.service (inventory Sample.garage)).
  { intros (n & Hn & _ & H). injection Hn as <-. by vm_compute in H. }
  repeat (split; [assumption|]).
  destruct (add_maintenance_record_success Sample.now Sample.service Sample.garage
              H1 H2 H3 H4)
    as (st' & record & E & Hm & Hstock & _ & _ & _ & _ & Hid & _).
  exists st', record. split; [exact E|]. split; [exact Hm|].
  rewrite !Hstock. repeat (split; [reflexivity|]). exact Hid.
Defined.

Lemma nonneg_insert (inv : gmap string Z) k q :
  nonneg inv → 0 ≤ q → nonneg (<[k := q]> inv).
Proof.
  intros H Hq i x. destruct (decide (k = i)) as [->|Hne].
  - rewrite lookup_insert_eq. by intros [= <-].
  - rewrite lookup_insert_ne by done. apply H.
Qed.

(** X2. [add_maintenance_record] never drives a quantity below zero: from
    an inventory with non-negative quantities, whatever it returns, the
    saved inventory has non-negative quantities. *)
Theorem add_maintenance_record_keeps_nonneg
    (now : datetime) (maintenance_data : gmap string value) (st st' : store)
    (ok : bool) (message : string) :
  nonneg (inventory st) →
  add_maintenance_record now maintenance_data st = Ok (ok, message, st') →
  nonneg (inventory st').
Proof.
  intros Hst. unfold add_maintenance_record.
  assert (H1 : ∀ inv1, deduct_oil maintenance_data (inventory st) = inr inv1 → nonneg inv1).
  { unfold deduct_oil. intros inv1.
    destruct (truthy _); [destruct (Z.ltb_spec 0 (default 0 (inventory st !! "oil")))|];
      intros [= <-]; [apply nonneg_insert; [done|lia]|done]. }
  destruct (deduct_oil _ _) as [m1|inv1]; [by intros [= _ _ <-]|].
  specialize (H1 inv1 eq_refl).
  assert (H2 : ∀ inv2, deduct_air_filter maintenance_data inv1 = inr inv2 → nonneg inv2).
  { unfold deduct_air_filter. intros inv2.
    destruct (truthy _); [destruct (Z.ltb_spec 0 (default 0 (inv1 !! "air_filter")))|];
      intros [= <-]; [apply nonneg_insert; [done|lia]|done]. }
  destruct (deduct_air_filter _ _) as [m2|inv2]; [by intros [= _ _ <-]|].
  specialize (H2 inv2 eq_refl).
  assert (H3 : ∀ inv3, deduct_tires maintenance_data inv2 = Ok (inr inv3) → nonneg inv3).
  { unfold deduct_tires, as_int. intros inv3.
    destruct (int_of _) as [n|]; [|discriminate]. cbn [of_option mbind res_bind].
    destruct (Z.ltb_spec 0 n); [destruct (Z.leb_spec n (default 0 (inv2 !! "tires")))|];
      intros [= <-]; [apply nonneg_insert; [done|lia]|done]. }
  destruct (deduct_tires _ _) as [[m3|inv3]|]; cbn [mbind res_bind];
    [by intros [= _ _ <-]| |discriminate].
  intros [= _ _ <-]. by apply H3.
Qed.

Lemma add_maintenance_record_keeps_nonneg_witness :
  nonneg (inventory Sample.garage)
  ∧ ∃ st',
      add_maintenance_record Sample.now Sample.service Sample.garage
      = Ok (true, "Maintenance record added successfully", st')
      ∧ nonneg (inventory st').
Proof.
  assert (H : nonneg (inventory Sample.garage)).
  { unfold nonneg. apply (bool_decide_unpack _). vm_compute. exact I. }
  split; [exact H|]. eexists. split; [reflexivity|].
  exact (add_maintenance_record_keeps_nonneg Sample.now Sample.service Sample.garage
           _ true _ H eq_refl).
Defined.

(** ** Adding and finding vehicles *)

Lemma plate_number_exists_false_inv vs vd q :
  vd !! "plate_number" = Some q →
  plate_number_exists vs vd = Ok false →
  Forall (λ v, ∃ p, v !! "plate_number" = Some p ∧ py_eq p q = false) vs.
Proof.
  intros Hq. induction vs as [|v vs IH]; simpl; [constructor|].
  unfold getitem. rewrite Hq.
  destruct (v !! "plate_number") as [p|] eqn:Ep; [|discriminate]. simpl.
  destruct (py_eq p q) eqn:E; [discriminate|].
  intros H. constructor; [by exists p|by apply IH].
Qed.

Lemma first_with_plate_none q vs :
  Forall (λ v, ∃ p, v !! "plate_number" = Some p ∧ py_eq p q = false) vs →
  first_with_plate q vs = Ok None.
Proof.
  induction 1 as [|v vs (p & Hp & E) _ IH]; simpl; [done|].
  unfold getitem. rewrite Hp. simpl. by rewrite E.
Qed.

Lemma first_with_plate_last q vs record p :
  Forall (λ v, ∃ p, v !! "plate_number" = Some p ∧ py_eq p q = false) vs →
  record !! "plate_number" = Some p → py_eq p q = true →
  first_with_plate q (vs ++ [record]) = Ok (Some record).
Proof.
  intros Hvs Hp E. induction Hvs as [|v vs (p' & Hp' & E') _ IH]; simpl.
  - unfold getitem. rewrite Hp. simpl. by rewrite E.
  - unfold getitem. rewrite Hp'. simpl. by rewrite E'.
Qed.

(** X3. Round trip of [add_vehicle] and [get_vehicle_by_plate]: when
    [add_vehicle] accepts a record with plate [p], looking [p] up found
    nothing before the call and afterwards returns the stored record, the
    one given plus its [id] and [created_at]. *)
Theorem add_vehicle_then_get
    (now : datetime) (vehicle_data : gmap string value) (p : string)
    (st st' : store) (message : string) :
  vehicle_data !! "plate_number" = Some (VStr p) →
  add_vehicle now vehicle_data st = Ok (true, message, st') →
  get_vehicle_by_plate (VStr p) st = Ok None
  ∧ ∃ record,
      get_vehicle_by_plate (VStr p) st' = Ok (Some record)
      ∧ vehicles st' = vehicles st ++ [record]
      ∧ record !! "id" = Some (VInt (Z.of_nat (length (vehicles st)) + 1))
      ∧ record !! "created_at" = Some (VStr (isoformat now))
      ∧ ∀ k, k ≠ "id" → k ≠ "created_at" → record !! k = vehicle_data !! k.
Proof.
  intros Hp. unfold add_vehicle, get_vehicle_by_plate.
  destruct (plate_number_exists _ _) as [[]|] eqn:E; try discriminate.
  apply (plate_number_exists_false_inv _ _ _ Hp) in E.
  cbn [mbind res_bind]. intros H.
  pose proof (f_equal (λ r, match r with Ok (_, _, s) => vehicles s | _ => [] end) H)
    as Hv. cbn in Hv.
  split; [by apply first_with_plate_none|].
  eexists. rewrite <- Hv. split.
  - apply (first_with_plate_last _ _ _ (VStr p)); [done| |apply String.eqb_refl].
    by rewrite !lookup_insert_ne.
  - split; [done|]. split; [apply lookup_insert_eq|].
    split; [by rewrite lookup_insert_ne, lookup_insert_eq|].
    intros k Hk1 Hk2. by rewrite !lookup_insert_ne.
Qed.

Lemma add_vehicle_then_get_witness :
  ∃ st',
    add_vehicle Sample.now {[ "plate_number" := VStr "NEW-1" ]} Sample.depot
    = Ok (true, "Vehicle added successfully", st')
    ∧ get_vehicle_by_plate (VStr "NEW-1") Sample.depot = Ok None
    ∧ ∃ record, get_vehicle_by_plate (VStr "NEW-1") st' = Ok (Some record)
                ∧ record !! "id" = Some (VInt 3).
Proof.
  assert (E : ∃ st',
             add_vehicle Sample.now {[ "plate_number" := VStr "NEW-1" ]} Sample.depot
             = Ok (true, "Vehicle added successfully", st'))
    by (eexists; reflexivity).
  destruct E as [st' E]. exists st'. split; [exact E|].
  assert (Hp : ({[ "plate_number" := VStr "NEW-1" ]} : gmap string value)
                 !! "plate_number" = Some (VStr "NEW-1")) by reflexivity.
  destruct (add_vehicle_then_get Sample.now _ "NEW-1" Sample.depot st' _ Hp E)
    as (Hnone & record & Hget & _ & Hid & _).
  split; [exact Hnone|]. exists record. split; [exact Hget|exact Hid].
Defined.

(** X4. [add_vehicle] keeps plate numbers unique: if the stored vehicles
    have pairwise different string plates and the new record's plate is a
    string, the same holds of the collection it saves, whether the record
    was accepted or refused. *)
Theorem add_vehicle_keeps_unique_plates
    (now : datetime) (vehicle_data : gmap string value) (p : string)
    (st st' : store) (ok : bool) (message : string) :
  unique_plates (vehicles st) →
  vehicle_data !! "plate_number" = Some (VStr p) →
  add_vehicle now vehicle_data st = Ok (ok, message, st') →
  unique_plates (vehicles st').
Proof.
  intros [Hstr Hnd] Hp. unfold add_vehicle.
  destruct (plate_number_exists _ _) as [[]|] eqn:E; cbn [mbind res_bind];
    [by intros [= _ _ <-]| |discriminate].
  apply (plate_number_exists_false_inv _ _ _ Hp) in E.
  intros H.
  pose proof (f_equal (λ r, match r with Ok (_, _, s) => vehicles s | _ => [] end) H)
    as Hv. cbn in Hv. rewrite <- Hv. split.
  - intros v Hv'. apply elem_of_app in Hv' as [Hv'|Hv']; [by apply Hstr|].
    apply list_elem_of_singleton in Hv' as ->. exists p. by rewrite !lookup_insert_ne.
  - unfold plates. rewrite map_app. apply NoDup_app. split; [done|]. split.
    + intros x Hx Hx'. apply list_elem_of_singleton in Hx'. subst x.
      rewrite !lookup_insert_ne in Hx by done. rewrite Hp in Hx.
      apply list_elem_of_fmap in Hx as (v & Hv1 & Hv2).
      eapply Forall_forall in E; [|exact Hv2].
      destruct E as (p' & Hp' & Hne). rewrite Hp' in Hv1. injection Hv1 as <-.
      simpl in Hne. by rewrite String.eqb_refl in Hne.
    + apply NoDup_singleton.
Qed.

Lemma sample_unique_plates : unique_plates (vehicles Sample.depot).
Proof.
  split; [each_element|].
  change (plates (vehicles Sample.depot))
    with [Some (VStr "ABC-123"); Some (VStr "XYZ-9")].
  apply NoDup_cons. split; [|apply NoDup_singleton].
  intros H. by apply list_elem_of_singleton in H.
Qed.

Lemma add_vehicle_keeps_unique_plates_witness :
  unique_plates (vehicles Sample.depot)
  ∧ ∃ st',
      add_vehicle Sample.now {[ "plate_number" := VStr "NEW-1" ]} Sample.depot
      = Ok (true, "Vehicle added successfully", st')
      ∧ unique_plates (vehicles st').
Proof.
  split; [exact sample_unique_plates|].
  assert (E : ∃ st',
             add_vehicle Sample.now {[ "plate_number" := VStr "NEW-1" ]} Sample.depot
             = Ok (true, "Vehicle added successfully", st'))
    by (eexists; reflexivity).
  destruct E as [st' E]. exists st'. split; [exact E|].
  assert (Hp : ({[ "plate_number" := VStr "NEW-1" ]} : gmap string value)
                 !! "plate_number" = Some (VStr "NEW-1")) by reflexivity.
  exact (add_vehicle_keeps_unique_plates Sample.now _ "NEW-1" Sample.depot st' _ _
           sample_unique_plates Hp E).
Defined.

(** ** Edits keep what identifies a vehicle *)

Lemma identity_fields_alter f (i : nat) (records : list (gmap string value)) :
  (∀ r, f r !! "plate_number" = r !! "plate_number"
        ∧ f r !! "id" = r !! "id" ∧ f r !! "created_at" = r !! "created_at") →
  identity_fields (alter f i records) = identity_fields records.
Proof.
  intros Hf. unfold identity_fields.
  revert i. induction records as [|r rs IH]; intros [|i]; simpl; [done|done| |].
  - destruct (Hf r) as (-> & -> & ->). done.
  - f_equal. apply IH.
Qed.

Lemma merge_update_identity now updated_data r :
  updated_data !! "plate_number" = None →
  updated_data !! "id" = None →
  updated_data !! "created_at" = None →
  merge_update now updated_data r !! "plate_number" = r !! "plate_number"
  ∧ merge_update now updated_data r !! "id" = r !! "id"
  ∧ merge_update now updated_data r !! "created_at" = r !! "created_at".
Proof.
  intros H1 H2 H3. unfold merge_update.
  rewrite !lookup_insert_ne by done. rewrite !lookup_union, H1, H2, H3.
  by destruct (r !! "plate_number"), (r !! "id"), (r !! "created_at").
Qed.

Lemma update_vehicle_identity now plate_number updated_data st st' ok message :
  updated_data !! "plate_number" = None →
  updated_data !! "id" = None →
  updated_data !! "created_at" = None →
  update_vehicle now plate_number updated_data st = Ok (ok, message, st') →
  identity_fields (vehicles st') = identity_fields (vehicles st)
  ∧ maintenance st' = maintenance st ∧ inventory st' = inventory st
  ∧ permits st' = permits st ∧ token_tax st' = token_tax st ∧ loads st' = loads st.
Proof.
  intros H1 H2 H3. unfold update_vehicle.
  destruct (find_index _ _ _) as [[i|]|]; cbn [mbind res_bind]; [| |discriminate].
  - intros [= _ _ <-]. split; [|done]. simpl.
    apply identity_fields_alter. intros r. by apply merge_update_identity.
  - by intros [= _ _ <-].
Qed.

(** X5. An update that carries none of the fields [plate_number], [id] and
    [created_at] (as the status button's [{'status': ...}] and the dict of
    the edit form) changes no vehicle's [plate_number], [id] or
    [created_at], keeps the number and the order of the vehicles, and
    leaves every other collection alone. *)
Theorem vehicle_edits_keep_identity (now : datetime) (plate_number : value)
    (st st' : store) (ok : bool) (message : string) :
  (∀ updated_data,
     updated_data !! "plate_number" = None → updated_data !! "id" = None →
     updated_data !! "created_at" = None →
     update_vehicle now plate_number updated_data st = Ok (ok, message, st') →
     identity_fields (vehicles st') = identity_fields (vehicles st)
     ∧ maintenance st' = maintenance st ∧ inventory st' = inventory st
     ∧ permits st' = permits st ∧ token_tax st' = token_tax st ∧ loads st' = loads st)
  ∧ (∀ f,
       update_vehicle now plate_number (VehicleModule.updated_data_of f) st
       = Ok (ok, message, st') →
       identity_fields (vehicles st') = identity_fields (vehicles st))
  ∧ (∀ new_status,
       update_vehicle now plate_number {[ "status" := new_status ]} st
       = Ok (ok, message, st') →
       identity_fields (vehicles st') = identity_fields (vehicles st)).
Proof.
  split; [intros updated_data; apply update_vehicle_identity|]. split.
  - intros f H. by eapply update_vehicle_identity in H as [? _].
  - intros new_status H. by eapply update_vehicle_identity in H as [? _].
Qed.

Example update_status_keeps_plates :
  ∃ st', update_vehicle Sample.now (VStr "XYZ-9") {[ "status" := VStr "Maintenance" ]}
           Sample.depot
         = Ok (true, "Vehicle updated successfully", st')
         ∧ plates (vehicles st') = [Some (VStr "ABC-123"); Some (VStr "XYZ-9")].
Proof. eexists. split; reflexivity. Qed.

(** ** Ids and load numbers *)

Lemma sequential_ids_snoc (records : list (gmap string value)) r :
  sequential_ids records →
  r !! "id" = Some (VInt (Z.of_nat (length records) + 1)) →
  sequential_ids (records ++ [r]).
Proof.
  intros H Hr i x Hx. apply lookup_app_Some in Hx as [Hx|[Hlen Hx]]; [by apply H|].
  apply list_lookup_singleton_Some in Hx as [Hi <-].
  rewrite Hr. do 3 f_equal. lia.
Qed.

Lemma sequential_ids_distinct (records : list (gmap string value)) (i j : nat) r r' :
  sequential_ids records →
  records !! i = Some r → records !! j = Some r' → r !! "id" = r' !! "id" → i = j.
Proof.
  intros H Hi Hj E. rewrite (H i r Hi), (H j r' Hj) in E. injection E. lia.
Qed.

(** X6. Ids stay sequential: if the record at each position [i] of a
    collection has [id] [i + 1], the same holds after [add_vehicle],
    [add_maintenance_record], [add_permit], [add_token_tax] or [add_load]
    on that collection; and records with sequential ids at different
    positions have different ids. *)
Theorem adds_keep_sequential_ids (now : datetime) (data : gmap string value)
    (st : store) :
  (sequential_ids (vehicles st) →
   ∀ ok message st', add_vehicle now data st = Ok (ok, message, st') →
                     sequential_ids (vehicles st'))
  ∧ (sequential_ids (maintenance st) →
     ∀ ok message st', add_maintenance_record now data st = Ok (ok, message, st') →
                       sequential_ids (maintenance st'))
  ∧ (sequential_ids (permits st) → sequential_ids (permits (add_permit now data st).2))
  ∧ (sequential_ids (token_tax st) →
     sequential_ids (token_tax (add_token_tax now data st).2))
  ∧ (sequential_ids (loads st) → sequential_ids (loads (add_load now data st).2))
  ∧ (∀ records (i j : nat) r r',
       sequential_ids records → records !! i = Some r → records !! j = Some r' →
       r !! "id" = r' !! "id" → i = j).
Proof.
  repeat split.
  - intros H ok message st'. unfold add_vehicle.
    destruct (plate_number_exists _ _) as [[]|]; cbn [mbind res_bind];
      [by intros [= _ _ <-]| |discriminate].
    intros [= _ _ <-]. simpl. apply sequential_ids_snoc; [done|apply lookup_insert_eq].
  - intros H ok message st'. unfold add_maintenance_record.
    destruct (deduct_oil _ _); [by intros [= _ _ <-]|].
    destruct (deduct_air_filter _ _); [by intros [= _ _ <-]|].
    destruct (deduct_tires _ _) as [[|]|]; cbn [mbind res_bind];
      [by intros [= _ _ <-]| |discriminate].
    intros [= _ _ <-]. simpl. apply sequential_ids_snoc; [done|apply lookup_insert_eq].
  - intros H. simpl. apply sequential_ids_snoc; [done|apply lookup_insert_eq].
  - intros H. simpl. apply sequential_ids_snoc; [done|apply lookup_insert_eq].
  - intros H. simpl. apply sequential_ids_snoc; [done|apply lookup_insert_eq].
  - intros records i j r r'. apply sequential_ids_distinct.
Qed.

Lemma format_06d_inj m n : 0 ≤ m → 0 ≤ n → format_06d m = format_06d n → m = n.
Proof.
  intros Hm Hn E.
  destruct (format_06d_spec m Hm) as [Rm _], (format_06d_spec n Hn) as [Rn _].
  rewrite E, Rn in Rm. by injection Rm.
Qed.

Lemma numbered_snoc (loads : list (gmap string value)) r :
  numbered loads →
  r !! "load_number"
  = Some (VStr ("LD" +:+ format_06d (Z.of_nat (length loads) + 1))) →
  numbered (loads ++ [r]).
Proof.
  intros H Hr i x Hx. apply lookup_app_Some in Hx as [Hx|[Hlen Hx]]; [by apply H|].
  apply list_lookup_singleton_Some in Hx as [Hi <-].
  rewrite Hr. do 4 f_equal. lia.
Qed.

(** X7. Load numbers are unique: if the load at each position [i] carries
    the number LD + [{i+1:06d}], the same holds after [add_load] and after
    [update_load_status], and two loads at different positions then have
    different load numbers. *)
Theorem load_numbers_stay_unique (now : datetime) (st : store) :
  numbered (loads st) →
  (∀ load_data, numbered (loads (add_load now load_data st).2))
  ∧ (∀ load_number new_status ok message st',
       update_load_status now load_number new_status st = Ok (ok, message, st') →
       numbered (loads st'))
  ∧ (∀ (i j : nat) r r',
       loads st !! i = Some r → loads st !! j = Some r' →
       r !! "load_number" = r' !! "load_number" → i = j).
Proof.
  intros H. repeat split.
  - intros load_data. simpl. apply numbered_snoc; [done|].
    do 2 (rewrite lookup_insert_ne by done). apply lookup_insert_eq.
  - intros load_number new_status ok message st'. unfold update_load_status.
    destruct (find_index _ _ _) as [[k|]|]; cbn [mbind res_bind]; [| |discriminate].
    + intros [= _ _ <-]. simpl. intros i r Hr.
      rewrite list_lookup_alter in Hr. case_decide as Hik.
      * destruct (loads st !! k) as [r0|] eqn:E; [|discriminate].
        simpl in Hr. injection Hr as <-. unfold merge_update.
        rewrite lookup_insert_ne by done. rewrite lookup_union.
        rewrite lookup_singleton_ne by done. subst k.
        rewrite (H i r0 E). done.
      * by apply H.
    + by intros [= _ _ <-].
  - intros i j r r' Hi Hj E. rewrite (H i r Hi), (H j r' Hj) in E.
    injection E as E. apply format_06d_inj in E; lia.
Qed.

Lemma sample_loads_numbered : numbered (loads Sample.depot).
Proof.
  intros [|i] r; simpl; [by intros [= <-]|].
  intros Hr. by rewrite lookup_nil in Hr.
Qed.

Lemma load_numbers_stay_unique_witness :
  numbered (loads Sample.depot)
  ∧ numbered (loads (add_load Sample.now Sample.load Sample.depot).2).
Proof.
  split; [exact sample_loads_numbered|].
  apply (load_numbers_stay_unique Sample.now Sample.depot sample_loads_numbered).
Defined.

Example add_load_ignores_given_number :
  (λ r, r !! "load_number") <$> loads (add_load Sample.now Sample.load Sample.depot).2
  = [Some (VStr "LD000001"); Some (VStr "LD000002")].
Proof. reflexivity. Qed.

(** ** The readers *)

(** X8. [get_maintenance_records], [get_permits], [get_token_tax] and
    [get_loads]: with a filter that is false as a condition (the default
    [None], an empty string) they return the whole collection, whatever
    its records hold; with any other filter, on records that carry a
    plate number, they return exactly the records whose plate equals the
    filter, in collection order. *)
Theorem readers_filter_by_plate (plate_number : value) (st : store) :
  (truthy plate_number = false →
   get_maintenance_records plate_number st = Ok (maintenance st)
   ∧ get_permits plate_number st = Ok (permits st)
   ∧ get_token_tax plate_number st = Ok (token_tax st)
   ∧ get_loads plate_number st = Ok (loads st))
  ∧ (truthy plate_number = true →
     (has_key "plate_number" (maintenance st) →
      get_maintenance_records plate_number st
      = Ok (List.filter (plate_is plate_number) (maintenance st)))
     ∧ (has_key "plate_number" (permits st) →
        get_permits plate_number st
        = Ok (List.filter (plate_is plate_number) (permits st)))
     ∧ (has_key "plate_number" (token_tax st) →
        get_token_tax plate_number st
        = Ok (List.filter (plate_is plate_number) (token_tax st)))
     ∧ (has_key "plate_number" (loads st) →
        get_loads plate_number st
        = Ok (List.filter (plate_is plate_number) (loads st)))).
Proof.
  unfold get_maintenance_records, get_permits, get_token_tax, get_loads, by_plate.
  split; intros ->; [done|].
  repeat split; intros Hk; apply filter_res_ok; intros r Hr;
    unfold has_plate, plate_is, getitem; destruct (Hk r Hr) as [q ->]; done.
Qed.

Example get_permits_empty_filter :
  get_permits (VStr "") Sample.office = Ok [Sample.permit; Sample.old_permit]
  ∧ get_permits (VStr "XYZ-9") Sample.office = Ok [Sample.old_permit]
  ∧ get_permits (VStr "xyz-9") Sample.office = Ok [].
Proof. repeat split. Qed.

(** ** Stock movements *)

Lemma updated_inventory_add item qty (inv : gmap string Z) :
  updated_inventory item qty "add" inv = <[item := stock inv item + qty]> inv.
Proof.
  unfold updated_inventory, stock. simpl.
  destruct (inv !! item) as [q|] eqn:E; simpl.
  - by rewrite E.
  - rewrite lookup_insert_eq. simpl. by rewrite insert_insert_eq.
Qed.

Lemma stock_insert (inv : gmap string Z) item q k :
  stock (<[item := q]> inv) k = if decide (item = k) then q else stock inv k.
Proof.
  unfold stock. case_decide as H; [subst; by rewrite lookup_insert_eq|].
  by rewrite lookup_insert_ne.
Qed.

(** X9. Stock added and then removed is back where it was: for an item
    whose quantity is not negative (a missing item reading 0),
    [update_inventory(item, n, 'add')] followed by
    [update_inventory(item, n, 'subtract')] leaves every item's quantity
    as it was, and both calls return success. *)
Theorem update_inventory_add_then_subtract (item : string) (n : Z) (st : store) :
  0 ≤ stock (inventory st) item →
  let '(ok1, _, st1) := update_inventory item n "add" st in
  let '(ok2, _, st2) := update_inventory item n "subtract" st1 in
  ok1 = true ∧ ok2 = true
  ∧ stock (inventory st1) item = stock (inventory st) item + n
  ∧ ∀ k, stock (inventory st2) k = stock (inventory st) k.
Proof.
  intros H. unfold update_inventory. cbn [inventory save_inventory].
  rewrite updated_inventory_subtract, updated_inventory_add.
  split; [done|]. split; [done|]. split.
  - rewrite stock_insert. by case_decide.
  - intros k. rewrite stock_insert. case_decide as Hk.
    + subst k. fold (stock (<[item:=stock (inventory st) item + n]> (inventory st)) item).
      rewrite stock_insert. case_decide; [lia|done].
    + rewrite stock_insert. by case_decide.
Qed.

Lemma update_inventory_add_then_subtract_witness :
  0 ≤ stock (inventory Sample.depot) "bolts"
  ∧ ∀ k, stock (inventory
                  (update_inventory "bolts" 7 "subtract"
                     (update_inventory "bolts" 7 "add" Sample.depot).2).2) k
         = stock (inventory Sample.depot) k.
Proof.
  assert (H : 0 ≤ stock (inventory Sample.depot) "bolts") by (by vm_compute).
  split; [exact H|].
  apply (update_inventory_add_then_subtract "bolts" 7 Sample.depot H).
Defined.

(** X10. An operation name other than 'add', 'subtract' and 'set' changes
    no quantity, yet [update_inventory] saves and returns success; a
    missing item is created with quantity 0. *)
Theorem update_inventory_unknown_operation
    (item : string) (n : Z) (operation : string) (st : store) :
  operation ≠ "add" → operation ≠ "subtract" → operation ≠ "set" →
  ∃ message st',
    update_inventory item n operation st = (true, message, st')
    ∧ (∀ k, stock (inventory st') k = stock (inventory st) k)
    ∧ inventory st' !! item = Some (stock (inventory st) item).
Proof.
  intros H1 H2 H3. unfold update_inventory, updated_inventory.
  apply String.eqb_neq in H1, H2, H3. rewrite H1, H2, H3.
  eexists _, _. split; [reflexivity|]. cbn [inventory save_inventory]. unfold stock.
  destruct (inventory st !! item) as [q|] eqn:E.
  - split; [done|]. by rewrite E.
  - split; [|by rewrite lookup_insert_eq].
    intros k. destruct (decide (item = k)) as [<-|Hne].
    + by rewrite lookup_insert_eq, E.
    + by rewrite lookup_insert_ne.
Qed.

Lemma update_inventory_unknown_operation_witness :
  "remove" ≠ "add" ∧ "remove" ≠ "subtract" ∧ "remove" ≠ "set"
  ∧ ∃ message st',
      update_inventory "oil" 1 "remove" Sample.depot = (true, message, st')
      ∧ (∀ k, stock (inventory st') k = stock (inventory Sample.depot) k)
      ∧ inventory st' !! "oil" = Some (stock (inventory Sample.depot) "oil").
Proof.
  assert (H1 : "remove" ≠ "add") by discriminate.
  assert (H2 : "remove" ≠ "subtract") by discriminate.
  assert (H3 : "remove" ≠ "set") by discriminate.
  repeat (split; [assumption|]).
  exact (update_inventory_unknown_operation "oil" 1 "remove" Sample.depot H1 H2 H3).
Defined.

(** X13. The "Remove Stock" form never clamps: with the three standard
    items in the inventory and the chosen item at quantity [q], removing
    [n <= q] saves exactly [q - n] for that item and changes no other
    item, and removing [n > q] is refused with nothing saved. *)
Theorem remove_stock_form_exact (item : string) (n q : Z) (st : store) :
  is_Some (inventory st !! "oil") →
  is_Some (inventory st !! "air_filter") →
  is_Some (inventory st !! "tires") →
  inventory st !! item = Some q →
  (n ≤ q →
   ∃ message st',
     InventoryModule.remove_stock_form item n st = Ok (inr (true, message, st'))
     ∧ inventory st' = <[item := q - n]> (inventory st))
  ∧ (q < n →
     ∃ message, InventoryModule.remove_stock_form item n st = Ok (inl message)).
Proof.
  intros [o Ho] [a Ha] [t Ht] Hq.
  unfold InventoryModule.remove_stock_form, get_inventory.
  rewrite Ho, Ha, Ht, Hq. cbn [of_option mbind res_bind]. split; intros Hn.
  - destruct (Z.ltb_spec q n); [lia|].
    unfold update_inventory. eexists _, _. split; [reflexivity|].
    cbn [inventory save_inventory]. rewrite updated_inventory_subtract, Hq. simpl.
    f_equal. lia.
  - destruct (Z.ltb_spec q n); [|lia]. by eexists.
Qed.

Lemma remove_stock_form_exact_witness :
  is_Some (inventory Sample.depot !! "oil")
  ∧ is_Some (inventory Sample.depot !! "air_filter")
  ∧ is_Some (inventory Sample.depot !! "tires")
  ∧ inventory Sample.depot !! "tires" = Some 5
  ∧ (3 ≤ 5 →
     ∃ message st',
       InventoryModule.remove_stock_form "tires" 3 Sample.depot
       = Ok (inr (true, message, st'))
       ∧ inventory st' = <["tires" := 5 - 3]> (inventory Sample.depot)).
Proof.
  assert (H1 : is_Some (inventory Sample.depot !! "oil")) by (by exists 1).
  assert (H2 : is_Some (inventory Sample.depot !! "air_filter")) by (by exists 0).
  assert (H3 : is_Some (inventory Sample.depot !! "tires")) by (by exists 5).
  assert (H4 : inventory Sample.depot !! "tires" = Some 5) by reflexivity.
  repeat (split; [assumption|]).
  apply (remove_stock_form_exact "tires" 3 5 Sample.depot H1 H2 H3 H4).
Defined.

Example remove_stock_form_refuses :
  InventoryModule.remove_stock_form "air_filter" 1 Sample.depot
  = Ok (inl "Cannot remove 1 air filter. Only 0 available.").
Proof. reflexivity. Qed.

Example remove_stock_form_missing_metric :
  InventoryModule.remove_stock_form "tires" 1
    (save_inventory {[ "tires" := 4 ]} Sample.depot)
  = Raise (KeyError "oil").
Proof. reflexivity. Qed.

(** ** Restocking *)

Lemma restock_char c (after_letter : bool) :
  Text.is_upper c = false → Ascii.eqb c " " = false →
  let c1 := if Ascii.eqb c "_" then " "%char else c in
  let letter := Text.is_lower c1 || Text.is_upper c1 in
  let c2 := if letter then (if after_letter then Text.lower_char c1 else upper_char c1)
            else c1 in
  let c3 := Text.lower_char c2 in
  (if Ascii.eqb c3 " " then "_"%char else c3) = c.
Proof.
  destruct c as [[] [] [] [] [] [] [] []], after_letter; by vm_compute.
Qed.

Lemma restock_key_from k : ∀ after_letter,
  plain_key k = true →
  Text.spaces_to_underscores
    (Text.lower_ascii (Text.title_ascii_from after_letter (Text.underscores_to_spaces k)))
  = k.
Proof.
  induction k as [|c k IH]; intros after_letter Hk; [done|].
  cbn [plain_key] in Hk. apply andb_prop in Hk as [Hc Hk].
  apply andb_prop in Hc as [Hu Hs].
  apply negb_true_iff in Hu, Hs.
  cbn [Text.underscores_to_spaces Text.title_ascii_from Text.lower_ascii
       Text.spaces_to_underscores].
  f_equal; [by apply restock_char|by apply IH].
Qed.

(** On ASCII text: the key "Quick Restock" writes to is the item's own key
    when the key has no upper-case letter and no space. *)
Lemma restock_key_round_trip k :
  plain_key k = true →
  Text.spaces_to_underscores
    (Text.lower_ascii (Text.title_ascii (Text.underscores_to_spaces k))) = k.
Proof. apply restock_key_from. Qed.

Lemma ascii_char_cases c (after_letter : bool) :
  (nat_of_ascii c <? 128)%nat = true →
  let c1 := if Ascii.eqb c "_" then " "%char else c in
  let letter := Text.is_lower c1 || Text.is_upper c1 in
  let c2 := if letter then (if after_letter then Text.lower_char c1 else upper_char c1)
            else c1 in
  (nat_of_ascii c1 <? 128)%nat = true ∧ (nat_of_ascii c2 <? 128)%nat = true.
Proof.
  destruct c as [[] [] [] [] [] [] [] []], after_letter; by vm_compute.
Qed.

Lemma underscores_to_spaces_ascii s :
  is_ascii s = true → is_ascii (Text.underscores_to_spaces s) = true.
Proof.
  induction s as [|c s IH]; [done|]. cbn [is_ascii Text.underscores_to_spaces].
  intros H. apply andb_prop in H as [Hc Hs].
  destruct (ascii_char_cases c false Hc) as [-> _]. by apply IH.
Qed.

Lemma title_ascii_from_ascii s : ∀ after_letter,
  is_ascii s = true →
  is_ascii (Text.title_ascii_from after_letter (Text.underscores_to_spaces s)) = true.
Proof.
  induction s as [|c s IH]; intros after_letter; [done|].
  cbn [is_ascii Text.underscores_to_spaces Text.title_ascii_from].
  intros H. apply andb_prop in H as [Hc Hs].
  destruct (ascii_char_cases c after_letter Hc) as [_ ->]. by apply IH.
Qed.

Section Restocking.

(** [str.title] and [str.lower] *)
Variable title : string → string.
Variable lower : string → string.

(** X14. "Quick Restock" of a listed item whose key is ASCII text with no
    upper-case letter and no space (as oil, air_filter and tires) adds the
    recommended order to that same item: the item then holds twice its
    reorder level and is no longer listed; no other item changes.  Of
    [title] and [lower] only what they do on ASCII text is used. *)
Theorem quick_restock_clears_alert (item_key : string) (q : Z)
    (entry : InventoryModule.low_stock) (st : store) :
  (∀ s, is_ascii s = true → title s = Text.title_ascii s) →
  (∀ s, is_ascii s = true → lower s = Text.lower_ascii s) →
  is_ascii item_key = true →
  plain_key item_key = true →
  inventory st !! item_key = Some q →
  InventoryModule.low_stock_entry title item_key q = Some entry →
  let '(ok, _, st') := InventoryModule.quick_restock lower entry st in
  ok = true
  ∧ inventory st' = <[item_key := 2 * InventoryModule.get_reorder_level item_key]>
                      (inventory st)
  ∧ InventoryModule.low_stock_entry title item_key
      (2 * InventoryModule.get_reorder_level item_key) = None.
Proof.
  intros Htitle Hlower Ha Hk Hq. unfold InventoryModule.low_stock_entry.
  destruct (Z.leb_spec q (InventoryModule.get_reorder_level item_key)) as [Hle|];
    [|discriminate].
  intros [= <-]. unfold InventoryModule.quick_restock, update_inventory.
  cbn [InventoryModule.item InventoryModule.recommended_order inventory save_inventory].
  rewrite Htitle by (by apply underscores_to_spaces_ascii).
  rewrite Hlower by (by apply title_ascii_from_ascii).
  rewrite restock_key_round_trip by done. rewrite updated_inventory_add.
  unfold stock. rewrite Hq. simpl.
  pose proof (reorder_level_cases item_key) as Hl.
  split; [done|]. split; [f_equal; lia|].
  destruct (Z.leb_spec (2 * InventoryModule.get_reorder_level item_key)
              (InventoryModule.get_reorder_level item_key)); [lia|done].
Qed.

Lemma filter_length_le_omap {A B} (p : A → bool) (f : A → option B) (l : list A) :
  (∀ x, p x = true → is_Some (f x)) →
  (length (List.filter p l) ≤ length (omap f l))%nat.
Proof.
  intros H. induction l as [|x l IH]; [done|].
  change (omap f (x :: l))
    with (match f x with Some y => y :: omap f l | None => omap f l end).
  cbn [List.filter]. destruct (p x) eqn:E.
  - destruct (H x E) as [y ->]. cbn [length]. lia.
  - destruct (f x); cbn [length]; lia.
Qed.

(** X15. The three low-stock views agree in one direction: every line of
    the purchase order suggestion (quantity below the reorder level) is
    also a low-stock alert for the same item, with the same quantity to
    order; and the dashboard's low-stock count (quantity below 5) never
    exceeds the number of low-stock alerts. *)
Theorem low_stock_views_agree (inventory : gmap string Z) :
  (∀ line, line ∈ InventoryModule.purchase_order title inventory →
     ∃ entry, entry ∈ InventoryModule.show_low_stock_alerts title inventory
              ∧ InventoryModule.item entry = InventoryModule.po_item line
              ∧ InventoryModule.current_stock entry
                = InventoryModule.po_current_stock line
              ∧ InventoryModule.recommended_order entry
                = InventoryModule.suggested_order line)
  ∧ (Dashboard.low_stock_count inventory
     ≤ length (InventoryModule.show_low_stock_alerts title inventory))%nat.
Proof.
  split.
  - intros line Hline. unfold InventoryModule.purchase_order in Hline.
    apply list_elem_of_omap in Hline as ([k q] & Hkq & Hline).
    unfold InventoryModule.purchase_entry in Hline.
    destruct (Z.ltb_spec q (InventoryModule.get_reorder_level k)) as [Hlt|];
      [|discriminate].
    injection Hline as <-.
    eexists. split.
    + unfold InventoryModule.show_low_stock_alerts. apply list_elem_of_omap.
      exists (k, q). split; [done|]. unfold InventoryModule.low_stock_entry.
      destruct (Z.leb_spec q (InventoryModule.get_reorder_level k)); [done|lia].
    + cbv beta iota delta [InventoryModule.item InventoryModule.current_stock
        InventoryModule.recommended_order InventoryModule.po_item
        InventoryModule.po_current_stock InventoryModule.suggested_order].
      repeat split. lia.
  - unfold Dashboard.low_stock_count, InventoryModule.show_low_stock_alerts.
    apply filter_length_le_omap. intros [k q] Hq. apply Z.ltb_lt in Hq.
    unfold InventoryModule.low_stock_entry.
    pose proof (reorder_level_cases k).
    destruct (Z.leb_spec q (InventoryModule.get_reorder_level k)); [done|lia].
Qed.

End Restocking.

Lemma quick_restock_clears_alert_witness :
  is_ascii "air_filter" = true
  ∧ plain_key "air_filter" = true
  ∧ inventory Sample.depot !! "air_filter" = Some 0
  ∧ ∃ entry,
      InventoryModule.low_stock_entry Text.title_ascii "air_filter" 0 = Some entry
      ∧ InventoryModule.item entry = "Air Filter"
      ∧ inventory (InventoryModule.quick_restock Text.lower_ascii entry Sample.depot).2
        = <["air_filter" := 2 * InventoryModule.get_reorder_level "air_filter"]>
            (inventory Sample.depot).
Proof.
  split; [reflexivity|]. split; [reflexivity|]. split; [reflexivity|].
  eexists. split; [reflexivity|]. split; [reflexivity|].
  apply (quick_restock_clears_alert Text.title_ascii Text.lower_ascii "air_filter" 0 _
           Sample.depot (λ _ _, eq_refl) (λ _ _, eq_refl) eq_refl eq_refl eq_refl eq_refl).
Defined.

(** A key with an upper-case letter is restocked under another key. *)
Example quick_restock_other_key :
  ∃ entry,
    InventoryModule.low_stock_entry Text.title_ascii "Oil" 0 = Some entry
    ∧ inventory (InventoryModule.quick_restock Text.lower_ascii entry
                   (save_inventory {[ "Oil" := 0 ]} Sample.depot)).2
      = {[ "Oil" := 0; "oil" := 10 ]}.
Proof. eexists. split; reflexivity. Qed.

(** At the reorder level itself the views differ. *)
Example low_stock_views_differ :
  InventoryModule.purchase_order Text.title_ascii {[ "oil" := 5 ]} = []
  ∧ length (InventoryModule.show_low_stock_alerts Text.title_ascii {[ "oil" := 5 ]})
    = 1%nat
  ∧ Dashboard.low_stock_count {[ "oil" := 5 ]} = 0%nat.
Proof. repeat split. Qed.

(** ** Expiry, seen from the dashboard and from the permit page *)

Section ExpiryViews.

Variable fromisoformat : string → option datetime.

Lemma expires_within_inv now days_ahead r b :
  expires_within fromisoformat now days_ahead r = Ok b →
  ∃ d, expiry fromisoformat r = Some d
       ∧ b = (date_diff_days d now <=? days_ahead).
Proof.
  unfold expires_within, parse_field, getitem, expiry.
  destruct (r !! "expire_date") as [[]|]; try discriminate. cbn.
  destruct (fromisoformat s) as [d|]; [|discriminate]. cbn.
  intros [= <-]. by exists d.
Qed.

Lemma filter_res_inv {A} (f : A → res bool) (l out : list A) :
  filter_res f l = Ok out →
  ∃ g, (∀ x, x ∈ l → f x = Ok (g x)) ∧ out = List.filter g l.
Proof.
  revert out. induction l as [|x l IH]; intros out; simpl.
  - intros [= <-]. exists (λ _, true). split; [|done].
    intros x Hx. by apply elem_of_nil in Hx.
  - destruct (f x) as [b|] eqn:Ex; [|discriminate]. cbn.
    destruct (filter_res f l) as [r|]; [|discriminate]. cbn.
    intros [= <-]. destruct (IH r eq_refl) as (g & Hg & ->).
    assert (Hall : ∀ y, y ∈ x :: l → ∃ c, f y = Ok c).
    { intros y Hy. apply elem_of_cons in Hy as [->|Hy]; eauto. }
    exists (λ y, match f y with Ok c => c | Raise _ => false end). split.
    + intros y Hy. destruct (Hall y Hy) as [c Hc]. by rewrite Hc.
    + simpl. rewrite Ex.
      assert (E : List.filter g l
                  = List.filter
                      (λ y, match f y with Ok c => c | Raise _ => false end) l).
      { apply filter_ext_in. intros y Hy. apply list_elem_of_In in Hy.
        by rewrite (Hg y Hy). }
      by rewrite E.
Qed.

(** X11. The dashboard's validity test and the expiry query split the
    documents: when [get_expiring_permits(0)] returns (every
    [expire_date] reads), a permit is in its result exactly when
    [show_document_compliance] does not count it as valid; likewise for
    tax records.  A document is never both valid and expiring within 0
    days. *)
Theorem expiring_today_is_not_valid (now : datetime) (st : store)
    (expiring_permits expiring_taxes : list (gmap string value)) :
  get_expiring_permits fromisoformat now 0 st = Ok expiring_permits →
  get_expiring_taxes fromisoformat now 0 st = Ok expiring_taxes →
  (∀ p, p ∈ permits st →
     (p ∈ expiring_permits ↔ Dashboard.unexpired fromisoformat now p = Ok false)
     ∧ (p ∉ expiring_permits ↔ Dashboard.unexpired fromisoformat now p = Ok true))
  ∧ (∀ t, t ∈ token_tax st →
       (t ∈ expiring_taxes ↔ Dashboard.unexpired fromisoformat now t = Ok false)
       ∧ (t ∉ expiring_taxes ↔ Dashboard.unexpired fromisoformat now t = Ok true)).
Proof.
  assert (Hgen : ∀ records out,
             filter_res (expires_within fromisoformat now 0) records = Ok out →
             ∀ r, r ∈ records →
               (r ∈ out ↔ Dashboard.unexpired fromisoformat now r = Ok false)
               ∧ (r ∉ out ↔ Dashboard.unexpired fromisoformat now r = Ok true)).
  { intros records out Hout r Hr.
    apply filter_res_inv in Hout as (g & Hg & ->).
    destruct (expires_within_inv _ _ _ _ (Hg r Hr)) as (d & Hd & Hgd).
    rewrite (unexpired_ok fromisoformat now r) by (by rewrite Hd).
    unfold unexpired_on. rewrite Hd.
    rewrite list_elem_of_In, filter_In, <- list_elem_of_In, Hgd.
    unfold date_diff_days.
    destruct (Z.leb_spec (toordinal d - toordinal now) 0),
      (Z.ltb_spec (toordinal now) (toordinal d)); try lia;
      intuition congruence. }
  intros Hp Ht. split; [by apply Hgen|by apply (Hgen (token_tax st))].
Qed.

End ExpiryViews.

Lemma expiring_today_is_not_valid_witness :
  get_expiring_permits read_isoformat Sample.now 0 Sample.office
  = Ok [Sample.old_permit]
  ∧ get_expiring_taxes read_isoformat Sample.now 0 Sample.office = Ok []
  ∧ (Sample.permit ∉ [Sample.old_permit]
     ↔ Dashboard.unexpired read_isoformat Sample.now Sample.permit = Ok true).
Proof.
  assert (H1 : get_expiring_permits read_isoformat Sample.now 0 Sample.office
               = Ok [Sample.old_permit]) by reflexivity.
  assert (H2 : get_expiring_taxes read_isoformat Sample.now 0 Sample.office = Ok [])
    by reflexivity.
  split; [exact H1|]. split; [exact H2|].
  destruct (expiring_today_is_not_valid read_isoformat Sample.now Sample.office _ _ H1 H2)
    as [Hp _].
  apply (Hp Sample.permit). by left.
Defined.

(** ** The permit page's alert lists *)

Section PermitAlerts.

Variable fromisoformat : string → option datetime.

Lemma days_left_ok now r :
  is_Some (expiry fromisoformat r) →
  PermitModule.days_left fromisoformat now r
  = Ok (match expiry fromisoformat r with
        | Some d => date_diff_days d now
        | None => 0
        end).
Proof.
  intros [d Hd]. rewrite Hd. unfold expiry in Hd.
  unfold PermitModule.days_left, parse_field, getitem.
  destruct (r !! "expire_date") as [[]|]; try discriminate. cbn.
  by rewrite Hd.
Qed.

Lemma filter_filter_le (days : gmap string value → Z) (a b : Z)
    (l : list (gmap string value)) :
  a ≤ b →
  List.filter (λ r, days r <=? a) (List.filter (λ r, days r <=? b) l)
  = List.filter (λ r, days r <=? a) l.
Proof.
  intros Hab. induction l as [|r l IH]; [done|]. simpl.
  destruct (Z.leb_spec (days r) b); simpl.
  - destruct (Z.leb_spec (days r) a); by rewrite IH.
  - destruct (Z.leb_spec (days r) a); [lia|done].
Qed.

Lemma filter_split_length {A} (p : A → bool) (l : list A) :
  (length (List.filter p l) + length (List.filter (λ x, negb (p x)) l))%nat = length l.
Proof.
  induction l as [|x l IH]; [done|]. simpl. destruct (p x); simpl; lia.
Qed.

Lemma critical_split (now : datetime) (records : list (gmap string value)) :
  dated fromisoformat records →
  ∃ expiring critical warning,
    filter_res (expires_within fromisoformat now 30) records = Ok expiring
    ∧ PermitModule.critical_documents fromisoformat now expiring = Ok critical
    ∧ PermitModule.warning_documents fromisoformat now expiring = Ok warning
    ∧ filter_res (expires_within fromisoformat now 7) records = Ok critical
    ∧ (length critical + length warning)%nat = length expiring
    ∧ ∀ r, r ∈ expiring → (r ∈ critical ↔ r ∉ warning).
Proof.
  intros Hd.
  set (days := λ r : gmap string value,
         match expiry fromisoformat r with
         | Some d => date_diff_days d now
         | None => 0
         end).
  assert (Hw : ∀ n, List.filter (within fromisoformat now n) records
                    = List.filter (λ r, days r <=? n) records).
  { intros n. apply filter_ext_in. intros r Hr. apply list_elem_of_In in Hr.
    unfold within, days. by destruct (Hd r Hr) as [d ->]. }
  assert (Hsub : ∀ r, r ∈ List.filter (λ r, days r <=? 30) records →
                      is_Some (expiry fromisoformat r)).
  { intros r Hr. apply list_elem_of_In, filter_In in Hr as [Hr _].
    by apply Hd, list_elem_of_In. }
  exists (List.filter (λ r, days r <=? 30) records),
         (List.filter (λ r, days r <=? 7) records),
         (List.filter (λ r, negb (days r <=? 7))
            (List.filter (λ r, days r <=? 30) records)).
  split; [by rewrite expiring_query, Hw|].
  split.
  { unfold PermitModule.critical_documents.
    rewrite (filter_res_ok _ (λ r, days r <=? 7)).
    - by rewrite filter_filter_le by lia.
    - intros r Hr. rewrite days_left_ok by (by apply Hsub). reflexivity. }
  split.
  { unfold PermitModule.warning_documents.
    apply filter_res_ok. intros r Hr. rewrite days_left_ok by (by apply Hsub).
    cbn. f_equal. unfold days. apply Z.ltb_antisym. }
  split; [by rewrite expiring_query, Hw|].
  split.
  { rewrite <- (filter_filter_le days 7 30) by lia. apply filter_split_length. }
  intros r Hr. rewrite <- (filter_filter_le days 7 30) by lia. split.
  - intros Hc Hn. apply list_elem_of_In, filter_In in Hc as [_ Hc].
    apply list_elem_of_In, filter_In in Hn as [_ Hn]. by rewrite Hc in Hn.
  - intros Hn. apply list_elem_of_In, filter_In. split; [by apply list_elem_of_In|].
    destruct (days r <=? 7) eqn:E; [done|]. exfalso. apply Hn.
    apply list_elem_of_In, filter_In. split; [by apply list_elem_of_In|by rewrite E].
Qed.


(** X12. On the permit page, the critical list built from
    [get_expiring_permits(30)] is exactly what [get_expiring_permits(7)]
    returns, the warning list is the rest (more than 7 days left), every
    expiring permit is in exactly one of the two, and the two lengths add
    up to the number of expiring permits; the same holds of tax records
    and [get_expiring_taxes]. *)
Theorem critical_is_expiring_within_7 (now : datetime) (st : store) :
  dated fromisoformat (permits st) →
  dated fromisoformat (token_tax st) →
  (∃ expiring critical warning,
     get_expiring_permits fromisoformat now 30 st = Ok expiring
     ∧ PermitModule.critical_documents fromisoformat now expiring = Ok critical
     ∧ PermitModule.warning_documents fromisoformat now expiring = Ok warning
     ∧ get_expiring_permits fromisoformat now 7 st = Ok critical
     ∧ (length critical + length warning)%nat = length expiring
     ∧ ∀ r, r ∈ expiring → (r ∈ critical ↔ r ∉ warning))
  ∧ (∃ expiring critical warning,
       get_expiring_taxes fromisoformat now 30 st = Ok expiring
       ∧ PermitModule.critical_documents fromisoformat now expiring = Ok critical
       ∧ PermitModule.warning_documents fromisoformat now expiring = Ok warning
       ∧ get_expiring_taxes fromisoformat now 7 st = Ok critical
       ∧ (length critical + length warning)%nat = length expiring
       ∧ ∀ r, r ∈ expiring → (r ∈ critical ↔ r ∉ warning)).
Proof.
  intros Hp Ht. split; [by apply critical_split|by apply (critical_split now (token_tax st))].
Qed.

End PermitAlerts.

Lemma critical_is_expiring_within_7_witness :
  dated read_isoformat (permits Sample.office)
  ∧ dated read_isoformat (token_tax Sample.office)
  ∧ ∃ expiring critical warning,
      get_expiring_permits read_isoformat Sample.now 30 Sample.office = Ok expiring
      ∧ PermitModule.critical_documents read_isoformat Sample.now expiring = Ok critical
      ∧ PermitModule.warning_documents read_isoformat Sample.now expiring = Ok warning
      ∧ get_expiring_permits read_isoformat Sample.now 7 Sample.office = Ok critical
      ∧ (length critical + length warning)%nat = length expiring
      ∧ ∀ r, r ∈ expiring → (r ∈ critical ↔ r ∉ warning).
Proof.
  split; [exact sample_permits_dated|]. split; [exact sample_taxes_dated|].
  apply (critical_is_expiring_within_7 read_isoformat Sample.now Sample.office
           sample_permits_dated sample_taxes_dated).
Defined.

(** ** The dashboard's alert section *)

Section DashboardAlerts.

Variable fromisoformat : string → option datetime.

(** [str.title] *)
Variable title : string → string.

(** The loop over expiring documents lists each of them once, on the side
    its days left put it. *)
Lemma document_lines_listed line now (documents : list (gmap string value)) :
  (∀ r, r ∈ documents →
        is_Some (expiry fromisoformat r) ∧ is_Some (r !! "plate_number")) →
  Dashboard.document_lines fromisoformat line now documents
  = Ok (listed fromisoformat line now true documents,
        listed fromisoformat line now false documents)
  ∧ (length (listed fromisoformat line now true documents)
     + length (listed fromisoformat line now false documents))%nat
    = length documents.
Proof.
  induction documents as [|r rs IH]; intros H; [done|].
  destruct (H r) as [[d Hd] [p Hp]]; [by left|].
  destruct IH as [E Hlen]; [intros x Hx; apply H; by right|].
  assert (Hdays : days_to_expiry fromisoformat now r
                  = Some (toordinal d - toordinal now)).
  { unfold days_to_expiry. by rewrite Hd. }
  assert (Hstep : ∀ urgent,
            listed fromisoformat line now urgent (r :: rs)
            = if Bool.eqb (toordinal d - toordinal now <=? 7) urgent
              then line p (toordinal d - toordinal now)
                   :: listed fromisoformat line now urgent rs
              else listed fromisoformat line now urgent rs).
  { intros urgent. unfold listed at 1.
    change (omap ?f (r :: rs)) with (match f r with
                                     | Some y => y :: omap f rs
                                     | None => omap f rs
                                     end).
    cbv beta. rewrite Hdays, Hp. cbn [mbind option_bind].
    by destruct (Bool.eqb _ urgent). }
  cbn [Dashboard.document_lines]. unfold parse_field, getitem.
  unfold expiry in Hd. destruct (r !! "expire_date") as [[]|]; try discriminate.
  cbn [of_option mbind res_bind as_str]. rewrite Hd, Hp.
  cbn [of_option mbind res_bind]. rewrite E. cbn [mbind res_bind].
  rewrite !Hstep. unfold date_diff_days.
  destruct (toordinal d - toordinal now <=? 7); cbn [Bool.eqb length];
    (split; [reflexivity|lia]).
Qed.

(** The loop over the inventory lists the items at 0 as out of stock and
    the others below 5 as low. *)
Lemma inventory_lines_elem (items : list (string * Z)) :
  (∀ l, l ∈ (Dashboard.inventory_lines title items).1 ↔
        ∃ item, (item, 0) ∈ items
                ∧ l = Dashboard.OutOfStockLine (title (Text.underscores_to_spaces item)))
  ∧ (∀ l, l ∈ (Dashboard.inventory_lines title items).2 ↔
          ∃ item quantity,
            (item, quantity) ∈ items ∧ quantity ≠ 0 ∧ quantity < 5
            ∧ l = Dashboard.LowStockLine (title (Text.underscores_to_spaces item))
                    quantity).
Proof.
  induction items as [|[item q] rest [IH1 IH2]].
  - split; intros l; split.
    + intros H. by apply elem_of_nil in H.
    + intros (? & H & _). by apply elem_of_nil in H.
    + intros H. by apply elem_of_nil in H.
    + intros (? & ? & H & _). by apply elem_of_nil in H.
  - cbn [Dashboard.inventory_lines].
    destruct (Dashboard.inventory_lines title rest) as [c w]. cbn [fst snd] in *.
    destruct (Z.eqb_spec q 0) as [->|Hq0]; [|destruct (Z.ltb_spec q 5) as [Hq5|Hq5]];
      cbn [fst snd]; split; intros l; rewrite ?elem_of_cons, ?IH1, ?IH2; split.
    + intros [->|(i & Hi & ->)]; [exists item; split; [by left|done]|].
      exists i. split; [by right|done].
    + intros (i & Hi & ->). apply elem_of_cons in Hi as [Heq|Hi].
      * left. by injection Heq as ->.
      * right. by exists i.
    + intros (i & q' & Hi & ?). exists i, q'. split; [by right|done].
    + intros (i & q' & Hi & Hne & Hlt & ->). apply elem_of_cons in Hi as [Heq|Hi].
      * injection Heq as ? ?. lia.
      * by exists i, q'.
    + intros (i & Hi & ->). exists i. split; [by right|done].
    + intros (i & Hi & ->). apply elem_of_cons in Hi as [Heq|Hi].
      * injection Heq as ? ?. lia.
      * by exists i.
    + intros [->|(i & q' & Hi & ?)]; [exists item, q; split; [by left|done]|].
      exists i, q'. split; [by right|done].
    + intros (i & q' & Hi & Hne & Hlt & ->). apply elem_of_cons in Hi as [Heq|Hi].
      * left. by injection Heq as -> ->.
      * right. by exists i, q'.
    + intros (i & Hi & ->). exists i. split; [by right|done].
    + intros (i & Hi & ->). apply elem_of_cons in Hi as [Heq|Hi].
      * injection Heq as ? ?. lia.
      * by exists i.
    + intros (i & q' & Hi & ?). exists i, q'. split; [by right|done].
    + intros (i & q' & Hi & Hne & Hlt & ->). apply elem_of_cons in Hi as [Heq|Hi].
      * injection Heq as ? ?. lia.
      * by exists i, q'.
Qed.

Lemma expiring_documents_readable now n (records out : list (gmap string value)) :
  filter_res (expires_within fromisoformat now n) records = Ok out →
  ∀ r, r ∈ out → is_Some (expiry fromisoformat r) ∧ r ∈ records.
Proof.
  intros H r Hr. apply filter_res_inv in H as (g & Hg & ->).
  apply list_elem_of_In, filter_In in Hr as [Hr _]. apply list_elem_of_In in Hr.
  split; [|done].
  destruct (expires_within_inv fromisoformat _ _ _ _ (Hg r Hr)) as (d & -> & _). eauto.
Qed.

(** X16. With no maintenance alert to show, [show_alerts_section] fails:
    the statement after the loop over the alerts reads the loop variable
    [alert], which no iteration has bound. *)
Theorem show_alerts_section_unbound (now : datetime) (st : store)
    (expiring_permits expiring_taxes : list (gmap string value)) :
  get_maintenance_alerts fromisoformat now st = Ok [] →
  get_expiring_permits fromisoformat now 30 st = Ok expiring_permits →
  get_expiring_taxes fromisoformat now 30 st = Ok expiring_taxes →
  Dashboard.show_alerts_section fromisoformat title now st = Ok (inl "alert").
Proof.
  intros Ha Hp Ht. unfold Dashboard.show_alerts_section.
  by rewrite Ha, Hp, Ht.
Qed.

(** X17. With maintenance alerts, [show_alerts_section] lists exactly one
    of them, the last: first of the critical lines when its priority is
    high, first of the warning lines otherwise, with the alert's plate and
    its [alert] text.  Then come one line for each expiring permit and
    after them one for each expiring tax record, in the order of the
    queries, each with the document's plate and its days left, critical
    at 7 days or fewer and a warning otherwise.  The remaining lines are
    those of the inventory: out of stock for each item at 0 among the
    critical lines, low stock for each other item below 5 among the
    warnings, and nothing else. *)
Theorem show_alerts_section_last_alert (now : datetime) (st : store)
    (alerts expiring_permits expiring_taxes : list (gmap string value))
    (alert : gmap string value) :
  get_maintenance_alerts fromisoformat now st = Ok alerts →
  last alerts = Some alert →
  get_expiring_permits fromisoformat now 30 st = Ok expiring_permits →
  get_expiring_taxes fromisoformat now 30 st = Ok expiring_taxes →
  has_key "plate_number" (permits st) →
  has_key "plate_number" (token_tax st) →
  ∃ plate text priority inventory_critical inventory_warning,
    alert = maintenance_alert plate text priority
    ∧ Dashboard.show_alerts_section fromisoformat title now st
      = Ok (inr ((if String.eqb priority "high"
                  then [Dashboard.MaintenanceLine plate (VStr text)] else [])
                 ++ listed fromisoformat Dashboard.PermitLine now true expiring_permits
                 ++ listed fromisoformat Dashboard.TaxLine now true expiring_taxes
                 ++ inventory_critical,
                 (if String.eqb priority "high"
                  then [] else [Dashboard.MaintenanceLine plate (VStr text)])
                 ++ listed fromisoformat Dashboard.PermitLine now false expiring_permits
                 ++ listed fromisoformat Dashboard.TaxLine now false expiring_taxes
                 ++ inventory_warning))
    ∧ (length (listed fromisoformat Dashboard.PermitLine now true expiring_permits)
       + length (listed fromisoformat Dashboard.PermitLine now false expiring_permits))%nat
      = length expiring_permits
    ∧ (length (listed fromisoformat Dashboard.TaxLine now true expiring_taxes)
       + length (listed fromisoformat Dashboard.TaxLine now false expiring_taxes))%nat
      = length expiring_taxes
    ∧ (∀ l, l ∈ inventory_critical ↔ out_of_stock_line title l (inventory st))
    ∧ (∀ l, l ∈ inventory_warning ↔ low_stock_line title l (inventory st)).
Proof.
  intros Ha Hlast Hp Ht Hkp Hkt.
  assert (Hshape : ∃ plate text priority, alert = maintenance_alert plate text priority).
  { assert (HF : Forall (λ a, ∃ plate text priority,
                           a = maintenance_alert plate text priority
                           ∧ (priority = "high" ∨ priority = "medium")) alerts).
    { revert Ha. unfold get_maintenance_alerts. apply flat_map_res_elem.
      intros v o _. apply vehicle_alerts_shape. }
    apply last_Some in Hlast as [l' ->].
    apply Forall_app in HF as [_ HF]. apply Forall_cons in HF as [HF _].
    destruct HF as (plate & text & priority & -> & _). eauto. }
  destruct Hshape as (plate & text & priority & ->).
  destruct (document_lines_listed Dashboard.PermitLine now expiring_permits)
    as [Ep Hlp].
  { intros r Hr. unfold get_expiring_permits in Hp.
    destruct (expiring_documents_readable _ _ _ _ Hp r Hr) as [? ?]. split; [done|].
    by apply Hkp. }
  destruct (document_lines_listed Dashboard.TaxLine now expiring_taxes)
    as [Et Hlt].
  { intros r Hr. unfold get_expiring_taxes in Ht.
    destruct (expiring_documents_readable _ _ _ _ Ht r Hr) as [? ?]. split; [done|].
    by apply Hkt. }
  destruct (inventory_lines_elem (map_to_list (get_inventory st))) as [Hci Hwi].
  unfold Dashboard.show_alerts_section. rewrite Ha, Hp, Ht. cbn [mbind res_bind].
  unfold Dashboard.maintenance_lines. rewrite Hlast.
  change (maintenance_alert plate text priority !! "alert_type") with (@None value).
  change (getitem (maintenance_alert plate text priority) "priority")
    with (Ok (VStr priority)).
  change (getitem (maintenance_alert plate text priority) "plate_number")
    with (Ok plate).
  change (get (maintenance_alert plate text priority) "alert" (VStr "No details"))
    with (VStr text).
  cbn [mbind res_bind py_eq].
  destruct (Dashboard.inventory_lines title _) as [ci wi] eqn:Ei. cbn [fst snd] in Hci, Hwi.
  exists plate, text, priority, ci, wi.
  split; [reflexivity|].
  split.
  { destruct (String.eqb priority "high"); cbn [mbind res_bind]; rewrite Ep;
      cbn [mbind res_bind]; rewrite Et; cbn [mbind res_bind]; reflexivity. }
  split; [exact Hlp|]. split; [exact Hlt|].
  unfold out_of_stock_line, low_stock_line, get_inventory in *. split.
  - intros l. rewrite Hci. by setoid_rewrite elem_of_map_to_list.
  - intros l. rewrite Hwi. by setoid_rewrite elem_of_map_to_list.
Qed.

End DashboardAlerts.

Lemma show_alerts_section_unbound_witness :
  get_maintenance_alerts read_isoformat Sample.now Sample.workshop = Ok []
  ∧ get_expiring_permits read_isoformat Sample.now 30 Sample.workshop = Ok []
  ∧ get_expiring_taxes read_isoformat Sample.now 30 Sample.workshop = Ok []
  ∧ Dashboard.show_alerts_section read_isoformat Text.title_ascii Sample.now
      Sample.workshop
    = Ok (inl "alert").
Proof.
  assert (H1 : get_maintenance_alerts read_isoformat Sample.now Sample.workshop = Ok [])
    by reflexivity.
  assert (H2 : get_expiring_permits read_isoformat Sample.now 30 Sample.workshop = Ok [])
    by reflexivity.
  assert (H3 : get_expiring_taxes read_isoformat Sample.now 30 Sample.workshop = Ok [])
    by reflexivity.
  repeat (split; [assumption|]).
  exact (show_alerts_section_unbound read_isoformat Text.title_ascii Sample.now
           Sample.workshop _ _ H1 H2 H3).
Defined.

Lemma show_alerts_section_last_alert_witness :
  get_maintenance_alerts read_isoformat Sample.now Sample.office
  = Ok [maintenance_alert (VStr "ABC-123") "No maintenance records found" "high";
        maintenance_alert (VStr "XYZ-9") "No maintenance records found" "high"]
  ∧ get_expiring_permits read_isoformat Sample.now 30 Sample.office
    = Ok [Sample.permit; Sample.old_permit]
  ∧ get_expiring_taxes read_isoformat Sample.now 30 Sample.office = Ok []
  ∧ has_key "plate_number" (permits Sample.office)
  ∧ has_key "plate_number" (token_tax Sample.office)
  ∧ ∃ inventory_critical inventory_warning,
      Dashboard.show_alerts_section read_isoformat Text.title_ascii Sample.now
        Sample.office
      = Ok (inr ([Dashboard.MaintenanceLine (VStr "XYZ-9")
                    (VStr "No maintenance records found");
                  Dashboard.PermitLine (VStr "ABC-123") 5;
                  Dashboard.PermitLine (VStr "XYZ-9") (-29)] ++ inventory_critical,
                 inventory_warning))
      ∧ (∀ l, l ∈ inventory_critical
              ↔ out_of_stock_line Text.title_ascii l (inventory Sample.office))
      ∧ (∀ l, l ∈ inventory_warning
              ↔ low_stock_line Text.title_ascii l (inventory Sample.office)).
Proof.
  assert (H1 : get_maintenance_alerts read_isoformat Sample.now Sample.office
               = Ok [maintenance_alert (VStr "ABC-123") "No maintenance records found"
                       "high";
                     maintenance_alert (VStr "XYZ-9") "No maintenance records found"
                       "high"]) by reflexivity.
  assert (H2 : get_expiring_permits read_isoformat Sample.now 30 Sample.office
               = Ok [Sample.permit; Sample.old_permit]) by reflexivity.
  assert (H3 : get_expiring_taxes read_isoformat Sample.now 30 Sample.office = Ok [])
    by reflexivity.
  repeat (split; [assumption || exact sample_permits_keyed || exact sample_taxes_keyed|]).
  destruct (show_alerts_section_last_alert read_isoformat Text.title_ascii Sample.now
              Sample.office _ _ _ _ H1 eq_refl H2 H3 sample_permits_keyed
              sample_taxes_keyed)
    as (plate & text & priority & ic & iw & Ha & E & _ & _ & Hic & Hiw).
  assert (Hplate : plate = VStr "XYZ-9").
  { apply (f_equal (λ a, a !! "plate_number")) in Ha.
    change (Some (VStr "XYZ-9") = Some plate) in Ha. by injection Ha. }
  assert (Htext : text = "No maintenance records found").
  { apply (f_equal (λ a, a !! "alert")) in Ha.
    change (Some (VStr "No maintenance records found") = Some (VStr text)) in Ha.
    by injection Ha. }
  assert (Hpriority : priority = "high").
  { apply (f_equal (λ a, a !! "priority")) in Ha.
    change (Some (VStr "high") = Some (VStr priority)) in Ha. by injection Ha. }
  subst plate text priority.
  exists ic, iw. split; [exact E|]. split; [exact Hic|exact Hiw].
Defined.

Example show_alerts_section_office :
  Dashboard.show_alerts_section read_isoformat Text.title_ascii Sample.now Sample.office
  = Ok (inr ([Dashboard.MaintenanceLine (VStr "XYZ-9") (VStr "No maintenance records found");
              Dashboard.PermitLine (VStr "ABC-123") 5;
              Dashboard.PermitLine (VStr "XYZ-9") (-29);
              Dashboard.OutOfStockLine "Oil"],
             [Dashboard.LowStockLine "Tires" 3])).
Proof. reflexivity. Qed.

(** ** The select-box labels *)

Lemma split_head_option p : ∀ d,
  no_space p = true → Text.split_head (Text.vehicle_option p d) = p.
Proof.
  induction p as [|c p IH]; intros d Hp; [by destruct d|].
  cbn [no_space] in Hp. apply andb_prop in Hp as [Hc Hp].
  apply negb_true_iff in Hc.
  change (Text.vehicle_option (String c p) d) with (String c (Text.vehicle_option p d)).
  cbn [Text.split_head String.prefix].
  rewrite Ascii.eqb_sym in Hc.
  destruct (ascii_dec " " c) as [<-|Hne]; [by rewrite Ascii.eqb_refl in Hc|].
  by rewrite IH.
Qed.

(** X18. The plate read back from a select-box label
    [f"{plate} - {driver}"] by [split(" - ")[0]] is the plate itself when
    the plate has no space; the add-load form then stores that plate in
    the load. *)
Theorem selected_plate_round_trip (p d : string) :
  no_space p = true →
  Text.split_head (Text.vehicle_option p d) = p
  ∧ (∀ now load_number f,
       LoadModule.selected_vehicle f = Text.vehicle_option p d →
       LoadModule.load_data_of now load_number f !! "plate_number" = Some (VStr p)).
Proof.
  intros Hp. pose proof (split_head_option p d Hp) as Hs. split; [done|].
  intros now load_number f Hf. unfold LoadModule.load_data_of. rewrite Hf, Hs.
  assert (Ht : truthy (VStr (Text.vehicle_option p d)) = true).
  { unfold Text.vehicle_option. cbn [truthy]. by destruct p. }
  rewrite Ht. cbn [list_to_map foldr]. rewrite lookup_insert_ne by done.
  apply lookup_insert_eq.
Qed.

Lemma selected_plate_round_trip_witness :
  no_space "ABC-123" = true
  ∧ Text.split_head (Text.vehicle_option "ABC-123" "Asif") = "ABC-123".
Proof.
  split; [reflexivity|].
  apply (selected_plate_round_trip "ABC-123" "Asif" eq_refl).
Defined.

(** A plate holding " - " is cut short. *)
Example selected_plate_cut : Text.split_head (Text.vehicle_option "AB - 1" "Asif") = "AB".
Proof. reflexivity. Qed.

(** ** A service silences the alert *)

Lemma string_ltb_antisym_eq a b :
  String.ltb a b = false → String.ltb b a = false → a = b.
Proof.
  unfold String.ltb. intros H1 H2.
  destruct (String.compare a b) eqn:E.
  - by apply String.compare_eq_iff.
  - discriminate.
  - rewrite String.compare_antisym, E in H2. discriminate.
Qed.

Section AfterService.

Variable fromisoformat : string → option datetime.

(** X21. A recorded service silences the maintenance alert: after
    [add_maintenance_record] succeeds at time [now] for plate [p], and as
    long as at most 90 whole days have passed since, [get_maintenance_alerts]
    returns no alert for [p].  It is assumed that time stamps read back as
    written, that the stored records are well formed, and that no stored
    record of the vehicle carries a later stamp. *)
Theorem service_silences_alert (now later : datetime)
    (maintenance_data : gmap string value) (p : string) (st st' : store)
    (message : string) :
  fromisoformat (isoformat now) = Some now →
  maintenance_data !! "plate_number" = Some (VStr p) →
  add_maintenance_record now maintenance_data st = Ok (true, message, st') →
  has_key "plate_number" (vehicles st) →
  has_key "plate_number" (maintenance st) →
  stamped fromisoformat (maintenance st) →
  (∀ m, m ∈ maintenance st → matches "plate_number" (VStr p) m →
        String.ltb (isoformat now) (created_at m) = false) →
  days_since later now ≤ 90 →
  ∃ alerts,
    get_maintenance_alerts fromisoformat later st' = Ok alerts
    ∧ ∀ a, a ∈ alerts → a !! "plate_number" ≠ Some (VStr p).
Proof.
  intros Hread Hp Hadd Hkv Hkm Hst Hlater Hdays.
  set (record := <["id" := VInt (Z.of_nat (length (maintenance st)) + 1)]>
                   (<["created_at" := VStr (isoformat now)]> maintenance_data)).
  assert (Hst' : vehicles st' = vehicles st
                 ∧ maintenance st' = maintenance st ++ [record]).
  { revert Hadd. unfold add_maintenance_record.
    destruct (deduct_oil _ _); [discriminate|].
    destruct (deduct_air_filter _ _); [discriminate|].
    destruct (deduct_tires _ _) as [[|]|]; cbn [mbind res_bind]; try discriminate.
    intros H.
    pose proof (f_equal (λ r, match r with Ok (_, _, s) => vehicles s | _ => [] end) H)
      as Hv.
    pose proof (f_equal (λ r, match r with Ok (_, _, s) => maintenance s | _ => [] end) H)
      as Hm.
    cbn in Hv, Hm. by rewrite <- Hv, <- Hm. }
  destruct Hst' as [Hv Hm].
  assert (Hrp : record !! "plate_number" = Some (VStr p))
    by (unfold record; by rewrite !lookup_insert_ne).
  assert (Hrc : created_at record = isoformat now).
  { unfold created_at, record. by rewrite lookup_insert_ne, lookup_insert_eq. }
  assert (Hrm : matches "plate_number" (VStr p) record).
  { exists (VStr p). split; [done|]. apply String.eqb_refl. }
  assert (Hkm' : has_key "plate_number" (maintenance st')).
  { rewrite Hm. intros m Hin. apply elem_of_app in Hin as [Hin|Hin]; [by apply Hkm|].
    apply list_elem_of_singleton in Hin as ->. by rewrite Hrp. }
  assert (Hst2 : stamped fromisoformat (maintenance st')).
  { rewrite Hm. intros m Hin. apply elem_of_app in Hin as [Hin|Hin]; [by apply Hst|].
    apply list_elem_of_singleton in Hin as ->. exists (isoformat now), now.
    split; [|done]. unfold record. by rewrite lookup_insert_ne, lookup_insert_eq. }
  unfold get_maintenance_alerts. rewrite Hv.
  destruct (flat_map_res_ok (vehicle_alerts fromisoformat later (maintenance st'))
              (λ _ out, ∀ a, a ∈ out → a !! "plate_number" ≠ Some (VStr p))
              (vehicles st)) as (outs & E & HF).
  { intros v Hin.
    destruct (vehicle_alerts_ok fromisoformat later (maintenance st') v)
      as (out & Eout & plate & Hplate & Hcases); [by apply Hkv|done|done|].
    exists out. split; [done|]. intros a Ha.
    assert (Hfield : ∀ text priority,
               a = maintenance_alert plate text priority →
               plate ≠ VStr p → a !! "plate_number" ≠ Some (VStr p)).
    { intros text priority -> Hne.
      destruct (maintenance_alert_shape plate text priority) as (_ & -> & _).
      congruence. }
    assert (Hdec : plate = VStr p ∨ plate ≠ VStr p).
    { destruct plate as [| | | |q|]; try (right; discriminate).
      destruct (string_dec q p) as [->|Hq]; [by left|right; congruence]. }
    destruct Hdec as [->|Hne].
    - exfalso.
      destruct Hcases as [[Hnone _]|(m & last & d & Hlatest & Hlast & Hwhole & Hd)].
      + apply (Hnone record); [|done]. rewrite Hm. apply elem_of_app. right.
        by apply list_elem_of_singleton.
      + destruct Hlatest as (Hin_m & Hmatch & Hmax).
        assert (Hc : created_at m = isoformat now).
        { apply string_ltb_antisym_eq.
          - rewrite <- Hrc. apply Hmax; [|done]. rewrite Hm. apply elem_of_app. right.
            by apply list_elem_of_singleton.
          - rewrite Hm in Hin_m. apply elem_of_app in Hin_m as [Hin_m|Hin_m].
            + by apply Hlater.
            + apply list_elem_of_singleton in Hin_m as ->. rewrite Hrc.
              apply string_ltb_irrefl. }
        rewrite Hc, Hread in Hlast. injection Hlast as <-. cbv zeta in Hd.
        apply whole_days_unique in Hwhole as ->.
        destruct Hd as [[_ ->]|[[? ->]|[? ->]]]; [by apply elem_of_nil in Ha|lia|lia].
    - destruct Hcases as [[_ ->]|(m & last & d & _ & _ & _ & Hd)].
      + apply list_elem_of_singleton in Ha. by eapply Hfield.
      + cbv zeta in Hd.
        destruct Hd as [[_ ->]|[[_ ->]|[_ ->]]];
          [by apply elem_of_nil in Ha| |];
          apply list_elem_of_singleton in Ha; by eapply Hfield. }
  exists (concat outs). split; [done|].
  intros a Ha. apply list_elem_of_In, in_concat in Ha as (out & Hout & Ha).
  apply list_elem_of_In in Hout, Ha.
  apply list_elem_of_lookup in Hout as [i Hi].
  destruct (Forall2_lookup_r _ _ _ _ _ HF Hi) as (v & _ & Hv'). by apply Hv'.
Qed.

End AfterService.

Lemma sample_stamps_not_later :
  ∀ m, m ∈ maintenance Sample.garage → matches "plate_number" (VStr "ABC-123") m →
       String.ltb (isoformat Sample.now) (created_at m) = false.
Proof.
  intros m Hm _. simpl in Hm.
  repeat (apply elem_of_cons in Hm as [->|Hm]; [reflexivity|]).
  by apply elem_of_nil in Hm.
Qed.

Lemma service_silences_alert_witness :
  read_isoformat (isoformat Sample.now) = Some Sample.now
  ∧ Sample.service !! "plate_number" = Some (VStr "ABC-123")
  ∧ has_key "plate_number" (vehicles Sample.garage)
  ∧ has_key "plate_number" (maintenance Sample.garage)
  ∧ stamped read_isoformat (maintenance Sample.garage)
  ∧ days_since Sample.later Sample.now ≤ 90
  ∧ ∃ st',
      add_maintenance_record Sample.now Sample.service Sample.garage
      = Ok (true, "Maintenance record added successfully", st')
      ∧ ∃ alerts,
          get_maintenance_alerts read_isoformat Sample.later st' = Ok alerts
          ∧ ∀ a, a ∈ alerts → a !! "plate_number" ≠ Some (VStr "ABC-123").
Proof.
  assert (H1 : read_isoformat (isoformat Sample.now) = Some Sample.now) by reflexivity.
  assert (H2 : Sample.service !! "plate_number" = Some (VStr "ABC-123")) by reflexivity.
  assert (H3 : days_since Sample.later Sample.now ≤ 90) by (by vm_compute).
  assert (E : ∃ st',
             add_maintenance_record Sample.now Sample.service Sample.garage
             = Ok (true, "Maintenance record added successfully", st'))
    by (eexists; reflexivity).
  split; [exact H1|]. split; [exact H2|]. split; [exact sample_vehicles_keyed|].
  split; [exact sample_maintenance_keyed|]. split; [exact sample_maintenance_stamped|].
  split; [exact H3|].
  destruct E as [st' E]. exists st'. split; [exact E|].
  exact (service_silences_alert read_isoformat Sample.now Sample.later Sample.service
           "ABC-123" Sample.garage st' _ H1 H2 E sample_vehicles_keyed
           sample_maintenance_keyed sample_maintenance_stamped
           sample_stamps_not_later H3).
Defined.

(** ** The add-vehicle form on the sample fleet *)

Lemma sample_yard_uppercased : plates_uppercased upper_ascii (vehicles Sample.yard).
Proof. exact sample_plates_uppercased. Qed.

Lemma sample_yard_numbered : has_key "permit_number" (permits Sample.yard).
Proof. each_element. Qed.

Lemma sample_yard_located : has_key "location" (permits Sample.yard).
Proof. each_element. Qed.

Lemma sample_plate_taken :
  plate_taken_ignoring_case upper_ascii (VehicleModule.plate_number Sample.duplicate_form)
    (vehicles Sample.yard).
Proof. exists Sample.truck, "ABC-123". split; [by left|]. by split. Qed.

Lemma show_add_vehicle_form_rejects_duplicate_witness :
  has_key "permit_number" (permits Sample.yard)
  ∧ has_key "location" (permits Sample.yard)
  ∧ plates_uppercased upper_ascii (vehicles Sample.yard)
  ∧ VehicleModule.plate_number Sample.duplicate_form ≠ ""
  ∧ VehicleModule.driver_name Sample.duplicate_form ≠ ""
  ∧ plate_taken_ignoring_case upper_ascii
      (VehicleModule.plate_number Sample.duplicate_form) (vehicles Sample.yard)
  ∧ VehicleModule.show_add_vehicle_form upper_ascii Sample.now Sample.duplicate_form
      Sample.yard
    = Ok (inr (false, "Vehicle with this plate number already exists", Sample.yard)).
Proof.
  assert (H1 : VehicleModule.plate_number Sample.duplicate_form ≠ "") by discriminate.
  assert (H2 : VehicleModule.driver_name Sample.duplicate_form ≠ "") by discriminate.
  split; [exact sample_yard_numbered|]. split; [exact sample_yard_located|].
  split; [exact sample_yard_uppercased|]. split; [exact H1|]. split; [exact H2|].
  split; [exact sample_plate_taken|].
  exact (show_add_vehicle_form_rejects_duplicate upper_ascii Sample.now
           Sample.duplicate_form Sample.yard sample_yard_numbered sample_yard_located
           sample_yard_uppercased H1 H2 sample_plate_taken).
Defined.

Lemma show_add_vehicle_form_keeps_uppercase_witness :
  (∀ s, upper_ascii (upper_ascii s) = upper_ascii s)
  ∧ plates_uppercased upper_ascii (vehicles Sample.yard)
  ∧ ∃ st',
      VehicleModule.show_add_vehicle_form upper_ascii Sample.now Sample.new_form
        Sample.yard
      = Ok (inr (true, "Vehicle added successfully", st'))
      ∧ plates_uppercased upper_ascii (vehicles st')
      ∧ ∃ record,
          vehicles st' = vehicles Sample.yard ++ [record]
          ∧ record !! "plate_number" = Some (VStr "NEW-7").
Proof.
  split; [exact upper_ascii_idemp|].
  split; [exact sample_yard_uppercased|].
  assert (E : ∃ st',
             VehicleModule.show_add_vehicle_form upper_ascii Sample.now Sample.new_form
               Sample.yard
             = Ok (inr (true, "Vehicle added successfully", st')))
    by (eexists; reflexivity).
  destruct E as [st' E]. exists st'. split; [exact E|].
  exact (show_add_vehicle_form_keeps_uppercase upper_ascii Sample.now Sample.new_form
           Sample.yard _ st' upper_ascii_idemp sample_yard_uppercased E).
Defined.

Example show_add_vehicle_form_stores_upper :
  ∃ st',
    VehicleModule.show_add_vehicle_form upper_ascii Sample.now Sample.new_form
      Sample.yard
    = Ok (inr (true, "Vehicle added successfully", st'))
    ∧ plates (vehicles st')
      = [Some (VStr "ABC-123"); Some (VStr "XYZ-9"); Some (VStr "NEW-7")].
Proof. eexists. split; reflexivity. Qed.

(** A stored permit without a location stops the form before the submit
    button is looked at. *)
Example show_add_vehicle_form_permit_without_location :
  VehicleModule.show_add_vehicle_form upper_ascii Sample.now Sample.new_form
    Sample.office
  = Raise (KeyError "location").
Proof. reflexivity. Qed.

(** With no required field filled in, nothing is saved. *)
Example show_add_vehicle_form_required :
  VehicleModule.show_add_vehicle_form upper_ascii Sample.now
    (VehicleModule.mk_vehicle_form "" "Asif" "" [] 0 "Tanker" "" 2020 "Diesel" "Active")
    Sample.yard
  = Ok (inl "Plate Number and Driver Name are required fields!").
Proof. reflexivity. Qed.
